(** * Ollama Navigator Buddy: planning and execution control loop

    A shallow embedding of [navigator_buddy.py]: the Model Gateway client
    ([OllamaClient.generate]), the Response Parser
    ([ReasoningEngine._extract_json]), the Planner ([ReasoningEngine.run],
    [ReasoningEngine._build_plan]), the Executor ([PlanExecutor.execute]) and
    the error triage, verification prompt and completion check of the Task
    Supervisor ([NavigatorBuddy.execute_agentic]).  The further parts are
    the model list and availability check of the gateway, the plan gate
    ([on_plan_ready], [execute_plan]), the handler of MOVE_FILE, and the
    parts of [execute_agentic] (what precedes the reflection loop, the loop
    and its turns, what follows it) with [_generate_alternative_plan] and
    [offer_task_continuation].

    Python values are the values [json.loads] can produce.  A Python [str] is
    a [string] holding its UTF-8 encoding.  Exceptions are explicit: a
    computation that may raise returns a [result].  Library functions whose
    behaviour the program only consumes ([json.loads], [repr], percent
    formatting, [int], the HTTP transport, the filesystem actions) are
    Section variables; concrete instances of them are given for evaluation. *)

From Stdlib Require Import ZArith List String Ascii Bool Lia PrimFloat FloatOps SpecFloat.
From Stdlib Require Uint63.
Import ListNotations.
Open Scope string_scope.
Set Warnings "-register-all,-inexact-float".

(** ** Python values and exceptions *)

Inductive json : Type :=
| JNull
| JBool (b : bool)
| JInt (z : Z)
| JFloat (f : float)
| JStr (s : string)
| JArr (l : list json)
| JObj (kvs : list (string * json)).

Inductive exn_class : Type :=
| TypeError | AttributeError | ValueError | JSONDecodeError
| KeyError | IndexError | OverflowError | RecursionError
| ConnectionError | HTTPError | Timeout | OSError.

Record exn : Type := mkExn { exn_kind : exn_class; exn_text : string }.

Inductive result (A : Type) : Type :=
| Ret (a : A)
| Raise (e : exn).
Arguments Ret {A} a.
Arguments Raise {A} e.

Definition bind {A B : Type} (r : result A) (k : A -> result B) : result B :=
  match r with
  | Ret a => k a
  | Raise e => Raise e
  end.

Notation "x <- c ;; k" := (bind c (fun x => k))
  (at level 61, c at next level, right associativity).

(** [try: body  except Exception as e: handler e] *)
Definition try_except {A : Type} (body : result A) (handler : exn -> result A) : result A :=
  match body with
  | Ret a => Ret a
  | Raise e => handler e
  end.

Definition dquote : ascii := Eval cbv in ascii_of_nat 34.
Definition newline : ascii := Eval cbv in ascii_of_nat 10.
Definition nl : string := String newline EmptyString.
Definition dq : string := String dquote EmptyString.

(** [bool(v)] *)
Definition py_truthy (v : json) : bool :=
  match v with
  | JNull => false
  | JBool b => b
  | JInt z => negb (z =? 0)%Z
  | JFloat f => negb (PrimFloat.eqb f 0%float)
  | JStr s => negb (s =? "")
  | JArr l => match l with [] => false | _ => true end
  | JObj kvs => match kvs with [] => false | _ => true end
  end.

Definition is_dict (v : json) : bool := match v with JObj _ => true | _ => false end.
Definition is_str (v : json) : bool := match v with JStr _ => true | _ => false end.

(** [type(v)] as printed by an f-string. *)
Definition type_name (v : json) : string :=
  match v with
  | JNull => "NoneType"
  | JBool _ => "bool"
  | JInt _ => "int"
  | JFloat _ => "float"
  | JStr _ => "str"
  | JArr _ => "list"
  | JObj _ => "dict"
  end.

Definition type_repr (v : json) : string := "<class '" ++ type_name v ++ "'>".

(** A [dict] is an association list in insertion order; the first binding of a
    key is the one the dict holds. *)
Fixpoint assoc (kvs : list (string * json)) (key : string) : option json :=
  match kvs with
  | [] => None
  | (k, v) :: rest => if k =? key then Some v else assoc rest key
  end.

(** [d.get(key, default)] on a dict. *)
Definition dict_get (kvs : list (string * json)) (key : string) (default : json) : json :=
  match assoc kvs key with
  | Some v => v
  | None => default
  end.

(** [v.get(key, default)] on any value: only a dict has [get]. *)
Definition py_get (v : json) (key : string) (default : json) : result json :=
  match v with
  | JObj kvs => Ret (dict_get kvs key default)
  | _ => Raise (mkExn AttributeError ("'" ++ type_name v ++ "' object has no attribute 'get'"))
  end.

(** ** Text primitives on UTF-8 strings *)

Fixpoint contains_char (c : ascii) (s : string) : bool :=
  match s with
  | EmptyString => false
  | String a r => (a =? c)%char || contains_char c r
  end.

Fixpoint is_prefix (p s : string) : bool :=
  match p, s with
  | EmptyString, _ => true
  | String a p', String b s' => (a =? b)%char && is_prefix p' s'
  | String _ _, EmptyString => false
  end.

Fixpoint strip_prefix (p s : string) : option string :=
  match p, s with
  | EmptyString, _ => Some s
  | String a p', String b s' => if (a =? b)%char then strip_prefix p' s' else None
  | String _ _, EmptyString => None
  end.

(** [sub in s] *)
Fixpoint contains (sub s : string) : bool :=
  is_prefix sub s ||
  match s with
  | EmptyString => false
  | String _ r => contains sub r
  end.

(** Width in bytes of the whitespace code point at the head of [s], or 0:
    the characters for which [str.isspace] holds, which are also the ones the
    pattern [\s] matches on a [str]. *)
Definition ws_width (s : string) : nat :=
  match s with
  | EmptyString => 0
  | String a r =>
    let n := nat_of_ascii a in
    if ((9 <=? n) && (n <=? 13)) || ((28 <=? n) && (n <=? 32)) then 1
    else
      match r with
      | EmptyString => 0
      | String b r2 =>
        let m := nat_of_ascii b in
        if (n =? 194) && ((m =? 133) || (m =? 160)) then 2
        else
          match r2 with
          | EmptyString => 0
          | String c _ =>
            let k := nat_of_ascii c in
            if (n =? 225) && (m =? 154) && (k =? 128) then 3
            else if (n =? 226) && (m =? 128) &&
                    (((128 <=? k) && (k <=? 138)) || (k =? 168) || (k =? 169) || (k =? 175))
            then 3
            else if (n =? 226) && (m =? 129) && (k =? 159) then 3
            else if (n =? 227) && (m =? 128) && (k =? 128) then 3
            else 0
          end
      end
  end%nat.

(** Drop leading whitespace; [pending] bytes of the current whitespace code
    point are still to be dropped. *)
Fixpoint drop_ws (pending : nat) (s : string) {struct s} : string :=
  match s with
  | EmptyString => EmptyString
  | String _ r =>
    match pending with
    | S p => drop_ws p r
    | O =>
      match ws_width s with
      | O => s
      | S w => drop_ws w r
      end
    end
  end.

Definition lstrip (s : string) : string := drop_ws 0 s.

Fixpoint all_ws (pending : nat) (s : string) {struct s} : bool :=
  match s with
  | EmptyString => true
  | String _ r =>
    match pending with
    | S p => all_ws p r
    | O =>
      match ws_width s with
      | O => false
      | S w => all_ws w r
      end
    end
  end.

Fixpoint rstrip (s : string) : string :=
  if all_ws 0 s then EmptyString
  else
    match s with
    | EmptyString => EmptyString
    | String a r => String a (rstrip r)
    end.

(** [s.strip()] *)
Definition strip (s : string) : string := rstrip (lstrip s).

(** [s.split(sep)] for a one-character separator: [cur] is the piece being
    read. *)
Fixpoint split_on (sep : ascii) (cur : string) (s : string) : list string :=
  match s with
  | EmptyString => [cur]
  | String a r =>
    if (a =? sep)%char then cur :: split_on sep EmptyString r
    else split_on sep (cur ++ String a EmptyString) r
  end.

Definition split (sep : ascii) (s : string) : list string := split_on sep EmptyString s.

(** [sep.join(pieces)] *)
Fixpoint join (sep : string) (pieces : list string) : string :=
  match pieces with
  | [] => EmptyString
  | [p] => p
  | p :: rest => p ++ sep ++ join sep rest
  end.

(** [s.replace(a, b)] for single characters. *)
Fixpoint replace_char (a b : ascii) (s : string) : string :=
  match s with
  | EmptyString => EmptyString
  | String c r => String (if (c =? a)%char then b else c) (replace_char a b r)
  end.

(** A byte that continues a multi-byte code point. *)
Definition is_continuation (a : ascii) : bool :=
  let n := nat_of_ascii a in ((128 <=? n) && (n <? 192))%nat.

(** [len(s)]: the number of code points. *)
Fixpoint char_len (s : string) : nat :=
  match s with
  | EmptyString => 0
  | String a r => if is_continuation a then char_len r else S (char_len r)
  end.

(** [s[:n]]: the first [n] code points. *)
Fixpoint take_chars (n : nat) (s : string) : string :=
  match s with
  | EmptyString => EmptyString
  | String a r =>
    if is_continuation a then String a (take_chars n r)
    else
      match n with
      | O => EmptyString
      | S n' => String a (take_chars n' r)
      end
  end.

(** Decimal text of an integer, as [str(n)] prints it. *)
Fixpoint digits_of (fuel : nat) (n : N) (acc : string) : string :=
  match fuel with
  | O => acc
  | S fuel' =>
    let d := String (ascii_of_N (48 + N.modulo n 10)) acc in
    if (n <? 10)%N then d else digits_of fuel' (N.div n 10) d
  end.

Definition str_of_N (n : N) : string := digits_of (S (N.to_nat (N.log2 n))) n EmptyString.

Definition str_of_Z (z : Z) : string :=
  if (z <? 0)%Z then "-" ++ str_of_N (Z.abs_N z) else str_of_N (Z.abs_N z).

Definition str_of_nat (n : nat) : string := str_of_N (N.of_nat n).

(** ** Response Parser: the patterns of [_extract_json]

    The three patterns are
    [```json\s*({.*?})\s*```], [```\s*({.*?})\s*```] and [`({.*?})`],
    searched with [re.DOTALL].  [\s*] is greedy, and because the character
    that must follow it is never whitespace it takes all the whitespace
    there is; [.*?] is lazy and grows one character at a time until the rest
    of the pattern matches. *)

Record fence_pattern : Type := mkPattern {
  pat_open : string;     (* literal text before the group *)
  pat_ws : bool;         (* whether [\s*] surrounds the group *)
  pat_close : string     (* literal text after the group *)
}.

Definition backticks3 : string := "```".

Definition code_block_patterns : list fence_pattern :=
  [ mkPattern (backticks3 ++ "json") true backticks3;
    mkPattern backticks3 true backticks3;
    mkPattern "`" false "`" ].

(** What follows the closing brace of the group. *)
Definition closes (p : fence_pattern) (rest : string) : bool :=
  is_prefix (pat_close p) (if pat_ws p then lstrip rest else rest).

(** [.*?}] followed by the closing of the pattern: the shortest body. *)
Fixpoint lazy_body (p : fence_pattern) (s : string) : option string :=
  match s with
  | EmptyString => None
  | String c r =>
    if (c =? "}")%char && closes p r then Some EmptyString
    else option_map (String c) (lazy_body p r)
  end.

(** The pattern matched at the head of [s]; the result is group 1. *)
Definition match_here (p : fence_pattern) (s : string) : option string :=
  match strip_prefix (pat_open p) s with
  | None => None
  | Some r =>
    match (if pat_ws p then lstrip r else r) with
    | String c body =>
      if (c =? "{")%char
      then option_map (fun b => "{" ++ b ++ "}") (lazy_body p body)
      else None
    | EmptyString => None
    end
  end.

(** [re.search(pattern, s, re.DOTALL).group(1)]: the leftmost match. *)
Fixpoint re_search (p : fence_pattern) (s : string) : option string :=
  match match_here p s with
  | Some g => Some g
  | None =>
    match s with
    | EmptyString => None
    | String _ r => re_search p r
    end
  end.

(** [response.find('{')]: the suffix that starts at the first brace. *)
Fixpoint from_first_brace (s : string) : option string :=
  match s with
  | EmptyString => None
  | String c r => if (c =? "{")%char then Some s else from_first_brace r
  end.

(** The balanced-brace scan of strategy 2, started at the first brace: the
    number of characters up to and including the brace that brings
    [brace_count] back to zero ([json_end - json_start]). *)
Fixpoint scan_braces (s : string) (brace_count : Z) (in_string escape_next : bool)
  : option nat :=
  match s with
  | EmptyString => None
  | String char r =>
    if escape_next then option_map S (scan_braces r brace_count in_string false)
    else if (char =? "\")%char then option_map S (scan_braces r brace_count in_string true)
    else if (char =? dquote)%char then option_map S (scan_braces r brace_count (negb in_string) false)
    else if negb in_string then
      if (char =? "{")%char then option_map S (scan_braces r (brace_count + 1) in_string false)
      else if (char =? "}")%char then
        if (brace_count - 1 =? 0)%Z then Some 1
        else option_map S (scan_braces r (brace_count - 1) in_string false)
      else option_map S (scan_braces r brace_count in_string false)
    else option_map S (scan_braces r brace_count in_string false)
  end.

Fixpoint take_bytes (n : nat) (s : string) : string :=
  match n, s with
  | S n', String a r => String a (take_bytes n' r)
  | _, _ => EmptyString
  end.

(** [re.sub(r',(\s*[}\]])', r'\1', s)]: drop each comma that is followed, after
    optional whitespace, by a closing brace or bracket. *)
Fixpoint fix_trailing_commas (s : string) : string :=
  match s with
  | EmptyString => EmptyString
  | String c r =>
    if (c =? ",")%char && (is_prefix "}" (lstrip r) || is_prefix "]" (lstrip r))
    then fix_trailing_commas r
    else String c (fix_trailing_commas r)
  end.

(** ** Data model *)

Inductive OperationType : Type :=
| READ_ONLY       (* open, navigate, search - safe *)
| MODIFY          (* modify, append, remove, save - needs confirmation *)
| DESTRUCTIVE     (* delete - always confirm, high threshold *)
| SYSTEM.         (* terminal commands - always confirm *)

Definition OperationType_eqb (a b : OperationType) : bool :=
  match a, b with
  | READ_ONLY, READ_ONLY | MODIFY, MODIFY
  | DESTRUCTIVE, DESTRUCTIVE | SYSTEM, SYSTEM => true
  | _, _ => false
  end.

(** The fields hold whatever the model's JSON held: [_build_plan] copies them
    without checking their types. *)
Record ExecutionPlan : Type := mkPlan {
  summary : json;
  steps : json;
  overall_confidence : json;
  operation_type : OperationType;
  requires_confirmation : bool
}.

(** A key that is a list or a dict cannot be hashed. *)
Definition hashable (v : json) : bool :=
  match v with
  | JArr _ | JObj _ => false
  | _ => true
  end.

Definition unhashable (v : json) : exn :=
  mkExn TypeError ("unhashable type: '" ++ type_name v ++ "'").

Definition op_type_map : list (string * OperationType) :=
  [ ("READ_ONLY", READ_ONLY);
    ("MODIFY", MODIFY);
    ("DESTRUCTIVE", DESTRUCTIVE);
    ("SYSTEM", SYSTEM) ].

Fixpoint lookup {A : Type} (table : list (string * A)) (key : string) : option A :=
  match table with
  | [] => None
  | (k, v) :: rest => if k =? key then Some v else lookup rest key
  end.

(** [table.get(key)] on a dict with [str] keys: a key of another type equals
    none of them, and a key that cannot be hashed raises. *)
Definition table_find {A : Type} (table : list (string * A)) (key : json)
  : result (option A) :=
  match key with
  | JStr s => Ret (lookup table s)
  | JArr _ | JObj _ => Raise (unhashable key)
  | _ => Ret None
  end.

(** [table.get(key, default)] *)
Definition table_get {A : Type} (table : list (string * A)) (key : json) (default : A)
  : result A :=
  found <- table_find table key ;;
  Ret (match found with Some v => v | None => default end).

(** [ReasoningEngine._build_plan] *)
Definition _build_plan (plan_data : json) : result ExecutionPlan :=
  op_type_str <- py_get plan_data "operation_type" (JStr "READ_ONLY") ;;
  op_type <- table_get op_type_map op_type_str READ_ONLY ;;
  (* Destructive and system operations always require confirmation *)
  let requires_confirm :=
    existsb (OperationType_eqb op_type) [DESTRUCTIVE; SYSTEM; MODIFY] in
  summary_ <- py_get plan_data "summary" (JStr "No summary provided") ;;
  steps_ <- py_get plan_data "steps" (JArr []) ;;
  confidence_ <- py_get plan_data "overall_confidence" (JFloat 0%float) ;;
  Ret (mkPlan summary_ steps_ confidence_ op_type requires_confirm).

(** ** Response Parser *)

Section ResponseParser.

(** [json.loads]: the decoded value, or the exception it raises
    ([JSONDecodeError] for malformed text; others, such as [RecursionError],
    are possible). *)
Variable json_loads : string -> result json.

(** [try: return json.loads(s)  except: ...]: any exception is swallowed. *)
Definition try_loads (s : string) : option json :=
  match json_loads s with
  | Ret v => Some v
  | Raise _ => None
  end.

(** Strategy 1: the first pattern that matches and whose group parses. *)
Fixpoint strategy_code_blocks (patterns : list fence_pattern) (response : string)
  : option json :=
  match patterns with
  | [] => None
  | pattern :: rest =>
    match re_search pattern response with
    | Some group1 =>
      match try_loads group1 with
      | Some v => Some v
      | None => strategy_code_blocks rest response
      end
    | None => strategy_code_blocks rest response
    end
  end.

(** How a strategy ends: it returns a value, lets an exception escape, or
    falls through to the next strategy. *)
Inductive strategy_end : Type :=
| Returns (v : json)
| Escapes (e : exn)
| FallsThrough.

(** Strategies 2 and 3: the first balanced object, parsed as it is and then
    with trailing commas removed.  Only [JSONDecodeError] is caught around
    the first parse. *)
Definition strategy_balanced (response : string) : strategy_end :=
  match from_first_brace response with
  | None => FallsThrough
  | Some suffix =>
    match scan_braces suffix 0 false false with
    | None => FallsThrough
    | Some span =>
      let json_str := take_bytes span suffix in
      match json_loads json_str with
      | Ret v => Returns v
      | Raise e =>
        match exn_kind e with
        | JSONDecodeError =>
          match try_loads (fix_trailing_commas json_str) with
          | Some v => Returns v
          | None => FallsThrough
          end
        | _ => Escapes e
        end
      end
    end
  end.

(** Strategy 5: accumulate lines from the first one that holds an opening
    brace, and parse what has been accumulated after each line that holds a
    closing brace. *)
Fixpoint strategy_lines (lines : list string) (json_lines : list string) (in_json : bool)
  : option json :=
  match lines with
  | [] => None
  | line :: rest =>
    let in_json1 := if contains_char "{" line && negb in_json then true else in_json in
    let json_lines1 := if in_json1 then (json_lines ++ [line])%list else json_lines in
    if contains_char "}" line && in_json1 then
      match try_loads (join nl json_lines1) with
      | Some v => Some v
      | None => strategy_lines rest json_lines1 in_json1
      end
    else strategy_lines rest json_lines1 in_json1
  end.

(** [ReasoningEngine._extract_json].  [None] is [JNull].  A response that is
    not a [str] makes [re.search] raise [TypeError]. *)
Definition _extract_json (response : json) : result json :=
  match response with
  | JStr text =>
    match strategy_code_blocks code_block_patterns text with
    | Some v => Ret v
    | None =>
      match strategy_balanced text with
      | Returns v => Ret v
      | Escapes e => Raise e
      | FallsThrough =>
        match try_loads (strip text) with
        | Some v => Ret v
        | None =>
          match strategy_lines (split newline text) [] false with
          | Some v => Ret v
          | None => Ret JNull
          end
        end
      end
    end
  | _ => Raise (mkExn TypeError "expected string or bytes-like object")
  end.

End ResponseParser.

(** ** Model Gateway: [OllamaClient] *)

(** What [requests.post] does: it raises (connection refused, timeout), or it
    returns a response object whose [raise_for_status()] may raise and whose
    [json()] yields the decoded body or raises. *)
Record http_response : Type := mkResponse {
  raise_for_status : option exn;
  response_json : result json
}.

Inductive post_outcome : Type :=
| PostRaises (e : exn)
| PostReturns (r : http_response).

Definition transport : Type := string -> json -> Z -> post_outcome.

Definition generate_payload (prompt model system : json) (stream : bool) : json :=
  JObj [ ("model", model);
         ("prompt", prompt);
         ("system", system);
         ("stream", JBool stream);
         ("options", JObj [ ("temperature", JFloat 0.7%float);
                            ("top_p", JFloat 0.9%float) ]) ].

(** The body of the [try] block of [OllamaClient.generate]. *)
Definition generate_request (post : transport) (base_url : string)
  (prompt model system : json) (stream : bool) : result json :=
  let payload := generate_payload prompt model system stream in
  match post (base_url ++ "/api/generate") payload 300%Z with
  | PostRaises e => Raise e
  | PostReturns response =>
    match raise_for_status response with
    | Some e => Raise e
    | None =>
      body <- response_json response ;;
      py_get body "response" (JStr EmptyString)
    end
  end.

(** [OllamaClient.generate] *)
Definition generate (post : transport) (base_url : string)
  (prompt model system : json) (stream : bool) : result json :=
  try_except (generate_request post base_url prompt model system stream)
             (fun e => Ret (JStr ("Error: " ++ exn_text e))).

(** ** Planner: [ReasoningEngine] *)

Definition SYSTEM_PROMPT : string :=
  "You are a file navigation and management assistant. Your role is to:
1. Analyze the user's request carefully
2. Reason through what actions are needed step by step
3. Create a clear execution plan
4. Assess your confidence in understanding the request

Available actions you can plan:
- OPEN_TERMINAL: Open a terminal window (params: path)
- NAVIGATE: Navigate to a directory (params: path)
- OPEN_FILE: Open a file for viewing/editing (params: path)
- MOVE_FILE: Move or rename a file (params: source, destination)
- COPY_FILE: Copy a file (params: source, destination)
- MODIFY_TEXT: Modify text in an open file (params: old_text, new_text)
- SEARCH_TEXT: Search for text in file(s) (params: pattern, path)
- GENERATE_TEXT: Generate new text content (params: prompt, target_path)
- APPEND_TEXT: Append text to a file (params: text, path)
- REMOVE_TEXT: Remove specific text from a file (params: text, path)
- SAVE_FILE: Save the current file (params: path)
- CLOSE_FILE: Close a file (params: path)
- DELETE_FILE: Delete a file (params: path) [DESTRUCTIVE - requires confirmation]
- DELETE_TEXT: Delete text content (params: text, path)

Respond in JSON format:
{
    " ++ dq ++ "reasoning" ++ dq ++ ": [
        {" ++ dq ++ "thought" ++ dq ++ ": " ++ dq ++ "First, I understand the user wants to..." ++ dq ++ ", " ++ dq ++ "confidence" ++ dq ++ ": 0.9},
        {" ++ dq ++ "thought" ++ dq ++ ": " ++ dq ++ "This requires me to..." ++ dq ++ ", " ++ dq ++ "confidence" ++ dq ++ ": 0.95}
    ],
    " ++ dq ++ "plan" ++ dq ++ ": {
        " ++ dq ++ "summary" ++ dq ++ ": " ++ dq ++ "Brief description of what will be done" ++ dq ++ ",
        " ++ dq ++ "steps" ++ dq ++ ": [
            {" ++ dq ++ "action" ++ dq ++ ": " ++ dq ++ "ACTION_NAME" ++ dq ++ ", " ++ dq ++ "params" ++ dq ++ ": {...}, " ++ dq ++ "description" ++ dq ++ ": " ++ dq ++ "Human readable step" ++ dq ++ "}
        ],
        " ++ dq ++ "overall_confidence" ++ dq ++ ": 0.95,
        " ++ dq ++ "operation_type" ++ dq ++ ": " ++ dq ++ "READ_ONLY|MODIFY|DESTRUCTIVE|SYSTEM" ++ dq ++ "
    }
}

Be conservative with confidence scores. If anything is ambiguous, ask for clarification.
For destructive operations (delete), always set overall_confidence lower and flag for confirmation.".

Inductive signal : Type :=
| reasoning_update (message : string)
| plan_ready (plan : ExecutionPlan)
| error_occurred (message : string).

(** A computation that emits signals and then returns or raises; what was
    emitted before an exception stays emitted. *)
Definition emitting (A : Type) : Type := (list signal * result A)%type.

Definition emit (message : string) : emitting unit := ([reasoning_update message], Ret tt).

Definition lift {A : Type} (r : result A) : emitting A := ([], r).

Definition ebind {A B : Type} (c : emitting A) (k : A -> emitting B) : emitting B :=
  match c with
  | (out, Ret a) => let (out', r) := k a in ((out ++ out')%list, r)
  | (out, Raise e) => (out, Raise e)
  end.

Notation "x <~ c ;; k" := (ebind c (fun x => k))
  (at level 61, c at next level, right associativity).

(** The code points of a [str], each as a one-character [str]; [cur] is the
    code point being read. *)
Fixpoint chars_from (cur : option string) (s : string) : list string :=
  match s with
  | EmptyString => match cur with Some c => [c] | None => [] end
  | String a r =>
    let one := String a EmptyString in
    if is_continuation a
    then chars_from (Some (match cur with Some c => c ++ one | None => one end)) r
    else
      match cur with
      | Some c => c :: chars_from (Some one) r
      | None => chars_from (Some one) r
      end
  end.

Definition chars (s : string) : list string := chars_from None s.

(** The keys of a dict, each once, in insertion order. *)
Fixpoint dict_keys (seen : list string) (kvs : list (string * json)) : list string :=
  match kvs with
  | [] => []
  | (k, _) :: rest =>
    if existsb (String.eqb k) seen then dict_keys seen rest
    else k :: dict_keys (k :: seen) rest
  end.

(** [for x in v]: the items the loop visits. *)
Definition py_iter (v : json) : result (list json) :=
  match v with
  | JArr l => Ret l
  | JObj kvs => Ret (map JStr (dict_keys [] kvs))
  | JStr s => Ret (map JStr (chars s))
  | _ => Raise (mkExn TypeError ("'" ++ type_name v ++ "' object is not iterable"))
  end.

(** Exact comparison of an integer with a binary64 float; [None] for NaN. *)
Definition Z_compare_float (z : Z) (t : float) : option comparison :=
  match Prim2SF t with
  | S754_nan => None
  | S754_infinity negative => Some (if negative then Gt else Lt)
  | S754_zero _ => Some (z ?= 0)%Z
  | S754_finite negative m e =>
    let mz := if negative then Z.neg m else Z.pos m in
    if (0 <=? e)%Z then Some (z ?= mz * 2 ^ e)%Z else Some (z * 2 ^ (- e) ?= mz)%Z
  end.

(** [z >= t] *)
Definition Z_ge_float (z : Z) (t : float) : bool :=
  match Z_compare_float z t with
  | Some Lt | None => false
  | Some _ => true
  end.

(** [z == t] *)
Definition Z_eq_float (z : Z) (t : float) : bool :=
  match Z_compare_float z t with
  | Some Eq => true
  | _ => false
  end.

(** [v >= t] for a float [t]. *)
Definition py_ge_float (v : json) (t : float) : result bool :=
  match v with
  | JBool b => Ret (Z_ge_float (if b then 1 else 0) t)
  | JInt z => Ret (Z_ge_float z t)
  | JFloat f => Ret (PrimFloat.leb t f)
  | _ => Raise (mkExn TypeError
           ("'>=' not supported between instances of '" ++ type_name v ++ "' and 'float'"))
  end.

Section Planner.

Variable json_loads : string -> result json.
(** [repr(v)] for the values that are not a [str]. *)
Variable py_repr : json -> string.
(** [format(v, '.0%')], which raises on a value that is not a number. *)
Variable format_pct : json -> result string.
(** The transport as it behaves at the k-th call of the Model Gateway. *)
Variable post_at : nat -> transport.
(** [self._cancelled] as read at the n-th read; another thread sets it. *)
Variable cancelled : nat -> bool.

Variable base_url : string.
Variable model : json.
Variable user_input : json.
Variable context : list (string * json).
Variable max_loops : Z.
Variable confidence_threshold : float.

(** [str(v)], and [{v}] in an f-string. *)
Definition to_str (v : json) : string :=
  match v with
  | JStr s => s
  | _ => py_repr v
  end.

(** [', '.join(v)] *)
Definition join_strs (sep : string) (v : json) : result string :=
  items <- py_iter v ;;
  (fix go (l : list json) (acc : list string) : result string :=
     match l with
     | [] => Ret (join sep acc)
     | JStr s :: rest => go rest (acc ++ [s])%list
     | other :: _ =>
       Raise (mkExn TypeError ("sequence item: expected str instance, " ++
                               type_name other ++ " found"))
     end) items [].

(** The context-aware prompt built before the loop. *)
Definition initial_context_str : result string :=
  open_files <- join_strs ", " (dict_get context "open_files" (JArr [])) ;;
  Ret (nl ++ "Current directory: " ++ to_str (dict_get context "current_dir" (JStr "Unknown")) ++ nl ++
       "Open files: " ++ (if open_files =? "" then "None" else open_files) ++ nl ++
       "Selected item: " ++ to_str (dict_get context "selected_item" (JStr "None")) ++ nl ++
       nl ++
       "User request: " ++ to_str user_input ++ nl).

(** Emit the reasoning steps of a parsed response. *)
Fixpoint emit_reasoning (rsteps : list json) : emitting unit :=
  match rsteps with
  | [] => ([], Ret tt)
  | step :: rest =>
    thought <~ lift (py_get step "thought" (JStr EmptyString)) ;;
    confidence <~ lift (py_get step "confidence" (JInt 0)) ;;
    pct <~ lift (format_pct confidence) ;;
    _ <~ emit ("💭 " ++ to_str thought ++ " (confidence: " ++ pct ++ ")") ;;
    emit_reasoning rest
  end.

(** [response[:500].replace('\n', ' ') if len(response) > 500 else
    response.replace('\n', ' ')] *)
Definition response_preview (response : json) : result string :=
  match response with
  | JStr s =>
    Ret (replace_char newline " "
           (if (500 <? char_len s)%nat then take_chars 500 s else s))
  | _ => Raise (mkExn AttributeError
                  ("'" ++ type_name response ++ "' object has no attribute 'replace'"))
  end.

(** How the [try] block of one iteration ends when it does not raise. *)
Inductive attempt_end : Type :=
| Accepted (plan : ExecutionPlan)     (* [final_plan] is set; [break] *)
| Refined (context_str : string).     (* the loop goes on with this prompt *)

(** The [try] block of one iteration. *)
Definition attempt (context_str : string) (response : json) : emitting attempt_end :=
  parsed <~ lift (_extract_json json_loads response) ;;
  if py_truthy parsed then
    reasoning <~ lift (py_get parsed "reasoning" (JArr [])) ;;
    rsteps <~ lift (py_iter reasoning) ;;
    _ <~ emit_reasoning rsteps ;;
    plan_data <~ lift (py_get parsed "plan" (JObj [])) ;;
    confidence <~ lift (py_get plan_data "overall_confidence" (JInt 0)) ;;
    (* Check if confidence is high enough *)
    enough <~ lift (py_ge_float confidence confidence_threshold) ;;
    if (enough : bool) then
      plan <~ lift (_build_plan plan_data) ;;
      ([], Ret (Accepted plan))
    else
      pct <~ lift (format_pct confidence) ;;
      threshold_pct <~ lift (format_pct (JFloat confidence_threshold)) ;;
      _ <~ emit ("⚠️ Confidence " ++ pct ++ " below threshold " ++
                 threshold_pct ++ ", reasoning again...") ;;
      (* Add clarification request to context *)
      pct' <~ lift (format_pct confidence) ;;
      ([], Ret (Refined (context_str ++ nl ++ nl ++ "Previous attempt confidence: " ++ pct' ++
                         ". Please be more specific or ask for clarification if needed.")))
  else
    (* Show snippet of response for debugging *)
    preview <~ lift (response_preview response) ;;
    _ <~ emit "⚠️ Could not parse response." ;;
    _ <~ emit ("📄 Response preview: " ++ preview ++ "...") ;;
    _ <~ emit "🔄 Retrying with clearer instructions..." ;;
    (* Add explicit JSON request to context *)
    ([], Ret (Refined (context_str ++ nl ++ nl ++
       "IMPORTANT: You MUST respond with valid JSON only. No extra text before or after the JSON object."))).

(** The [except Exception as e] block of one iteration. *)
Definition parse_error_signals (e : exn) (response : json) : list signal :=
  [ reasoning_update ("⚠️ Parse error: " ++ exn_text e);
    reasoning_update ("📄 Response was: " ++
                      replace_char newline " " (take_chars 300 (to_str response)) ++ "...");
    reasoning_update "🔄 Retrying..." ].

Record run_state : Type := mkState {
  loop_count : Z;
  context_str : string;
  final_plan : option ExecutionPlan;
  emitted : list signal
}.

Inductive flow : Type :=
| Next (st : run_state)       (* back to the loop test *)
| Break (st : run_state)      (* [break] *)
| Return (st : run_state)     (* [return] *)
| Uncaught (e : exn) (st : run_state).   (* an exception leaves the loop *)

(** The loop test [loop_count < self.max_loops and not self._cancelled] of
    iteration [k]. *)
Definition loop_test (k : nat) (st : run_state) : bool :=
  (loop_count st <? max_loops)%Z && negb (cancelled (2 * k)).

(** The loop body, iteration [k]. *)
Definition loop_body (k : nat) (st : run_state) : flow :=
  let loop_count' := (loop_count st + 1)%Z in
  let out := (emitted st ++
              [reasoning_update ("🔄 Reasoning loop " ++ str_of_Z loop_count' ++ "/" ++
                                  str_of_Z max_loops ++ "...")])%list in
  match generate (post_at k) base_url (JStr (context_str st)) model (JStr SYSTEM_PROMPT) false with
  | Raise e => Uncaught e (mkState loop_count' (context_str st) (final_plan st) out)
  | Ret response =>
    if cancelled (2 * k + 1) then
      Return (mkState loop_count' (context_str st) (final_plan st) out)
    else
      match attempt (context_str st) response with
      | (sigs, Ret (Accepted plan)) =>
        Break (mkState loop_count' (context_str st) (Some plan) (out ++ sigs)%list)
      | (sigs, Ret (Refined context_str')) =>
        Next (mkState loop_count' context_str' (final_plan st) (out ++ sigs)%list)
      | (sigs, Raise e) =>
        Next (mkState loop_count' (context_str st) (final_plan st)
                      (out ++ sigs ++ parse_error_signals e response)%list)
      end
  end.

(** How the [while] loop is left, after how many iterations. *)
Inductive loop_end : Type :=
| Fell (iterations : nat) (st : run_state)      (* test failed, or [break] *)
| Returned (iterations : nat) (st : run_state)
| Failed (iterations : nat) (e : exn) (st : run_state).

(** The [while] loop from its [k]-th test on; [None] when [fuel] tests and
    iterations were not enough to leave it. *)
Fixpoint while_loop (fuel : nat) (k : nat) (st : run_state) : option loop_end :=
  match fuel with
  | O => None
  | S fuel' =>
    if loop_test k st then
      match loop_body k st with
      | Next st' => while_loop fuel' (S k) st'
      | Break st' => Some (Fell (S k) st')
      | Return st' => Some (Returned (S k) st')
      | Uncaught e st' => Some (Failed (S k) e st')
      end
    else Some (Fell k st)
  end.

(** The sentinel plan that asks for clarification. *)
Definition clarification_plan : ExecutionPlan :=
  mkPlan (JStr "I need more information to proceed safely.")
         (JArr []) (JFloat 0%float) READ_ONLY false.

(** [ReasoningEngine.run]: the number of loop iterations and the signals
    emitted, in order. *)
Definition run (fuel : nat) : option (nat * list signal) :=
  match initial_context_str with
  | Raise e => Some (O, [error_occurred (exn_text e)])
  | Ret context_str0 =>
    match while_loop fuel 0 (mkState 0 context_str0 None []) with
    | None => None
    | Some (Returned n st) => Some (n, emitted st)
    | Some (Failed n e st) => Some (n, (emitted st ++ [error_occurred (exn_text e)])%list)
    | Some (Fell n st) =>
      match final_plan st with
      | Some plan => Some (n, (emitted st ++ [plan_ready plan])%list)
      | None => Some (n, (emitted st ++ [plan_ready clarification_plan])%list)
      end
    end
  end.

End Planner.

Definition iterations_of (e : loop_end) : nat :=
  match e with
  | Fell n _ | Returned n _ | Failed n _ _ => n
  end.

(** A response that parses to an object whose plan states a confidence at or
    above the threshold. *)
Definition meets_threshold (json_loads : string -> result json) (threshold : float)
  (response : json) : bool :=
  match _extract_json json_loads response with
  | Ret parsed =>
    py_truthy parsed &&
    match py_get parsed "plan" (JObj []) with
    | Ret plan_data =>
      match py_get plan_data "overall_confidence" (JInt 0) with
      | Ret confidence =>
        match py_ge_float confidence threshold with
        | Ret enough => enough
        | Raise _ => false
        end
      | Raise _ => false
      end
    | Raise _ => false
    end
  | Raise _ => false
  end.

Definition is_update (s : signal) : Prop := exists message, s = reasoning_update message.

(** The plans among the signals emitted. *)
Definition plans_emitted (signals : list signal) : list ExecutionPlan :=
  flat_map (fun s => match s with plan_ready plan => [plan] | _ => [] end) signals.

(** ** Model Gateway: the model list and the availability check *)

(** What [requests.get] does with a URL and a timeout. *)
Definition get_transport : Type := string -> Z -> post_outcome.

(** [v[key]] for a [str] key. *)
Definition py_getitem (v : json) (key : string) : result json :=
  match v with
  | JObj kvs =>
    match assoc kvs key with
    | Some x => Ret x
    | None => Raise (mkExn KeyError ("'" ++ key ++ "'"))
    end
  | JStr _ => Raise (mkExn TypeError "string indices must be integers, not 'str'")
  | JArr _ => Raise (mkExn TypeError "list indices must be integers or slices, not str")
  | _ => Raise (mkExn TypeError ("'" ++ type_name v ++ "' object is not subscriptable"))
  end.

(** [[model["name"] for model in models]] *)
Fixpoint model_names (models : list json) : result (list json) :=
  match models with
  | [] => Ret []
  | model :: rest =>
    name <- py_getitem model "name" ;;
    names <- model_names rest ;;
    Ret (name :: names)
  end.

(** The body of the [try] block of [OllamaClient.list_models]. *)
Definition list_models_request (get : get_transport) (base_url : string)
  : result (list json) :=
  match get (base_url ++ "/api/tags") 5%Z with
  | PostRaises e => Raise e
  | PostReturns response =>
    match raise_for_status response with
    | Some e => Raise e
    | None =>
      data <- response_json response ;;
      listed <- py_get data "models" (JArr []) ;;
      models <- py_iter listed ;;
      model_names models
    end
  end.

(** [OllamaClient.list_models]: the names, and the line it prints when it
    fails. *)
Definition list_models (get : get_transport) (base_url : string)
  : list json * option string :=
  match list_models_request get base_url with
  | Ret names => (names, None)
  | Raise e => ([], Some ("Error fetching models: " ++ exn_text e))
  end.

(** [OllamaClient.is_available] *)
Definition is_available (get : get_transport) (base_url : string) : bool :=
  match get (base_url ++ "/api/tags") 2%Z with
  | PostReturns _ => true
  | PostRaises _ => false
  end.

(** ** Executor: [PlanExecutor] *)

(** The action handlers of [PlanExecutor]. *)
Inductive Handler : Type :=
| _open_terminal | _navigate | _open_file | _move_file | _copy_file
| _modify_text | _search_text | _generate_text | _append_text | _remove_text
| _save_file | _close_file | _delete_file | _delete_text.

Definition action_map : list (string * Handler) :=
  [ ("OPEN_TERMINAL", _open_terminal);
    ("NAVIGATE", _navigate);
    ("OPEN_FILE", _open_file);
    ("MOVE_FILE", _move_file);
    ("COPY_FILE", _copy_file);
    ("MODIFY_TEXT", _modify_text);
    ("SEARCH_TEXT", _search_text);
    ("GENERATE_TEXT", _generate_text);
    ("APPEND_TEXT", _append_text);
    ("REMOVE_TEXT", _remove_text);
    ("SAVE_FILE", _save_file);
    ("CLOSE_FILE", _close_file);
    ("DELETE_FILE", _delete_file);
    ("DELETE_TEXT", _delete_text) ].

(** [v == s] for a [str] literal [s]. *)
Definition str_eq (v : json) (s : string) : bool :=
  match v with
  | JStr t => t =? s
  | _ => false
  end.

(** [l.append(x)] *)
Definition append {A : Type} (l : list A) (x : A) : list A := (l ++ [x])%list.

(** The fields of a step record, as [execute] reads them. *)
Definition step_action (kvs : list (string * json)) : json :=
  dict_get kvs "action" (JStr EmptyString).

Definition step_params (kvs : list (string * json)) : json :=
  dict_get kvs "params" (JObj []).

Definition step_desc (kvs : list (string * json)) : json :=
  dict_get kvs "description" (step_action kvs).

Section Executor.

Variable py_repr : json -> string.

(** The filesystem, the windows and whatever else the handlers touch. *)
Variable World : Type.
(** A handler called on its parameters: the text it returns or the exception
    it raises, and the world it leaves. *)
Variable run_handler : Handler -> json -> World -> result string * World.

(** [PlanExecutor._execute_action] *)
Definition _execute_action (action params : json) (w : World) : result string * World :=
  match table_find action_map action with
  | Raise e => (Raise e, w)
  | Ret (Some handler) => run_handler handler params w
  | Ret None => (Ret ("Unknown action: " ++ to_str py_repr action), w)
  end.

(** The normalisation of [params] in [execute]: the parameters to dispatch
    and the results list, which gets a warning in the fallback case. *)
Definition normalize_params (action params : json) (results : list string)
  : json * list string :=
  if negb (is_dict params) then
    (* Try to convert string/primitive to dict based on action *)
    if str_eq action "NAVIGATE" && is_str params then (JObj [("path", params)], results)
    else if str_eq action "OPEN_FILE" && is_str params then (JObj [("path", params)], results)
    else if str_eq action "CLOSE_FILE" && is_str params then (JObj [("path", params)], results)
    else if str_eq action "DELETE_FILE" && is_str params then (JObj [("path", params)], results)
    else if str_eq action "SAVE_FILE" && is_str params then (JObj [("path", params)], results)
    else if str_eq action "SEARCH_TEXT" && is_str params then (JObj [("pattern", params)], results)
    else if str_eq action "OPEN_TERMINAL" && is_str params then (JObj [("path", params)], results)
    else
      (* Fallback: wrap in empty dict *)
      (JObj [],
       append results ("⚠️ Params for " ++ to_str py_repr action ++ " not a dict, got: " ++
                       type_repr params))
  else (params, results).

(** The [for step in plan.steps] loop of [execute]. *)
Fixpoint execute_steps (plan_steps : list json) (results : list string) (w : World)
  : list string * World :=
  match plan_steps with
  | [] => (results, w)
  | step :: rest =>
    match step with
    | JStr s =>
      (* Handle case where step might be a string instead of dict *)
      execute_steps rest (append results ("⚠️ Skipping malformed step: " ++ s)) w
    | JObj kvs =>
      let action := step_action kvs in
      let params := step_params kvs in
      let desc := step_desc kvs in
      let (params', results') := normalize_params action params results in
      match _execute_action action params' w with
      | (Ret result, w') =>
        execute_steps rest
          (append results' ("✅ " ++ to_str py_repr desc ++ ": " ++ result)) w'
      | (Raise e, w') =>
        (* Stop on error for safety *)
        (append results' ("❌ " ++ to_str py_repr desc ++ ": Error - " ++ exn_text e), w')
      end
    | _ =>
      execute_steps rest
        (append results ("⚠️ Skipping invalid step type: " ++ type_repr step)) w
    end
  end.

(** [PlanExecutor.execute] *)
Definition execute (plan : ExecutionPlan) (w : World) : result (list string) * World :=
  match py_iter (steps plan) with
  | Raise e => (Raise e, w)
  | Ret plan_steps =>
    let (results, w') := execute_steps plan_steps [] w in (Ret results, w')
  end.

End Executor.

(** A world that also records every handler call, in order. *)
Definition logged (World : Type) : Type := (World * list (Handler * json))%type.

Definition log_calls {World : Type}
  (run_handler : Handler -> json -> World -> result string * World)
  (handler : Handler) (params : json) (w : logged World) : result string * logged World :=
  let (r, w') := run_handler handler params (fst w) in
  (r, (w', (snd w ++ [(handler, params)])%list)).

(** A well-formed action record: a dict whose parameters are a mapping. *)
Definition well_formed_step (step : json) : bool :=
  match step with
  | JObj kvs => is_dict (step_params kvs)
  | _ => false
  end.

(** The handler call a well-formed step leads to: none when its action names
    no handler. *)
Definition step_calls (step : json) : list (Handler * json) :=
  match step with
  | JObj kvs =>
    match table_find action_map (step_action kvs) with
    | Ret (Some handler) => [(handler, step_params kvs)]
    | _ => []
    end
  | _ => []
  end.

(** An outcome line of a step that returned, and of a step that raised. *)
Definition succeeded (outcome : string) : Prop := is_prefix "✅ " outcome = true.
Definition failed (outcome : string) : Prop := is_prefix "❌ " outcome = true.

(** [outcome] is the line [execute] appends for [step]. *)
Definition outcome_of (py_repr : json -> string) (step : json) (outcome : string) : Prop :=
  exists kvs text,
    step = JObj kvs /\
    (outcome = "✅ " ++ to_str py_repr (step_desc kvs) ++ ": " ++ text \/
     outcome = "❌ " ++ to_str py_repr (step_desc kvs) ++ ": Error - " ++ text).

(** Every step of [plan_steps] is a well-formed action record and, run in
    order from [w], each by its handler on its own parameters, returns:
    [lines] are the outcome lines of the steps, one per step, and [w'] is the
    world that the last of them leaves. *)
Fixpoint all_return (py_repr : json -> string) (World : Type)
  (run_handler : Handler -> json -> World -> result string * World)
  (plan_steps : list json) (w : World) (lines : list string) (w' : World) : Prop :=
  match plan_steps, lines with
  | [], [] => w' = w
  | JObj kvs :: rest, line :: lines' =>
    is_dict (step_params kvs) = true /\
    exists text w1,
      _execute_action py_repr World run_handler (step_action kvs) (step_params kvs) w
      = (Ret text, w1) /\
      line = "✅ " ++ to_str py_repr (step_desc kvs) ++ ": " ++ text /\
      all_return py_repr World run_handler rest w1 lines' w'
  | _, _ => False
  end.

(** ** Executor: the handler of MOVE_FILE *)

Section MoveFile.

Variable World : Type.
(** [os.path.expanduser] on a [str] path: it reads the environment and the
    password database, and raises when the lookup of the user does (a path
    that starts with a tilde and holds a NUL). *)
Variable expand : string -> World -> result string.
(** [os.path.join] and [os.path.basename] on [str] paths. *)
Variable path_join : string -> string -> string.
Variable basename : string -> string.
(** [os.path.isdir] and [os.path.exists] *)
Variable isdir : string -> World -> bool.
Variable path_exists : string -> World -> bool.
(** [shutil.move(source, destination)] *)
Variable shutil_move : string -> string -> World -> result unit * World.

(** [os.path.expanduser(path)] on any value. *)
Definition expanduser (path : json) (w : World) : result string :=
  match path with
  | JStr s => expand s w
  | _ => Raise (mkExn TypeError ("expected str, bytes or os.PathLike object, not " ++
                                 type_name path))
  end.

(** [PlanExecutor._move_file] *)
Definition move_file (params : json) (w : World) : result string * World :=
  match (source <- py_get params "source" (JStr EmptyString) ;;
         destination <- py_get params "destination" (JStr EmptyString) ;;
         Ret (source, destination)) with
  | Raise e => (Raise e, w)
  | Ret (source, destination) =>
    if negb (py_truthy source) || negb (py_truthy destination)
    then (Ret "Both source and destination required", w)
    else
      (* Expand paths *)
      match (source' <- expanduser source w ;;
             destination' <- expanduser destination w ;;
             Ret (source', destination')) with
      | Raise e => (Raise e, w)
      | Ret (source, destination) =>
        (* If destination is a directory, keep the filename *)
        let destination :=
          if isdir destination w then path_join destination (basename source)
          else destination in
        if negb (path_exists source w) then (Ret ("Source not found: " ++ source), w)
        else
          match shutil_move source destination w with
          | (Ret _, w') => (Ret ("Moved " ++ source ++ " → " ++ destination), w')
          | (Raise e, w') => (Ret ("Move failed: " ++ exn_text e), w')
          end
      end
  end.

(** The handlers, with [_move_file] as above and the others as given. *)
Definition with_move_file (others : Handler -> json -> World -> result string * World)
  (handler : Handler) (params : json) (w : World) : result string * World :=
  match handler with
  | _move_file => move_file params w
  | _ => others handler params w
  end.

End MoveFile.

(** ** Task Supervisor: [NavigatorBuddy] *)

(** One tracked subtask, as [_extract_subtasks] builds it. *)
Record subtask : Type := mkSubtask {
  subtask_id : nat;
  description : json;
  status : json
}.

(** [self.task_context].  The keys that [__init__] or [_reset_task_context]
    leave out are optional. *)
Record TaskContext : Type := mkContext {
  original_goal : json;
  progress : list string;
  attempts : nat;
  subtasks : option (list subtask);
  errors : list string;
  last_error : option string;
  consecutive_errors : nat;
  alternative_attempts : nat;
  failed_approaches : list json;
  searched_directories : option (list json);
  last_action : option string;
  action_repeat_count : option nat
}.

(** [NavigatorBuddy._reset_task_context] *)
Definition _reset_task_context : TaskContext :=
  mkContext (JStr EmptyString) [] 0 None [] None 0 0 [] (Some []) None (Some 0).

Definition set_subtasks (ctx : TaskContext) (l : list subtask) : TaskContext :=
  mkContext (original_goal ctx) (progress ctx) (attempts ctx) (Some l) (errors ctx)
            (last_error ctx) (consecutive_errors ctx) (alternative_attempts ctx)
            (failed_approaches ctx) (searched_directories ctx) (last_action ctx)
            (action_repeat_count ctx).

(** [self.task_context.get('subtasks', [])] *)
Definition get_subtasks (ctx : TaskContext) : list subtask :=
  match subtasks ctx with
  | Some l => l
  | None => []
  end.

(** [self.task_context.get('searched_directories', [])] *)
Definition get_searched_directories (ctx : TaskContext) : list json :=
  match searched_directories ctx with
  | Some l => l
  | None => []
  end.

(** [l[-n:]] for [n > 0] *)
Definition last_n {A : Type} (n : nat) (l : list A) : list A :=
  skipn (List.length l - n) l.

Definition as_int (v : json) : option Z :=
  match v with
  | JBool b => Some (if b then 1 else 0)%Z
  | JInt z => Some z
  | _ => None
  end.

(** [a == b] on values that can be hashed.  Numbers compare by value across
    [bool], [int] and [float]; a NaN equals nothing. *)
Definition py_eqb (a b : json) : bool :=
  match a, b with
  | JNull, JNull => true
  | JStr s, JStr t => s =? t
  | JFloat f, JFloat g => PrimFloat.eqb f g
  | JFloat f, _ => match as_int b with Some z => Z_eq_float z f | None => false end
  | _, JFloat g => match as_int a with Some z => Z_eq_float z g | None => false end
  | _, _ =>
    match as_int a, as_int b with
    | Some x, Some y => (x =? y)%Z
    | _, _ => false
    end
  end.

(** [set(l)]: the distinct members, or [TypeError] at the first member that
    cannot be hashed. *)
Fixpoint py_set (l : list json) (members : list json) : result (list json) :=
  match l with
  | [] => Ret members
  | x :: rest =>
    if hashable x then
      py_set rest (if existsb (py_eqb x) members then members else append members x)
    else Raise (unhashable x)
  end.

(** [enumerate(l, start)] mapped through [f]. *)
Fixpoint map_enumerate {A B : Type} (f : nat -> A -> B) (start : nat) (l : list A) : list B :=
  match l with
  | [] => []
  | x :: rest => f start x :: map_enumerate f (S start) rest
  end.

Section Supervisor.

Variable py_repr : json -> string.
(** [int(s)] on a [str]. *)
Variable py_int : string -> result Z.

(** The loop-warning block of the verification prompt. *)
Definition NAVIGATION_LOOP_WARNING : string :=
  "

🚨 NAVIGATION LOOP DETECTED! You have searched the same directory multiple times. You MUST try a DIFFERENT approach:
- Use SEARCH_TEXT to find the file across the system
- Try parent directories or common locations
- Check if the file actually exists
- Consider that the file might have a different name
".

(** The verification prompt up to the list of searched directories. *)
Definition prompt_head (original_goal : json) (subtasks_status progress_log : string)
  (current_directory : string) (open_files : list string) (turn_count max_turns : Z)
  : string :=
  "
Original goal: " ++
  to_str py_repr original_goal ++
  "

Subtasks to complete:
" ++
  (if subtasks_status =? EmptyString then "  (No subtasks defined)" else subtasks_status) ++
  "

Progress so far:
" ++
  (if progress_log =? EmptyString then "  (No actions yet)" else progress_log) ++
  "

Current state:
- Directory: " ++
  current_directory ++
  "
- Open files: " ++
  py_repr (JArr (map JStr open_files)) ++
  "
- Turn: " ++
  str_of_Z (turn_count + 1) ++
  "/" ++
  str_of_Z max_turns ++
  "

Already searched directories (DO NOT search these again):
".

(** The verification prompt after the loop warning. *)
Definition prompt_tail : string :=
  "

CRITICAL RULES:
1. Check EACH subtask individually - goal is only complete when ALL subtasks are done
2. DO NOT navigate to directories already searched
3. If looking for a file, try DIFFERENT locations or use SEARCH_TEXT
4. If file not found after 2-3 directory checks, use SEARCH_TEXT action instead

Respond with JSON:
{
    " ++ dq ++ "complete" ++ dq ++ ": true/false,
    " ++ dq ++ "subtasks_status" ++ dq ++ ": {
        " ++ dq ++ "subtask_1" ++ dq ++ ": " ++ dq ++ "complete/incomplete/not_started" ++ dq ++ ",
        " ++ dq ++ "subtask_2" ++ dq ++ ": " ++ dq ++ "complete/incomplete/not_started" ++ dq ++ ",
        ...
    },
    " ++ dq ++ "reasoning" ++ dq ++ ": " ++ dq ++ "detailed explanation of what's been done and what remains" ++ dq ++ ",
    " ++ dq ++ "next_action" ++ dq ++ ": {
        " ++ dq ++ "action" ++ dq ++ ": " ++ dq ++ "ACTION_NAME" ++ dq ++ ",
        " ++ dq ++ "params" ++ dq ++ ": {...},
        " ++ dq ++ "description" ++ dq ++ ": " ++ dq ++ "what to do next" ++ dq ++ "
    }
}

Only set complete=true if ALL subtasks are verified complete. If ANY subtask remains, provide the next_action.
".


(** The navigation-loop detection that precedes the prompt. *)
Definition loop_warning (searched_dirs : list json) : result string :=
  if (3 <? List.length searched_dirs)%nat then
    let recent_dirs := last_n 3 searched_dirs in
    distinct <- py_set recent_dirs [] ;;
    if (List.length distinct <? List.length recent_dirs)%nat   (* Repeated directory *)
    then Ret NAVIGATION_LOOP_WARNING
    else Ret EmptyString
  else Ret EmptyString.

(** The verification prompt of a turn of [execute_agentic]. *)
Definition verification_prompt (ctx : TaskContext) (goal : json)
  (current_directory : string) (open_files : list string) (turn_count max_turns : Z)
  : result string :=
  let subtasks_status :=
    join nl (map_enumerate
               (fun i st => "  " ++ str_of_nat i ++ ". " ++ to_str py_repr (description st) ++
                            " - " ++ to_str py_repr (status st))
               1 (get_subtasks ctx)) in
  let progress_log := join nl (map (fun p => "  - " ++ p) (progress ctx)) in
  (* Add searched directories info to prevent loops *)
  let searched_dirs := get_searched_directories ctx in
  let searched_dirs_str :=
    match searched_dirs with
    | [] => "  (None yet)"
    | _ => join nl (map (fun d => "  - " ++ to_str py_repr d) (last_n 10 searched_dirs))
    end in
  (* Detect if we're in a navigation loop *)
  warning <- loop_warning searched_dirs ;;
  Ret (prompt_head goal subtasks_status progress_log current_directory open_files
                   turn_count max_turns ++
       searched_dirs_str ++ warning ++ prompt_tail).

(** [NavigatorBuddy._extract_subtasks]: one subtask per plan step. *)
Fixpoint extract_subtasks_from (i : nat) (plan_steps : list json) : result (list subtask) :=
  match plan_steps with
  | [] => Ret []
  | step :: rest =>
    fallback <- py_get step "action" (JStr ("Step " ++ str_of_nat i)) ;;
    desc <- py_get step "description" fallback ;;
    tail <- extract_subtasks_from (S i) rest ;;
    Ret (mkSubtask i desc (JStr "not_started") :: tail)
  end.

Definition _extract_subtasks (goal : json) (plan_steps : json) : result (list subtask) :=
  items <- py_iter plan_steps ;;
  extract_subtasks_from 1 items.

(** The error signature: [error_msg.split(":")[-1].strip() if ":" in error_msg
    else error_msg]. *)
Definition core_error_of (error_msg : string) : string :=
  if contains_char ":" error_msg
  then strip (last (split ":" error_msg) EmptyString)
  else error_msg.

(** [NavigatorBuddy._track_error] *)
Definition _track_error (ctx : TaskContext) (error_msg : string) : TaskContext :=
  (* Extract core error (ignore timestamps, specific paths, etc.) *)
  let core_error := core_error_of error_msg in
  let errors' := append (errors ctx) error_msg in
  (* Check if same error as last time *)
  match last_error ctx with
  | Some previous =>
    if previous =? core_error then
      mkContext (original_goal ctx) (progress ctx) (attempts ctx) (subtasks ctx) errors'
                (last_error ctx) (consecutive_errors ctx + 1) (alternative_attempts ctx)
                (failed_approaches ctx) (searched_directories ctx) (last_action ctx)
                (action_repeat_count ctx)
    else
      mkContext (original_goal ctx) (progress ctx) (attempts ctx) (subtasks ctx) errors'
                (Some core_error) 1 (alternative_attempts ctx)
                (failed_approaches ctx) (searched_directories ctx) (last_action ctx)
                (action_repeat_count ctx)
  | None =>
    mkContext (original_goal ctx) (progress ctx) (attempts ctx) (subtasks ctx) errors'
              (Some core_error) 1 (alternative_attempts ctx)
              (failed_approaches ctx) (searched_directories ctx) (last_action ctx)
              (action_repeat_count ctx)
  end.

(** [NavigatorBuddy._handle_execution_error]: 'retry', 'alternative',
    'impossible' or 'stop'. *)
Definition _handle_execution_error (ctx : TaskContext) : string :=
  let consecutive := consecutive_errors ctx in
  let alt_attempts := alternative_attempts ctx in
  (* If same error 3+ times, try alternative approach *)
  if (3 <=? consecutive)%nat then
    if (5 <=? alt_attempts)%nat then
      (* Already tried 5 different approaches - give up *)
      "impossible"
    else
      (* Try different approach *)
      "alternative"
  (* If less than 3 consecutive errors, simple retry with reset counter *)
  else if (consecutive <? 3)%nat then "retry"
  else "stop".

(** [d.items()]: the pairs of a dict, each key once. *)
Definition dict_items (kvs : list (string * json)) : list (string * json) :=
  map (fun k => (k, dict_get kvs k JNull)) (dict_keys [] kvs).

(** [v.items()] on any value. *)
Definition py_items (v : json) : result (list (string * json)) :=
  match v with
  | JObj kvs => Ret (dict_items kvs)
  | _ => Raise (mkExn AttributeError ("'" ++ type_name v ++ "' object has no attribute 'items'"))
  end.

(** [int(idx.split('_')[1]) - 1 if '_' in idx else 0] *)
Definition task_number (idx : string) : result Z :=
  if contains_char "_" idx then
    n <- py_int (nth 1 (split "_" idx) EmptyString) ;;
    Ret (n - 1)%Z
  else Ret 0%Z.

Fixpoint update_nth {A : Type} (i : nat) (f : A -> A) (l : list A) : list A :=
  match l, i with
  | [], _ => []
  | x :: rest, O => f x :: rest
  | x :: rest, S i' => x :: update_nth i' f rest
  end.

(** [l[task_num]['status'] = status]: a negative index counts from the end,
    an index out of range raises. *)
Definition set_status_at (l : list subtask) (task_num : Z) (new_status : json)
  : result (list subtask) :=
  let n := Z.of_nat (List.length l) in
  let i := if (task_num <? 0)%Z then (task_num + n)%Z else task_num in
  if ((0 <=? i) && (i <? n))%Z
  then Ret (update_nth (Z.to_nat i)
                       (fun st => mkSubtask (subtask_id st) (description st) new_status) l)
  else Raise (mkExn IndexError "list index out of range").

(** The loop that updates the subtask statuses from the response; the
    updates made before an exception stay. *)
Fixpoint update_statuses (items : list (string * json)) (ctx : TaskContext)
  : TaskContext * result unit :=
  match items with
  | [] => (ctx, Ret tt)
  | (idx, new_status) :: rest =>
    match task_number idx with
    | Raise e => (ctx, Raise e)
    | Ret task_num =>
      if (task_num <? Z.of_nat (List.length (get_subtasks ctx)))%Z then
        match subtasks ctx with
        | None => (ctx, Raise (mkExn KeyError "'subtasks'"))
        | Some l =>
          match set_status_at l task_num new_status with
          | Raise e => (ctx, Raise e)
          | Ret l' => update_statuses rest (set_subtasks ctx l')
          end
        end
      else update_statuses rest ctx
    end
  end.

(** How the verification part of a turn ends. *)
Inductive verify_end : Type :=
| CouldNotVerify                   (* nothing parsed; [break] *)
| GoalAchieved                     (* goal declared achieved, context reset; [break] *)
| NextAction (is_complete : json)  (* the turn goes on to 'Execute next action' *)
| VerificationError (e : exn).     (* caught by the turn's handler; [break] *)

Definition is_complete_status (st : subtask) : bool := str_eq (status st) "complete".

(** The verification part of a turn of [execute_agentic], from the parsed
    response to the completion check: the transcript, the task context and
    the way it ends. *)
Definition verify (ctx : TaskContext) (chat_output : list string) (verification : json)
  : list string * TaskContext * verify_end :=
  let failed (e : exn) (ctx' : TaskContext) :=
    (append chat_output ("<i>❌ Verification error: " ++ exn_text e ++ "</i>"),
     ctx', VerificationError e) in
  if negb (py_truthy verification) then
    (append chat_output "<i>⚠️ Could not verify status, stopping.</i>", ctx, CouldNotVerify)
  else
    match py_get verification "complete" (JBool false) with
    | Raise e => failed e ctx
    | Ret is_complete =>
    match py_get verification "reasoning" (JStr EmptyString) with
    | Raise e => failed e ctx
    | Ret reasoning =>
    match py_get verification "subtasks_status" (JObj []) with
    | Raise e => failed e ctx
    | Ret subtasks_status =>
    (* Update subtask status *)
    match py_items subtasks_status with
    | Raise e => failed e ctx
    | Ret items =>
    match update_statuses items ctx with
    | (ctx', Raise e) => failed e ctx'
    | (ctx', Ret _) =>
      let chat := append chat_output ("<i>💭 " ++ to_str py_repr reasoning ++ "</i>") in
      if py_truthy is_complete then
        (* Double-check: verify ALL subtasks marked complete *)
        let all_complete := forallb is_complete_status (get_subtasks ctx') in
        if all_complete || match get_subtasks ctx' with [] => true | _ => false end then
          (append chat "<b>✅ Goal achieved! All subtasks complete.</b>",
           _reset_task_context, GoalAchieved)
        else
          (* Model thinks it's done but subtasks remain *)
          let incomplete := filter (fun st => negb (is_complete_status st)) (get_subtasks ctx') in
          (append chat ("<i>⚠️ Verification inconsistency: " ++
                        str_of_nat (List.length incomplete) ++
                        " subtask(s) still incomplete. Continuing...</i>"),
           ctx', NextAction (JBool false))
      else (chat, ctx', NextAction is_complete)
    end end end end end.

(** What the turn does after the completion check. *)
Inductive action_step : Type :=
| NoNextAction                           (* 'No next action provided'; [break] *)
| ReadError (e : exn)                    (* caught by the turn's handler; [break] *)
| Dispatch (action params desc : json).  (* the turn goes on with this action *)

(** The reading of the next action, which follows the completion check when
    the goal was not declared achieved. *)
Definition read_next_action (chat_output : list string) (verification : json)
  : list string * action_step :=
  let failed (e : exn) :=
    (append chat_output ("<i>❌ Verification error: " ++ exn_text e ++ "</i>"), ReadError e) in
  let none := (append chat_output "<i>⚠️ No next action provided, stopping.</i>", NoNextAction) in
  match py_get verification "next_action" (JObj []) with
  | Raise e => failed e
  | Ret next_action =>
    if negb (py_truthy next_action) then none
    else
      match py_get next_action "action" JNull with
      | Raise e => failed e
      | Ret named =>
        if negb (py_truthy named) then none
        else
          match (action <- py_get next_action "action" (JStr EmptyString) ;;
                 params <- py_get next_action "params" (JObj []) ;;
                 desc <- py_get next_action "description" action ;;
                 Ret (Dispatch action params desc)) with
          | Raise e => failed e
          | Ret step => (chat_output, step)
          end
      end
  end.

(** The bookkeeping with which [_generate_alternative_plan] starts: the
    attempt is counted, then the failed approach is recorded; the count stays
    when reading the steps of the failed plan raises. *)
Definition record_failed_approach (ctx : TaskContext) (failed_plan : ExecutionPlan)
  : TaskContext * result unit :=
  let counted :=
    mkContext (original_goal ctx) (progress ctx) (attempts ctx) (subtasks ctx) (errors ctx)
              (last_error ctx) (consecutive_errors ctx) (alternative_attempts ctx + 1)
              (failed_approaches ctx) (searched_directories ctx) (last_action ctx)
              (action_repeat_count ctx) in
  let actions :=
    plan_steps <- py_iter (steps failed_plan) ;;
    (fix go (l : list json) : result (list json) :=
       match l with
       | [] => Ret []
       | step :: rest =>
         a <- py_get step "action" (JStr "Unknown") ;;
         tail <- go rest ;;
         Ret (a :: tail)
       end) plan_steps in
  match actions with
  | Raise e => (counted, Raise e)
  | Ret step_actions =>
    let failed_approach :=
      JObj [ ("summary", summary failed_plan);
             ("steps", JArr step_actions);
             ("error", match last_error ctx with Some e => JStr e | None => JNull end) ] in
    (mkContext (original_goal ctx) (progress ctx) (attempts ctx) (subtasks ctx) (errors ctx)
               (last_error ctx) (consecutive_errors ctx) (alternative_attempts ctx + 1)
               (append (failed_approaches ctx) failed_approach)
               (searched_directories ctx) (last_action ctx) (action_repeat_count ctx),
     Ret tt)
  end.

End Supervisor.

(** ** Plan gate: [NavigatorBuddy.on_plan_ready] and [execute_plan] *)

(** [len(v)] *)
Definition py_len (v : json) : result nat :=
  match v with
  | JArr l => Ret (List.length l)
  | JStr s => Ret (List.length (chars s))
  | JObj kvs => Ret (List.length (dict_keys [] kvs))
  | _ => Raise (mkExn TypeError ("object of type '" ++ type_name v ++ "' has no len()"))
  end.

(** What [execute_plan] did with the plan. *)
Inductive plan_run : Type :=
| EnteredAgentic (plan : ExecutionPlan)   (* [self.execute_agentic(plan)] is called *)
| ExecutedDirectly.                       (* [self.executor.execute(plan)], then 'Done!' *)

(** How [on_plan_ready] ends when it does not raise. *)
Inductive plan_end : Type :=
| SummaryOnly                 (* no steps: the summary goes to the chat *)
| PlanCancelled               (* the dialog was not accepted *)
| Executed (r : plan_run).

Section PlanGate.

Variable py_repr : json -> string.
Variable format_pct : json -> result string.
Variable World : Type.
Variable run_handler : Handler -> json -> World -> result string * World.
(** [PlanConfirmationDialog(plan, self).exec() == QDialog.DialogCode.Accepted]:
    building the dialog may raise; otherwise the user's answer. *)
Variable confirm : ExecutionPlan -> result bool.

(** [NavigatorBuddy.execute_plan]: the chat, the world and what was done. *)
Definition execute_plan (plan : ExecutionPlan) (chat_output : list string) (w : World)
  : list string * World * result plan_run :=
  let chat := append chat_output
                     ("<b>Navigator:</b> Executing: " ++ to_str py_repr (summary plan)) in
  (* Check if we should use agentic mode (for complex tasks) *)
  match py_len (steps plan) with
  | Raise e => (chat, w, Raise e)
  | Ret n =>
    if (0 <? n)%nat then (chat, w, Ret (EnteredAgentic plan))
    else
      match execute py_repr World run_handler plan w with
      | (Raise e, w') => (chat, w', Raise e)
      | (Ret results, w') =>
        (append (fold_left (fun c result => append c ("  " ++ result)) results chat)
                "<b>Navigator:</b> Done!",
         w', Ret ExecutedDirectly)
      end
  end.

(** [NavigatorBuddy.on_plan_ready]: the reasoning pane, the chat, the world
    and the way it ends. *)
Definition on_plan_ready (plan : ExecutionPlan) (reasoning_output chat_output : list string)
  (w : World) : list string * list string * World * result plan_end :=
  let reasoning1 :=
    append reasoning_output (nl ++ "✅ Plan ready: " ++ to_str py_repr (summary plan)) in
  match format_pct (overall_confidence plan) with
  | Raise e => (reasoning1, chat_output, w, Raise e)
  | Ret pct =>
    let reasoning2 := append reasoning1 ("Confidence: " ++ pct) in
    if negb (py_truthy (steps plan)) then
      (reasoning2,
       append chat_output ("<b>Navigator:</b> " ++ to_str py_repr (summary plan)),
       w, Ret SummaryOnly)
    else if requires_confirmation plan then
      (* Show confirmation dialog *)
      match confirm plan with
      | Raise e => (reasoning2, chat_output, w, Raise e)
      | Ret true =>
        let '(chat, w', r) := execute_plan plan chat_output w in
        (reasoning2, chat, w', bind r (fun x => Ret (Executed x)))
      | Ret false =>
        (reasoning2, append chat_output "<b>Navigator:</b> Plan cancelled.", w, Ret PlanCancelled)
      end
    else
      (* Execute directly for read-only operations *)
      let '(chat, w', r) := execute_plan plan chat_output w in
      (reasoning2, chat, w', bind r (fun x => Ret (Executed x)))
  end.

End PlanGate.

(** ** Task Supervisor: [execute_agentic] *)

(** [x in v] for a [str] [x]. *)
Definition py_contains (v : json) (x : string) : result bool :=
  match v with
  | JObj kvs => Ret (match assoc kvs x with Some _ => true | None => false end)
  | JStr s => Ret (contains x s)
  | JArr l => Ret (existsb (fun e => str_eq e x) l)
  | _ => Raise (mkExn TypeError ("argument of type '" ++ type_name v ++ "' is not iterable"))
  end.

(** [v[i]] for an index [i] that is not negative. *)
Definition py_index (v : json) (i : nat) : result json :=
  match v with
  | JArr l =>
    match nth_error l i with
    | Some x => Ret x
    | None => Raise (mkExn IndexError "list index out of range")
    end
  | JStr s =>
    match nth_error (chars s) i with
    | Some c => Ret (JStr c)
    | None => Raise (mkExn IndexError "string index out of range")
    end
  | JObj _ => Raise (mkExn KeyError (str_of_nat i))
  | _ => Raise (mkExn TypeError ("'" ++ type_name v ++ "' object is not subscriptable"))
  end.

(** [s.split()]: the pieces between runs of whitespace; [pending] bytes of
    a whitespace character are still to be skipped and [cur] is the piece
    being read. *)
Fixpoint split_ws_from (pending : nat) (cur : string) (s : string) {struct s} : list string :=
  match s with
  | EmptyString => if cur =? EmptyString then [] else [cur]
  | String a r =>
    match pending with
    | S p => split_ws_from p cur r
    | O =>
      match ws_width s with
      | O => split_ws_from 0 (cur ++ String a EmptyString) r
      | S w => ((if cur =? EmptyString then [] else [cur]) ++ split_ws_from w EmptyString r)%list
      end
    end
  end.

Definition split_ws (s : string) : list string := split_ws_from 0 EmptyString s.

Definition set_searched_directories (ctx : TaskContext) (dirs : list json) : TaskContext :=
  mkContext (original_goal ctx) (progress ctx) (attempts ctx) (subtasks ctx) (errors ctx)
            (last_error ctx) (consecutive_errors ctx) (alternative_attempts ctx)
            (failed_approaches ctx) (Some dirs) (last_action ctx) (action_repeat_count ctx).

Definition set_last_action (ctx : TaskContext) (signature : option string) (count : nat)
  : TaskContext :=
  mkContext (original_goal ctx) (progress ctx) (attempts ctx) (subtasks ctx) (errors ctx)
            (last_error ctx) (consecutive_errors ctx) (alternative_attempts ctx)
            (failed_approaches ctx) (searched_directories ctx) signature (Some count).

(** [self.task_context["attempts"] += 1] *)
Definition count_attempt (ctx : TaskContext) : TaskContext :=
  mkContext (original_goal ctx) (progress ctx) (attempts ctx + 1) (subtasks ctx) (errors ctx)
            (last_error ctx) (consecutive_errors ctx) (alternative_attempts ctx)
            (failed_approaches ctx) (searched_directories ctx) (last_action ctx)
            (action_repeat_count ctx).

(** What the action-loop detection of a turn decides. *)
Inductive guard_end : Type :=
| Proceed
| ForceAlternative.   (* same action 3 times in a row *)

(** The action-loop detection of a turn of [execute_agentic]. *)
Definition note_action (ctx : TaskContext) (current_action_sig : string)
  : result (TaskContext * guard_end) :=
  if match last_action ctx with
     | Some previous => previous =? current_action_sig
     | None => false
     end
  then
    match action_repeat_count ctx with
    | None => Raise (mkExn KeyError "'action_repeat_count'")
    | Some n =>
      Ret (set_last_action ctx (last_action ctx) (n + 1),
           if (3 <=? n + 1)%nat then ForceAlternative else Proceed)
    end
  else Ret (set_last_action ctx (Some current_action_sig) 1, Proceed).

(** The normalisation of [params] in a turn of [execute_agentic]. *)
Definition normalize_next_params (action params : json) : json :=
  if negb (is_dict params) then
    if (str_eq action "NAVIGATE" || str_eq action "OPEN_FILE" || str_eq action "DELETE_FILE")
       && is_str params
    then JObj [("path", params)]
    else if str_eq action "MOVE_FILE" && is_str params then
      match params with
      | JStr s =>
        (* Try to parse "source dest" format *)
        let parts := split_ws s in
        if (2 <=? List.length parts)%nat
        then JObj [("source", JStr (hd EmptyString parts));
                   ("destination", JStr (join " " (tl parts)))]
        else params
      | _ => params
      end
    else JObj []
  else params.

(** How a turn of the reflection loop ends. *)
Inductive turn_end : Type :=
| TurnDone                               (* [turn_count += 1] *)
| Stopped                                (* [break] *)
| Restart (alt_plan : ExecutionPlan)     (* [self.execute_agentic(alt_plan, max_turns)] is entered,
                                            within the [try] of the turn *)
| TurnCrashed (e : exn).                 (* an exception leaves this invocation *)

(** How the reflection loop is left. *)
Inductive loop_exit : Type :=
| LoopLeft (turn_count : Z)              (* the test failed, or [break] *)
| LoopRestart (alt_plan : ExecutionPlan) (* a turn entered a nested invocation *)
| LoopCrashed (e : exn).

(** How an invocation of [execute_agentic] ends when it is not left for a
    nested one. *)
Inductive agentic_end : Type :=
| Finished                        (* 'Done!' *)
| GaveUp                          (* the task 'appears impossible' *)
| Resubmitted (prompt : string)   (* [process_input] is entered with this text in the input field *)
| ContinuationDeclined
| Crashed (e : exn).              (* an exception left this invocation *)

(** How the part of [execute_agentic] before the reflection loop ends. *)
Inductive initial_end : Type :=
| Reflect                         (* on to the reflection loop *)
| Again (plan : ExecutionPlan)    (* [return self.execute_agentic(plan, max_turns)] *)
| Ended (e : agentic_end).

Section Agentic.

Variable json_loads : string -> result json.
Variable py_repr : json -> string.
Variable py_int : string -> result Z.
(** [a == b] *)
Variable py_eq : json -> json -> bool.
Variable World : Type.
Variable run_handler : Handler -> json -> World -> result string * World.
(** [self.current_directory] and [list(self.open_files.keys())] *)
Variable current_directory : World -> string.
Variable open_files : World -> list string.
(** The transport as it behaves at the k-th call of the Model Gateway. *)
Variable post_at : nat -> transport.
Variable base_url : string.
(** [self.current_model] *)
Variable current_model : json.
(** [QMessageBox.question(self, title, text, Yes | No) == Yes] *)
Variable question : string -> string -> bool.

(** The supervisor between two steps: the task context, the chat pane, the
    world of the handlers, and the prompts given to the Model Gateway so far,
    in order (the next call is call number [length prompts_sent]). *)
Record agent : Type := mkAgent {
  task_context : TaskContext;
  chat_output : list string;
  world : World;
  prompts_sent : list string
}.

(** [self.chat_output.append(line)] *)
Definition say (st : agent) (line : string) : agent :=
  mkAgent (task_context st) (append (chat_output st) line) (world st) (prompts_sent st).

Definition with_context (st : agent) (ctx : TaskContext) : agent :=
  mkAgent ctx (chat_output st) (world st) (prompts_sent st).

(** [self.ollama_client.generate(prompt, self.current_model, system)] *)
Definition ask_model (st : agent) (prompt system : string) : agent * result json :=
  (mkAgent (task_context st) (chat_output st) (world st) (append (prompts_sent st) prompt),
   generate (post_at (List.length (prompts_sent st))) base_url (JStr prompt) current_model
            (JStr system) false).

(** The lines of [failed_approaches_str], from attempt [i + 1] on. *)
Fixpoint failed_approach_lines (i : nat) (approaches : list json) : result (list string) :=
  match approaches with
  | [] => Ret []
  | approach :: rest =>
    summary_ <- py_getitem approach "summary" ;;
    error_ <- py_getitem approach "error" ;;
    tail <- failed_approach_lines (S i) rest ;;
    Ret (("  Attempt " ++ str_of_nat (i + 1) ++ ": " ++ to_str py_repr summary_ ++ " - Failed with: " ++ to_str py_repr error_) :: tail)
  end.

Definition alternative_prompt (goal : json) (failed_approaches_str : string) : string :=
  "
ORIGINAL GOAL: " ++
  to_str py_repr goal ++
  "

PREVIOUS FAILED APPROACHES:
" ++
  failed_approaches_str ++
  "

CRITICAL: These approaches have all failed. You MUST try a completely different method.
Consider:
- Different file paths or locations
- Different actions or tools
- Breaking the task into smaller steps
- Checking prerequisites first
- Using alternative commands or methods

Generate a NEW plan with a DIFFERENT approach. Do NOT repeat failed methods.
".

(** The [try] block of [_generate_alternative_plan] after the model call:
    the line for the chat and the plan. *)
Definition read_alternative (response : json) : result (string * option ExecutionPlan) :=
  (* Parse response *)
  parsed <- _extract_json json_loads response ;;
  has_plan <- (if py_truthy parsed then py_contains parsed "plan" else Ret false) ;;
  if (has_plan : bool) then
    plan_data <- py_getitem parsed "plan" ;;
    alternative_plan <- _build_plan plan_data ;;
    Ret ("<i>✅ Generated alternative: " ++ to_str py_repr (summary alternative_plan) ++ "</i>",
         Some alternative_plan)
  else Ret ("<i>⚠️ Could not parse alternative plan</i>", None).

(** [NavigatorBuddy._generate_alternative_plan] *)
Definition _generate_alternative_plan (st : agent) (goal : json) (failed_plan : ExecutionPlan)
  : agent * result (option ExecutionPlan) :=
  let (ctx, recorded) := record_failed_approach (task_context st) failed_plan in
  let st1 := with_context st ctx in
  match recorded with
  | Raise e => (st1, Raise e)
  | Ret _ =>
    (* Build prompt for alternative approach *)
    match failed_approach_lines 0 (failed_approaches ctx) with
    | Raise e => (st1, Raise e)
    | Ret approach_lines =>
      let st2 :=
        say st1 ("<i>🔍 Analyzing failures and generating alternative approach (attempt " ++ str_of_nat (alternative_attempts ctx) ++ "/5)...</i>") in
      let (st3, answered) :=
        ask_model st2 (alternative_prompt goal (join nl approach_lines)) SYSTEM_PROMPT in
      match (response <- answered ;; read_alternative response) with
      | Ret (line, found) => (say st3 line, Ret found)
      | Raise e =>
        (say st3 ("<i>❌ Error generating alternative: " ++ exn_text e ++ "</i>"), Ret None)
      end
    end
  end.

(** The start of [execute_agentic]: a plan with another goal than the
    tracked one starts a new task context; the attempt is counted. *)
Definition begin_task (ctx : TaskContext) (initial_plan : ExecutionPlan) : result TaskContext :=
  let goal := summary initial_plan in
  (* Track task context for continuation *)
  ctx1 <- (if negb (py_eq (original_goal ctx) goal) then
             tracked <- _extract_subtasks goal (steps initial_plan) ;;
             Ret (mkContext goal [] 0 (Some tracked) [] None 0 0 [] (Some []) None (Some 0))
           else Ret ctx) ;;
  Ret (count_attempt ctx1).

(** Track directory navigation to detect loops: the step of the plan that
    stands at the index of a result line. *)
Definition track_navigation (plan_steps : json) (i : nat) (ctx : TaskContext)
  : result TaskContext :=
  n <- py_len plan_steps ;;
  if (i <? n)%nat then
    step <- py_index plan_steps i ;;
    action <- py_get step "action" (JStr EmptyString) ;;
    if str_eq action "NAVIGATE" then
      params <- py_get step "params" (JObj []) ;;
      (* Handle case where params might be a string instead of dict *)
      let path :=
        match params with
        | JObj kvs => dict_get kvs "path" (JStr EmptyString)
        | JStr _ => params
        | _ => JStr EmptyString
        end in
      if py_truthy path then
        match searched_directories ctx with
        | Some dirs => Ret (set_searched_directories ctx (append dirs path))
        | None => Raise (mkExn KeyError "'searched_directories'")
        end
      else Ret ctx
    else Ret ctx
  else Ret ctx.

(** The [for i, result in enumerate(results)] loop of [execute_agentic]:
    the task context, the chat and [has_error]; what was done before an
    exception stays. *)
Fixpoint scan_results (plan_steps : json) (i : nat) (results : list string)
  (ctx : TaskContext) (chat : list string) (has_error : bool)
  : TaskContext * list string * result bool :=
  match results with
  | [] => (ctx, chat, Ret has_error)
  | result :: rest =>
    let chat1 := append chat ("  " ++ result) in
    match track_navigation plan_steps i ctx with
    | Raise e => (ctx, chat1, Raise e)
    | Ret ctx1 =>
      if contains "❌" result || contains "Error" result
      then scan_results plan_steps (S i) rest (_track_error ctx1 result) chat1 true
      else scan_results plan_steps (S i) rest ctx1 chat1 has_error
    end
  end.

(** [execute_agentic] up to the reflection loop. *)
Definition initial_phase (st : agent) (initial_plan : ExecutionPlan) : agent * initial_end :=
  let original_goal := summary initial_plan in
  match begin_task (task_context st) initial_plan with
  | Raise e => (st, Ended (Crashed e))
  | Ret ctx0 =>
    (* Execute initial plan steps with error tracking *)
    match execute py_repr World run_handler initial_plan (world st) with
    | (Raise e, w) => (mkAgent ctx0 (chat_output st) w (prompts_sent st), Ended (Crashed e))
    | (Ret results, w) =>
      match scan_results (steps initial_plan) 0 results ctx0 (chat_output st) false with
      | (ctx1, chat, Raise e) => (mkAgent ctx1 chat w (prompts_sent st), Ended (Crashed e))
      | (ctx1, chat, Ret has_error) =>
        let st1 := mkAgent ctx1 chat w (prompts_sent st) in
        (* If error occurred, check for retry or alternative approach *)
        if has_error then
          let retry_result := _handle_execution_error ctx1 in
          if retry_result =? "retry" then
            (* Reset turn counter and retry from beginning *)
            (say st1 "<i>🔄 Error detected - resetting and retrying...</i>", Again initial_plan)
          else if retry_result =? "alternative" then
            (* Generate and try alternative approach *)
            match _generate_alternative_plan st1 original_goal initial_plan with
            | (st2, Raise e) => (st2, Ended (Crashed e))
            | (st2, Ret (Some alt_plan)) =>
              (say st2 "<i>🔀 Trying alternative approach...</i>", Again alt_plan)
            | (st2, Ret None) =>
              (say st2 "<b>❌ Task appears impossible - could not generate alternative approach.</b>",
               Ended GaveUp)
            end
          else if retry_result =? "impossible" then
            (with_context
               (say st1 "<b>❌ Task appears impossible after multiple failed attempts.</b>")
               _reset_task_context,
             Ended GaveUp)
          else (st1, Reflect)
        else (st1, Reflect)
      end
    end
  end.

(** The [except Exception as e] block of a turn. *)
Definition caught (st : agent) (e : exn) : agent * turn_end :=
  (say st ("<i>❌ Verification error: " ++ exn_text e ++ "</i>"), Stopped).

(** Track directory navigation, in a turn. *)
Definition track_next_navigation (st : agent) (action params : json) : result agent :=
  if str_eq action "NAVIGATE" then
    nav_path <- py_get params "path" (JStr EmptyString) ;;
    if py_truthy nav_path then
      match searched_directories (task_context st) with
      | None => Raise (mkExn KeyError "'searched_directories'")
      | Some dirs =>
        let st1 :=
          with_context st (set_searched_directories (task_context st) (append dirs nav_path)) in
        (* Check if we're revisiting same directory: the list counts the
           path just appended and the earlier ones equal to it *)
        if (2 <? S (List.length (filter (fun d => py_eq d nav_path) dirs)))%nat
        then Ret (say st1 ("<i>⚠️ Warning: Already searched " ++ to_str py_repr nav_path ++ " multiple times. Consider using SEARCH_TEXT instead.</i>"))
        else Ret st1
      end
    else Ret st
  else Ret st.

(** The last part of a turn: the next action is tracked, normalised and
    dispatched. *)
Definition act (st : agent) (action params desc : json) : agent * turn_end :=
  match track_next_navigation st action params with
  | Raise e => caught st e
  | Ret st1 =>
    let params' := normalize_next_params action params in
    match _execute_action py_repr World run_handler action params' (world st1) with
    | (Ret result, w) =>
      (say (mkAgent (task_context st1) (chat_output st1) w (prompts_sent st1))
           ("  ✅ " ++ to_str py_repr desc ++ ": " ++ result),
       TurnDone)
    | (Raise e, w) =>
      (say (mkAgent (task_context st1) (chat_output st1) w (prompts_sent st1))
           ("  ❌ " ++ to_str py_repr desc ++ ": " ++ exn_text e),
       Stopped)
    end
  end.

(** The part of a turn after the next action was read: detect action loops
    (same action repeated), then act. *)
Definition guarded (st : agent) (original_goal : json) (initial_plan : ExecutionPlan)
  (action params desc : json) : agent * turn_end :=
  let current_action_sig := to_str py_repr action ++ ":" ++ to_str py_repr params in
  match note_action (task_context st) current_action_sig with
  | Raise e => caught st e
  | Ret (ctx, ForceAlternative) =>
    (* Same action 3 times in a row - force alternative *)
    let st1 := say (with_context st ctx)
                   "<i>⚠️ Action loop detected - generating alternative strategy...</i>" in
    match _generate_alternative_plan st1 original_goal initial_plan with
    | (st2, Raise e) => caught st2 e
    | (st2, Ret (Some alt_plan)) => (st2, Restart alt_plan)
    | (st2, Ret None) =>
      (say st2 "<b>❌ Cannot proceed - stuck in action loop.</b>", Stopped)
    end
  | Ret (ctx, Proceed) => act (with_context st ctx) action params desc
  end.

(** One turn of the reflection loop. *)
Definition turn (st : agent) (original_goal : json) (initial_plan : ExecutionPlan)
  (turn_count max_turns : Z) : agent * turn_end :=
  let st0 := say st ("<i>🔍 Turn " ++ str_of_Z turn_count ++ "/" ++ str_of_Z max_turns ++ ": Checking if goal achieved...</i>") in
  (* Ask model to verify if goal is complete *)
  match verification_prompt py_repr (task_context st0) original_goal
                            (current_directory (world st0)) (open_files (world st0))
                            turn_count max_turns with
  | Raise e => (st0, TurnCrashed e)
  | Ret prompt =>
    let (st1, answered) :=
      ask_model st0 prompt "You are a task verification assistant. Check if goals are achieved." in
    match (response <- answered ;; _extract_json json_loads response) with
    | Raise e => caught st1 e
    | Ret verification =>
      match verify py_repr py_int (task_context st1) (chat_output st1) verification with
      | (chat, ctx, NextAction _) =>
        (* Execute next action *)
        match read_next_action chat verification with
        | (chat', Dispatch action params desc) =>
          guarded (mkAgent ctx chat' (world st1) (prompts_sent st1)) original_goal initial_plan
                  action params desc
        | (chat', _) => (mkAgent ctx chat' (world st1) (prompts_sent st1), Stopped)
        end
      | (chat, ctx, _) => (mkAgent ctx chat (world st1) (prompts_sent st1), Stopped)
      end
    end
  end.

(** The reflection loop from the test of [turn_count] on; [None] when
    [fuel] turns were not enough to leave it. *)
Fixpoint reflection_loop (fuel : nat) (st : agent) (original_goal : json)
  (initial_plan : ExecutionPlan) (turn_count max_turns : Z) : option (agent * loop_exit) :=
  match fuel with
  | O => None
  | S fuel' =>
    if (turn_count <? max_turns)%Z then
      match turn st original_goal initial_plan turn_count max_turns with
      | (st', TurnDone) =>
        reflection_loop fuel' st' original_goal initial_plan (turn_count + 1) max_turns
      | (st', Stopped) => Some (st', LoopLeft turn_count)
      | (st', Restart alt_plan) => Some (st', LoopRestart alt_plan)
      | (st', TurnCrashed e) => Some (st', LoopCrashed e)
      end
    else Some (st, LoopLeft turn_count)
  end.

(** [NavigatorBuddy.offer_task_continuation] *)
Definition offer_task_continuation (st : agent) (original_goal : json)
  (incomplete_subtasks : list subtask) : agent * agentic_end :=
  let ctx := task_context st in
  let incomplete_list :=
    join nl (map (fun t => "  • " ++ to_str py_repr (description t)) incomplete_subtasks) in
  (* Show error stats if there were errors *)
  let error_info :=
    match errors ctx with
    | [] => EmptyString
    | _ => "
Errors encountered: " ++ str_of_nat (List.length (errors ctx)) ++ "
Alternative approaches tried: " ++ str_of_nat (alternative_attempts ctx) ++ "
"
    end in
  if question "Task Incomplete"
              ("The following subtasks are still incomplete:

" ++ incomplete_list ++ "

" ++
               "Attempts: " ++ str_of_nat (attempts ctx) ++ error_info ++ "
" ++
               "Would you like to continue working on this task?")
  then
    (* Reformat prompt with progress *)
    let progress_summary := join nl (last_n 10 (progress ctx)) in
    let reformatted_prompt :=
      "
CONTINUING TASK (Attempt " ++
  str_of_nat (attempts ctx + 1) ++
  "):

Original goal: " ++
  to_str py_repr original_goal ++
  "

Completed so far:
" ++
  (if progress_summary =? EmptyString then "(No progress yet)" else progress_summary) ++
  "

Remaining subtasks:
" ++
  incomplete_list ++
  "

Please continue working on the remaining subtasks to complete the goal.
" in
    (say st ("<b>🔄 Continuing task... (Attempt " ++ str_of_nat (attempts ctx + 1) ++ ")</b>"),
     Resubmitted reformatted_prompt)
  else
    (with_context (say st "<b>Navigator:</b> Task continuation cancelled by user.")
                  _reset_task_context,
     ContinuationDeclined).

(** [execute_agentic] after the reflection loop. *)
Definition after_loop (st : agent) (original_goal : json) (turn_count max_turns : Z)
  : agent * agentic_end :=
  if (max_turns <=? turn_count)%Z then
    let st1 := say st ("<b>⏱️ Reached max turns (" ++ str_of_Z max_turns ++ ")</b>") in
    (* Check if task is actually complete *)
    let incomplete_subtasks :=
      filter (fun t => negb (is_complete_status t)) (get_subtasks (task_context st1)) in
    match incomplete_subtasks with
    | [] => (say st1 "<b>Navigator:</b> Done!", Finished)
    | _ =>
      (* Task not complete - offer to continue *)
      offer_task_continuation st1 original_goal incomplete_subtasks
    end
  else (say st "<b>Navigator:</b> Done!", Finished).

End Agentic.

(** ** Measures of texts, used to state properties *)

(** The number of occurrences of a character. *)
Fixpoint count_char (c : ascii) (s : string) : nat :=
  match s with
  | EmptyString => 0
  | String a r => (if (a =? c)%char then 1 else 0) + count_char c r
  end.

(** The text without the occurrences of a character. *)
Fixpoint remove_char (c : ascii) (s : string) : string :=
  match s with
  | EmptyString => EmptyString
  | String a r => if (a =? c)%char then remove_char c r else String a (remove_char c r)
  end.

(** A run of spaces, tabs, line feeds and carriage returns. *)
Fixpoint blank (s : string) : bool :=
  match s with
  | EmptyString => true
  | String a r =>
    ((a =? " ")%char || (a =? newline)%char ||
     (nat_of_ascii a =? 9)%nat || (nat_of_ascii a =? 13)%nat) && blank r
  end.

(** Two task contexts that differ at most in the statuses of their
    subtasks. *)
Definition same_but_statuses (a b : TaskContext) : Prop :=
  original_goal a = original_goal b /\ progress a = progress b /\
  attempts a = attempts b /\ errors a = errors b /\ last_error a = last_error b /\
  consecutive_errors a = consecutive_errors b /\
  alternative_attempts a = alternative_attempts b /\
  failed_approaches a = failed_approaches b /\
  searched_directories a = searched_directories b /\
  last_action a = last_action b /\ action_repeat_count a = action_repeat_count b /\
  option_map (map subtask_id) (subtasks a) = option_map (map subtask_id) (subtasks b) /\
  option_map (map description) (subtasks a) = option_map (map description) (subtasks b).

(** A prompt that reports no progress: the prompt for an alternative
    approach, which has no progress section, or a prompt that holds the
    placeholder of the empty progress log. *)
Definition prompt_without_progress (py_repr : json -> string) (prompt : string) : Prop :=
  (exists goal listing, prompt = alternative_prompt py_repr goal listing) \/
  contains "  (No actions yet)" prompt = true.

(** The first pattern of [code_block_patterns]. *)
Definition json_fence : fence_pattern := mkPattern "```json" true "```".

(** ** Instances of the library functions, for evaluation *)

(** *** A JSON decoder

    [json_dec] follows the structure of the [json] module's decoder
    ([scan_once], [JSONObject], [JSONArray], [scanstring]).  It decodes the
    JSON texts whose integers have at most 4300 digits, whose other numbers
    have at most 15 significant digits and a decimal exponent within 18 of
    zero (for which one correctly rounded operation on exactly represented
    operands gives the float) and whose strings have no [\u] escape; on
    other texts it raises [ValueError]. *)

Inductive dec (A : Type) : Type :=
| Decoded (v : A) (rest : string)
| Malformed (msg : string)
| Unsupported.
Arguments Decoded {A} v rest.
Arguments Malformed {A} msg.
Arguments Unsupported {A}.

Definition is_json_ws (a : ascii) : bool :=
  (a =? " ")%char || (a =? newline)%char ||
  (nat_of_ascii a =? 9)%nat || (nat_of_ascii a =? 13)%nat.

Fixpoint skip_json_ws (s : string) : string :=
  match s with
  | String a r => if is_json_ws a then skip_json_ws r else s
  | EmptyString => s
  end.

Definition is_digit (a : ascii) : bool :=
  let n := nat_of_ascii a in ((48 <=? n) && (n <=? 57))%nat.

Definition digit_val (a : ascii) : Z := Z.of_nat (nat_of_ascii a - 48).

(** Leading digits of [s]: their value, their count, and the rest. *)
Fixpoint read_digits (s : string) (acc : Z) (count : nat) : Z * nat * string :=
  match s with
  | String a r =>
    if is_digit a then read_digits r (10 * acc + digit_val a)%Z (S count)
    else (acc, count, s)
  | EmptyString => (acc, count, s)
  end.

Definition float_of_Z (z : Z) : float := PrimFloat.of_uint63 (Uint63.of_Z z).

(** The float nearest to [m * 10 ^ e10], for [0 <= m < 10 ^ 15] and
    [-18 <= e10 <= 18]. *)
Definition float_of_decimal (negative : bool) (m : Z) (e10 : Z) : float :=
  let magnitude :=
    if (0 <=? e10)%Z then PrimFloat.mul (float_of_Z m) (float_of_Z (10 ^ e10))
    else PrimFloat.div (float_of_Z m) (float_of_Z (10 ^ (- e10))) in
  if negative then PrimFloat.opp magnitude else magnitude.

(** A number at the head of [s], which starts with a digit or a minus sign. *)
Definition scan_number (s : string) : dec json :=
  let (negative, body) :=
    match s with
    | String "-" r => (true, r)
    | _ => (false, s)
    end in
  match body with
  | String d r =>
    if is_digit d then
      let '(int_part, int_len, after_int) :=
        if (d =? "0")%char then (0%Z, 1%nat, r) else read_digits body 0 0 in
      let '(frac, frac_len, after_frac, has_frac) :=
        match after_int with
        | String "." (String f r2) =>
          if is_digit f then
            let '(v, n, rest) := read_digits (String f r2) 0 0 in (v, n, rest, true)
          else (0%Z, 0%nat, after_int, false)
        | _ => (0%Z, 0%nat, after_int, false)
        end in
      let exponent (e_body : string) (e_negative : bool) :=
        match e_body with
        | String x _ =>
          if is_digit x then
            let '(v, _, rest) := read_digits e_body 0 0 in
            Some ((if e_negative then - v else v)%Z, rest)
          else None
        | EmptyString => None
        end in
      let exp_part :=
        match after_frac with
        | String e r3 =>
          if (e =? "e")%char || (e =? "E")%char then
            match r3 with
            | String "-" r4 => exponent r4 true
            | String "+" r4 => exponent r4 false
            | _ => exponent r3 false
            end
          else None
        | EmptyString => None
        end in
      match has_frac, exp_part with
      | false, None =>
        if (4300 <? int_len)%nat then Unsupported
        else Decoded (JInt (if negative then - int_part else int_part)%Z) after_int
      | _, _ =>
        let (e, rest) := match exp_part with Some p => p | None => (0%Z, after_frac) end in
        let m := (int_part * 10 ^ Z.of_nat frac_len + frac)%Z in
        let e10 := (e - Z.of_nat frac_len)%Z in
        if ((m <? 10 ^ 15) && (-18 <=? e10) && (e10 <=? 18))%Z
        then Decoded (JFloat (float_of_decimal negative m e10)) rest
        else Unsupported
      end
    else Malformed "Expecting value"
  | EmptyString => Malformed "Expecting value"
  end.

(** The body of a string, after its opening quote. *)
Fixpoint scanstring (s : string) (acc : string) : dec string :=
  match s with
  | EmptyString => Malformed "Unterminated string starting at"
  | String c r =>
    if (c =? dquote)%char then Decoded acc r
    else if (c =? "\")%char then
      match r with
      | EmptyString => Malformed "Unterminated string starting at"
      | String esc r2 =>
        let plain (a : ascii) := scanstring r2 (acc ++ String a EmptyString) in
        if (esc =? dquote)%char then plain dquote
        else if (esc =? "\")%char then plain "\"%char
        else if (esc =? "/")%char then plain "/"%char
        else if (esc =? "b")%char then plain (ascii_of_nat 8)
        else if (esc =? "f")%char then plain (ascii_of_nat 12)
        else if (esc =? "n")%char then plain newline
        else if (esc =? "r")%char then plain (ascii_of_nat 13)
        else if (esc =? "t")%char then plain (ascii_of_nat 9)
        else if (esc =? "u")%char then Unsupported
        else Malformed "Invalid \escape"
      end
    else if (nat_of_ascii c <? 32)%nat then Malformed "Invalid control character at"
    else scanstring r (acc ++ String c EmptyString)
  end.

(** [dict(pairs)] one pair at a time: a later value replaces an earlier one
    in place. *)
Fixpoint dict_set (kvs : list (string * json)) (key : string) (v : json)
  : list (string * json) :=
  match kvs with
  | [] => [(key, v)]
  | (k, old) :: rest => if k =? key then (k, v) :: rest else (k, old) :: dict_set rest key v
  end.

Fixpoint scan_once (fuel : nat) (s : string) : dec json :=
  match fuel with
  | O => Unsupported
  | S fuel' =>
    match s with
    | EmptyString => Malformed "Expecting value"
    | String c r =>
      if (c =? dquote)%char then
        match scanstring r EmptyString with
        | Decoded str rest => Decoded (JStr str) rest
        | Malformed msg => Malformed msg
        | Unsupported => Unsupported
        end
      else if (c =? "{")%char then
        match skip_json_ws r with
        | String "}" rest => Decoded (JObj []) rest
        | String q rest =>
          if (q =? dquote)%char then scan_members fuel' rest []
          else Malformed "Expecting property name enclosed in double quotes"
        | EmptyString => Malformed "Expecting property name enclosed in double quotes"
        end
      else if (c =? "[")%char then
        match skip_json_ws r with
        | String "]" rest => Decoded (JArr []) rest
        | items => scan_elements fuel' items []
        end
      else
        match strip_prefix "null" s, strip_prefix "true" s, strip_prefix "false" s with
        | Some rest, _, _ => Decoded JNull rest
        | _, Some rest, _ => Decoded (JBool true) rest
        | _, _, Some rest => Decoded (JBool false) rest
        | None, None, None =>
          match scan_number s with
          | Malformed msg =>
            match strip_prefix "NaN" s, strip_prefix "Infinity" s, strip_prefix "-Infinity" s with
            | Some rest, _, _ => Decoded (JFloat nan) rest
            | _, Some rest, _ => Decoded (JFloat infinity) rest
            | _, _, Some rest => Decoded (JFloat neg_infinity) rest
            | None, None, None => Malformed msg
            end
          | other => other
          end
        end
    end
  end
with scan_members (fuel : nat) (s : string) (pairs : list (string * json)) : dec json :=
  (* [s] follows the opening quote of a key *)
  match fuel with
  | O => Unsupported
  | S fuel' =>
    match scanstring s EmptyString with
    | Malformed msg => Malformed msg
    | Unsupported => Unsupported
    | Decoded key after_key =>
      match skip_json_ws after_key with
      | String ":" after_colon =>
        match scan_once fuel' (skip_json_ws after_colon) with
        | Malformed msg => Malformed msg
        | Unsupported => Unsupported
        | Decoded v after_value =>
          let pairs' := dict_set pairs key v in
          match skip_json_ws after_value with
          | String "}" rest => Decoded (JObj pairs') rest
          | String "," after_comma =>
            match skip_json_ws after_comma with
            | String q rest =>
              if (q =? dquote)%char then scan_members fuel' rest pairs'
              else Malformed "Expecting property name enclosed in double quotes"
            | EmptyString => Malformed "Expecting property name enclosed in double quotes"
            end
          | _ => Malformed "Expecting ',' delimiter"
          end
        end
      | _ => Malformed "Expecting ':' delimiter"
      end
    end
  end
with scan_elements (fuel : nat) (s : string) (items : list json) : dec json :=
  match fuel with
  | O => Unsupported
  | S fuel' =>
    match scan_once fuel' s with
    | Malformed msg => Malformed msg
    | Unsupported => Unsupported
    | Decoded v after_value =>
      match skip_json_ws after_value with
      | String "]" rest => Decoded (JArr (items ++ [v])%list) rest
      | String "," after_comma => scan_elements fuel' (skip_json_ws after_comma) (items ++ [v])%list
      | _ => Malformed "Expecting ',' delimiter"
      end
    end
  end.

(** An instance of [json.loads]. *)
Definition json_dec (s : string) : result json :=
  match scan_once (2 * String.length s + 2) (skip_json_ws s) with
  | Decoded v rest =>
    match skip_json_ws rest with
    | EmptyString => Ret v
    | _ => Raise (mkExn JSONDecodeError "Extra data")
    end
  | Malformed msg => Raise (mkExn JSONDecodeError msg)
  | Unsupported => Raise (mkExn ValueError "text outside the decoded fragment")
  end.

(** *** [repr], percent formatting and [int]

    [repr_simple] agrees with [repr] on [None], the booleans, the integers,
    the strings that need no escaping, and the lists and dicts of such
    values; the digits of a float are not modelled. *)
Fixpoint repr_simple (v : json) : string :=
  match v with
  | JNull => "None"
  | JBool true => "True"
  | JBool false => "False"
  | JInt z => str_of_Z z
  | JFloat _ => "<float>"
  | JStr s => "'" ++ s ++ "'"
  | JArr l => "[" ++ join ", " (map repr_simple l) ++ "]"
  | JObj kvs =>
    "{" ++ join ", " (map (fun kv : string * json => let (k, x) := kv in "'" ++ k ++ "': " ++ repr_simple x) kvs)
        ++ "}"
  end.

(** The integer nearest to a finite float, ties to even, with its sign. *)
Definition round_half_even (f : float) : option (bool * Z) :=
  match Prim2SF f with
  | S754_zero negative => Some (negative, 0%Z)
  | S754_finite negative m e =>
    if (0 <=? e)%Z then Some (negative, (Z.pos m * 2 ^ e)%Z)
    else
      let d := (2 ^ (- e))%Z in
      let q := (Z.pos m / d)%Z in
      let r := (Z.pos m mod d)%Z in
      Some (negative,
            match (2 * r ?= d)%Z with
            | Gt => (q + 1)%Z
            | Eq => if Z.odd q then (q + 1)%Z else q
            | Lt => q
            end)
  | _ => None
  end.

(** [format(v, '.0%')] for a float. *)
Definition pct_of_float (f : float) : string :=
  let scaled := PrimFloat.mul f 100%float in
  match round_half_even scaled with
  | Some (negative, n) => (if negative then "-" else EmptyString) ++ str_of_Z n ++ "%"
  | None =>
    if PrimFloat.is_nan scaled then "nan%"
    else if PrimFloat.ltb scaled 0%float then "-inf%" else "inf%"
  end.

(** An instance of [format(v, '.0%')]: integers are converted to a float
    first, which is exact below [2 ^ 53]; larger ones are left out. *)
Definition pct_simple (v : json) : result string :=
  let of_int (z : Z) :=
    if (Z.abs z <? 2 ^ 53)%Z
    then Ret (pct_of_float (if (z <? 0)%Z then PrimFloat.opp (float_of_Z (- z)) else float_of_Z z))
    else Raise (mkExn OverflowError "int too large to convert to float") in
  match v with
  | JBool b => of_int (if b then 1 else 0)%Z
  | JInt z => of_int z
  | JFloat f => Ret (pct_of_float f)
  | JStr _ => Raise (mkExn ValueError "Unknown format code '%' for object of type 'str'")
  | _ => Raise (mkExn TypeError
                  ("unsupported format string passed to " ++ type_name v ++ ".__format__"))
  end.

(** An instance of [int(s)]: optional whitespace around an optional sign and
    ASCII digits. *)
Definition int_simple (s : string) : result Z :=
  let invalid := Raise (mkExn ValueError
                          ("invalid literal for int() with base 10: '" ++ s ++ "'")) in
  let (negative, body) :=
    match strip s with
    | String "-" r => (true, r)
    | String "+" r => (false, r)
    | other => (false, other)
    end in
  match read_digits body 0 0 with
  | (_, O, _) => invalid
  | (v, S _, EmptyString) => Ret (if negative then - v else v)%Z
  | (_, S _, String _ _) => invalid
  end.

(** *** A small world for the handlers

    The world is the list of paths that exist.  Navigation reports on the
    path; appending to a file opens it, which raises when the path does not
    exist; deleting removes the path. *)
Definition demo_world : Type := list string.

Definition demo_handler (handler : Handler) (params : json) (w : demo_world)
  : result string * demo_world :=
  match py_get params "path" (JStr EmptyString) with
  | Raise e => (Raise e, w)
  | Ret (JStr path) =>
    let exists_ := existsb (String.eqb path) w in
    match handler with
    | _navigate =>
      if negb (path =? EmptyString) && exists_
      then (Ret ("Navigated to " ++ path), w)
      else (Ret ("Invalid path: " ++ path), w)
    | _append_text =>
      if negb (path =? EmptyString) then
        if exists_ then (Ret ("Appended to " ++ path), w)
        else (Raise (mkExn OSError ("[Errno 2] No such file or directory: '" ++ path ++ "'")), w)
      else (Ret "No target specified", w)
    | _delete_file =>
      if negb (path =? EmptyString) && exists_
      then (Ret ("Deleted file " ++ path), filter (fun p => negb (p =? path)) w)
      else (Ret ("Path not found: " ++ path), w)
    | _close_file => (Ret ("Closed " ++ path), w)
    | _ => (Ret "Nothing to save", w)
    end
  | Ret other => (Raise (mkExn TypeError ("expected str, not " ++ type_name other)), w)
  end.

(** *** Model Gateways

    A gateway that cannot be reached, and one whose first response states a
    confidence of 0.5 and whose later responses are prose. *)
Definition unreachable_gateway (k : nat) : transport :=
  fun _ _ _ => PostRaises (mkExn ConnectionError "Connection refused").

Definition hesitant_gateway (k : nat) : transport :=
  fun _ _ _ =>
    PostReturns
      (mkResponse None
         (Ret (JObj [("response",
                      JStr (match k with
                            | O => "{" ++ dq ++ "reasoning" ++ dq ++ ": [{" ++ dq ++ "thought" ++ dq ++
                                   ": " ++ dq ++ "The request is vague" ++ dq ++ ", " ++
                                   dq ++ "confidence" ++ dq ++ ": 0.4}], " ++
                                   dq ++ "plan" ++ dq ++ ": {" ++ dq ++ "summary" ++ dq ++ ": " ++
                                   dq ++ "Tidy up" ++ dq ++ ", " ++ dq ++ "steps" ++ dq ++ ": [], " ++
                                   dq ++ "overall_confidence" ++ dq ++ ": 0.5, " ++
                                   dq ++ "operation_type" ++ dq ++ ": " ++ dq ++ "MODIFY" ++ dq ++ "}}"
                            | S _ => "I am not sure what you mean."
                            end))]))).

(** A gateway whose first response is prose and whose later responses hold
    a plan with a confidence of 0.97. *)
Definition decisive_gateway (k : nat) : transport :=
  fun _ _ _ =>
    PostReturns
      (mkResponse None
         (Ret (JObj [("response",
                      JStr (match k with
                            | O => "Let me think about it."
                            | S _ => "{" ++ dq ++ "reasoning" ++ dq ++ ": [{" ++ dq ++ "thought" ++ dq ++ ": " ++ dq ++ "The notes folder is named" ++ dq ++ ", " ++ dq ++ "confidence" ++ dq ++ ": 0.98}], " ++ dq ++ "plan" ++ dq ++ ": {" ++ dq ++ "summary" ++ dq ++ ": " ++ dq ++ "Go to the notes" ++ dq ++ ", " ++ dq ++ "steps" ++ dq ++ ": [{" ++ dq ++ "action" ++ dq ++ ": " ++ dq ++ "NAVIGATE" ++ dq ++ ", " ++ dq ++ "params" ++ dq ++ ": {" ++ dq ++ "path" ++ dq ++ ": " ++ dq ++ "/home/a/notes" ++ dq ++ "}, " ++ dq ++ "description" ++ dq ++ ": " ++ dq ++ "Enter the folder" ++ dq ++ "}], " ++ dq ++ "overall_confidence" ++ dq ++ ": 0.97, " ++ dq ++ "operation_type" ++ dq ++ ": " ++ dq ++ "READ_ONLY" ++ dq ++ "}}"
                            end))]))).

(** * Properties *)

(** ** Plans *)

Lemma OperationType_eqb_eq (a b : OperationType) :
  OperationType_eqb a b = true <-> a = b.
Proof. destruct a, b; simpl; split; intro H; try reflexivity; discriminate H. Qed.

(** What [_build_plan] returns on a dict whose operation type can be
    hashed: it never raises on such an input. *)
Lemma build_plan_returns (kvs : list (string * json)) :
  hashable (dict_get kvs "operation_type" (JStr "READ_ONLY")) = true ->
  exists plan, _build_plan (JObj kvs) = Ret plan.
Proof.
  intro Hh. unfold _build_plan. simpl.
  destruct (dict_get kvs "operation_type" (JStr "READ_ONLY"));
    simpl in *; try discriminate Hh; eexists; reflexivity.
Qed.

(** C1: for every plan that [_build_plan] builds from a parsed model
    response, [requires_confirmation] is true exactly when the operation
    type is MODIFY, DESTRUCTIVE or SYSTEM and false exactly when it is
    READ_ONLY; an operation type that is not one of the four names (a string
    the table does not hold, or a value that is not a string) gives
    READ_ONLY, so no confirmation. *)
Theorem build_plan_requires_confirmation :
  forall (plan_data : json) (plan : ExecutionPlan),
    _build_plan plan_data = Ret plan ->
    (requires_confirmation plan = true <->
       operation_type plan = MODIFY \/ operation_type plan = DESTRUCTIVE \/
       operation_type plan = SYSTEM) /\
    (requires_confirmation plan = false <-> operation_type plan = READ_ONLY) /\
    (forall op_type_str,
        py_get plan_data "operation_type" (JStr "READ_ONLY") = Ret op_type_str ->
        (forall s, op_type_str = JStr s -> lookup op_type_map s = None) ->
        operation_type plan = READ_ONLY /\ requires_confirmation plan = false).
Proof.
  intros plan_data plan Hbuild.
  unfold _build_plan in Hbuild.
  destruct plan_data as [ | | | | | |kvs]; simpl in Hbuild; try discriminate Hbuild.
  destruct (table_get op_type_map (dict_get kvs "operation_type" (JStr "READ_ONLY")) READ_ONLY)
    as [op|e] eqn:Hop; simpl in Hbuild; [|discriminate Hbuild].
  injection Hbuild as <-. simpl.
  split; [|split].
  - destruct op; simpl; split; intro H; auto; try discriminate H.
    destruct H as [H|[H|H]]; discriminate H.
  - destruct op; simpl; split; intro H; auto; discriminate H.
  - intros op_type_str Hget Hunknown. injection Hget as <-.
    assert (op = READ_ONLY) as ->; [|split; reflexivity].
    unfold table_get, table_find in Hop.
    destruct (dict_get kvs "operation_type" (JStr "READ_ONLY")) as [ | | | |s| | ];
      simpl in Hop; try discriminate Hop; try (injection Hop as <-; reflexivity).
    rewrite (Hunknown s eq_refl) in Hop. injection Hop as <-. reflexivity.
Qed.

Example build_plan_unrecognized_type :
  _build_plan (JObj [("summary", JStr "List the notes"); ("operation_type", JStr "DANGEROUS")])
  = Ret (mkPlan (JStr "List the notes") (JArr []) (JFloat 0%float) READ_ONLY false).
Proof. reflexivity. Qed.

Lemma build_plan_requires_confirmation_witness :
  let plan_data := JObj [("summary", JStr "Remove the build directory");
                         ("steps", JArr [JObj [("action", JStr "DELETE_FILE");
                                               ("params", JObj [("path", JStr "/tmp/build")])]]);
                         ("overall_confidence", JFloat 0.97%float);
                         ("operation_type", JStr "DESTRUCTIVE")] in
  let plan := mkPlan (JStr "Remove the build directory")
                     (JArr [JObj [("action", JStr "DELETE_FILE");
                                  ("params", JObj [("path", JStr "/tmp/build")])]])
                     (JFloat 0.97%float) DESTRUCTIVE true in
  (requires_confirmation plan = true <->
     operation_type plan = MODIFY \/ operation_type plan = DESTRUCTIVE \/
     operation_type plan = SYSTEM) /\
  (requires_confirmation plan = false <-> operation_type plan = READ_ONLY) /\
  (forall op_type_str,
      py_get plan_data "operation_type" (JStr "READ_ONLY") = Ret op_type_str ->
      (forall s, op_type_str = JStr s -> lookup op_type_map s = None) ->
      operation_type plan = READ_ONLY /\ requires_confirmation plan = false).
Proof.
  intros plan_data plan.
  apply (build_plan_requires_confirmation plan_data plan).
  reflexivity.
Defined.

(** ** Model Gateway *)

Lemma generate_returns (post : transport) (base_url : string) (prompt model system : json)
  (stream : bool) :
  exists v, generate post base_url prompt model system stream = Ret v.
Proof.
  unfold generate, try_except.
  destruct (generate_request post base_url prompt model system stream); eexists; reflexivity.
Qed.

(** C10: [OllamaClient.generate] returns for every prompt, model and system
    value and every behaviour of the transport, and never raises; whenever
    the request fails (the connection, the HTTP status, the decoding of the
    body, or a body without [get]) the value returned is the string
    ['Error: '] followed by the text of the exception, an ordinary response
    text for the Planner and the Supervisor. *)
Theorem generate_total :
  forall (post : transport) (base_url : string) (prompt model system : json) (stream : bool),
    (exists v, generate post base_url prompt model system stream = Ret v) /\
    (forall e,
        generate_request post base_url prompt model system stream = Raise e ->
        generate post base_url prompt model system stream
        = Ret (JStr ("Error: " ++ exn_text e))) /\
    (forall e,
        post (base_url ++ "/api/generate")
             (generate_payload prompt model system stream) 300%Z = PostRaises e ->
        generate post base_url prompt model system stream
        = Ret (JStr ("Error: " ++ exn_text e))) /\
    (forall response e,
        post (base_url ++ "/api/generate")
             (generate_payload prompt model system stream) 300%Z = PostReturns response ->
        raise_for_status response = Some e ->
        generate post base_url prompt model system stream
        = Ret (JStr ("Error: " ++ exn_text e))).
Proof.
  intros post base_url prompt model system stream.
  unfold generate, try_except.
  repeat split.
  - fold (try_except (generate_request post base_url prompt model system stream)
                     (fun e => Ret (JStr ("Error: " ++ exn_text e)))).
    apply generate_returns.
  - intros e ->. reflexivity.
  - intros e Hpost. unfold generate_request. rewrite Hpost. reflexivity.
  - intros response e Hpost Hstatus. unfold generate_request.
    rewrite Hpost, Hstatus. reflexivity.
Qed.

Example generate_connection_refused :
  generate (fun _ _ _ => PostRaises (mkExn ConnectionError "Connection refused"))
           "http://localhost:11434" (JStr "list my files") (JStr "llama3") (JStr EmptyString) false
  = Ret (JStr "Error: Connection refused").
Proof. reflexivity. Qed.

(** ** Error triage *)

Lemma track_error_alternative_attempts (ctx : TaskContext) (msg : string) :
  alternative_attempts (_track_error ctx msg) = alternative_attempts ctx.
Proof.
  unfold _track_error. destruct (last_error ctx) as [previous|]; [|reflexivity].
  destruct (previous =? core_error_of msg); reflexivity.
Qed.

(** After an error is tracked its signature is the last one and the streak
    is at least one. *)
Lemma track_error_first (ctx : TaskContext) (msg : string) :
  last_error (_track_error ctx msg) = Some (core_error_of msg) /\
  1 <= consecutive_errors (_track_error ctx msg).
Proof.
  unfold _track_error. destruct (last_error ctx) as [previous|] eqn:Hlast.
  - destruct (previous =? core_error_of msg) eqn:Heq; simpl.
    + apply String.eqb_eq in Heq. subst previous. split; [reflexivity|lia].
    + split; [reflexivity|lia].
  - simpl. split; [reflexivity|lia].
Qed.

(** An error with the signature of the previous one extends the streak. *)
Lemma track_error_again (ctx : TaskContext) (msg : string) :
  last_error ctx = Some (core_error_of msg) ->
  last_error (_track_error ctx msg) = Some (core_error_of msg) /\
  consecutive_errors (_track_error ctx msg) = consecutive_errors ctx + 1.
Proof.
  intro Hlast. unfold _track_error. rewrite Hlast, String.eqb_refl. simpl.
  split; reflexivity.
Qed.

(** Four failures in a row with one signature make a streak of at least
    four, whatever the context was before. *)
Lemma track_error_four (ctx : TaskContext) (m1 m2 m3 m4 : string) :
  core_error_of m2 = core_error_of m1 ->
  core_error_of m3 = core_error_of m1 ->
  core_error_of m4 = core_error_of m1 ->
  4 <= consecutive_errors
         (_track_error (_track_error (_track_error (_track_error ctx m1) m2) m3) m4).
Proof.
  intros H2 H3 H4.
  destruct (track_error_first ctx m1) as [L1 C1].
  rewrite <- H2 in L1.
  destruct (track_error_again _ m2 L1) as [L2 C2].
  rewrite H2, <- H3 in L2.
  destruct (track_error_again _ m3 L2) as [L3 C3].
  rewrite H3, <- H4 in L3.
  destruct (track_error_again _ m4 L3) as [_ C4].
  lia.
Qed.

(** The decision table of [_handle_execution_error]. *)
Lemma triage_table (ctx : TaskContext) :
  (consecutive_errors ctx < 3 -> _handle_execution_error ctx = "retry") /\
  (3 <= consecutive_errors ctx -> alternative_attempts ctx < 5 ->
   _handle_execution_error ctx = "alternative") /\
  (3 <= consecutive_errors ctx -> 5 <= alternative_attempts ctx ->
   _handle_execution_error ctx = "impossible").
Proof.
  unfold _handle_execution_error.
  destruct (3 <=? consecutive_errors ctx)%nat eqn:H3;
    [apply Nat.leb_le in H3|apply Nat.leb_gt in H3].
  - destruct (5 <=? alternative_attempts ctx)%nat eqn:H5;
      [apply Nat.leb_le in H5|apply Nat.leb_gt in H5];
      repeat split; intros; try reflexivity; lia.
  - destruct (consecutive_errors ctx <? 3)%nat eqn:Hlt;
      [|apply Nat.ltb_ge in Hlt; lia].
    repeat split; intros; try reflexivity; lia.
Qed.

(** Recording a failed approach counts one more alternative attempt and
    leaves the error streak as it is, also when it raises. *)
Lemma record_failed_approach_counts (ctx : TaskContext) (failed_plan : ExecutionPlan) :
  alternative_attempts (fst (record_failed_approach ctx failed_plan))
  = alternative_attempts ctx + 1 /\
  consecutive_errors (fst (record_failed_approach ctx failed_plan)) = consecutive_errors ctx.
Proof.
  unfold record_failed_approach.
  match goal with |- context [match ?r with Ret _ => _ | Raise _ => _ end] => destruct r end;
    split; reflexivity.
Qed.

(** C3: error triage answers 'retry' when [consecutive_errors < 3],
    'alternative' when [consecutive_errors >= 3] and
    [alternative_attempts < 5], and 'impossible' when
    [consecutive_errors >= 3] and [alternative_attempts >= 5].  So after four
    failures in a row with one signature the answer is not 'retry': it is
    'alternative' while fewer than 5 alternatives were tried and
    'impossible' once 5 were; and once five alternative attempts have been
    counted, a streak of three or more yields 'impossible'. *)
Theorem error_triage_decision :
  forall ctx : TaskContext,
    (consecutive_errors ctx < 3 -> _handle_execution_error ctx = "retry") /\
    (3 <= consecutive_errors ctx -> alternative_attempts ctx < 5 ->
     _handle_execution_error ctx = "alternative") /\
    (3 <= consecutive_errors ctx -> 5 <= alternative_attempts ctx ->
     _handle_execution_error ctx = "impossible") /\
    (forall m1 m2 m3 m4 : string,
        core_error_of m2 = core_error_of m1 ->
        core_error_of m3 = core_error_of m1 ->
        core_error_of m4 = core_error_of m1 ->
        let ctx4 := _track_error (_track_error (_track_error (_track_error ctx m1) m2) m3) m4 in
        _handle_execution_error ctx4 <> "retry" /\
        (alternative_attempts ctx < 5 -> _handle_execution_error ctx4 = "alternative") /\
        (5 <= alternative_attempts ctx -> _handle_execution_error ctx4 = "impossible")) /\
    (forall p1 p2 p3 p4 p5 : ExecutionPlan,
        3 <= consecutive_errors ctx ->
        let record := fun c p => fst (record_failed_approach c p) in
        _handle_execution_error (record (record (record (record (record ctx p1) p2) p3) p4) p5)
        = "impossible").
Proof.
  intro ctx.
  destruct (triage_table ctx) as (Hretry & Halt & Himp).
  split; [exact Hretry|]. split; [exact Halt|]. split; [exact Himp|]. split.
  - intros m1 m2 m3 m4 H2 H3 H4 ctx4.
    pose proof (track_error_four ctx m1 m2 m3 m4 H2 H3 H4) as Hstreak.
    fold ctx4 in Hstreak.
    destruct (triage_table ctx4) as (_ & Halt4 & Himp4).
    assert (alternative_attempts ctx4 = alternative_attempts ctx) as Hsame
      by (unfold ctx4; now rewrite !track_error_alternative_attempts).
    split; [|split].
    + intro Hctx4.
      destruct (Nat.lt_ge_cases (alternative_attempts ctx4) 5) as [Hlt|Hge].
      * rewrite Halt4 in Hctx4 by lia. discriminate Hctx4.
      * rewrite Himp4 in Hctx4 by lia. discriminate Hctx4.
    + intro Hlt. apply Halt4; lia.
    + intro Hge. apply Himp4; lia.
  - intros p1 p2 p3 p4 p5 Hstreak record.
    destruct (record_failed_approach_counts ctx p1) as [A1 C1].
    destruct (record_failed_approach_counts (record ctx p1) p2) as [A2 C2].
    destruct (record_failed_approach_counts (record (record ctx p1) p2) p3) as [A3 C3].
    destruct (record_failed_approach_counts (record (record (record ctx p1) p2) p3) p4)
      as [A4 C4].
    destruct (record_failed_approach_counts
                (record (record (record (record ctx p1) p2) p3) p4) p5) as [A5 C5].
    apply triage_table; unfold record in *; lia.
Qed.

Example triage_fourth_failure :
  let failure := "❌ Append the note: Error - [Errno 2] No such file or directory: '/tmp/x'" in
  let ctx := mkContext (JStr "Append a note") [] 1 (Some []) [] None 0 0 [] (Some []) None (Some 0) in
  map (fun n => _handle_execution_error (Nat.iter n (fun c => _track_error c failure) ctx))
      [1; 2; 3; 4]
  = ["retry"; "retry"; "alternative"; "alternative"].
Proof. reflexivity. Qed.

(** ** Response Parser on a text without an opening brace *)

Lemma contains_char_cons (c a : ascii) (s : string) :
  contains_char c (String a s) = false ->
  (a =? c)%char = false /\ contains_char c s = false.
Proof. simpl. intro H. apply orb_false_iff in H. exact H. Qed.

Lemma contains_char_app (c : ascii) (s t : string) :
  contains_char c (s ++ t) = contains_char c s || contains_char c t.
Proof.
  induction s as [|a s IH]; simpl; [reflexivity|].
  rewrite IH. apply orb_assoc.
Qed.

Lemma drop_ws_cons (pending : nat) (a : ascii) (r : string) :
  drop_ws pending (String a r)
  = match pending with
    | S p => drop_ws p r
    | O => match ws_width (String a r) with
           | O => String a r
           | S w => drop_ws w r
           end
    end.
Proof. reflexivity. Qed.

Lemma drop_ws_keeps_absent (c : ascii) (s : string) :
  contains_char c s = false -> forall pending, contains_char c (drop_ws pending s) = false.
Proof.
  induction s as [|a r IH]; intros Habs pending; [reflexivity|].
  destruct (contains_char_cons _ _ _ Habs) as [_ Hr].
  rewrite drop_ws_cons. destruct pending as [|p]; [|apply IH; exact Hr].
  destruct (ws_width (String a r)); [exact Habs|apply IH; exact Hr].
Qed.

Lemma strip_prefix_keeps_absent (c : ascii) (p : string) :
  forall s r, strip_prefix p s = Some r ->
              contains_char c s = false -> contains_char c r = false.
Proof.
  induction p as [|a p IH]; intros s r Hstrip Habs; simpl in Hstrip.
  - destruct s; injection Hstrip as <-; exact Habs.
  - destruct s as [|b s]; [discriminate Hstrip|].
    destruct (a =? b)%char; [|discriminate Hstrip].
    apply (IH s r Hstrip). apply (contains_char_cons _ _ _ Habs).
Qed.

Lemma match_here_needs_brace (p : fence_pattern) (s : string) :
  contains_char "{" s = false -> match_here p s = None.
Proof.
  intro Habs. unfold match_here.
  destruct (strip_prefix (pat_open p) s) as [r|] eqn:Hstrip; [|reflexivity].
  pose proof (strip_prefix_keeps_absent _ _ _ _ Hstrip Habs) as Hr.
  assert (contains_char "{" (if pat_ws p then lstrip r else r) = false) as Hgroup.
  { destruct (pat_ws p); [apply drop_ws_keeps_absent|]; exact Hr. }
  destruct (if pat_ws p then lstrip r else r) as [|c body]; [reflexivity|].
  destruct (contains_char_cons _ _ _ Hgroup) as [-> _]. reflexivity.
Qed.

Lemma re_search_needs_brace (p : fence_pattern) (s : string) :
  contains_char "{" s = false -> re_search p s = None.
Proof.
  induction s as [|a r IH]; intro Habs; simpl re_search;
    rewrite (match_here_needs_brace p _ Habs); [reflexivity|].
  apply IH. apply (contains_char_cons _ _ _ Habs).
Qed.

Lemma from_first_brace_none (s : string) :
  contains_char "{" s = false -> from_first_brace s = None.
Proof.
  induction s as [|a r IH]; intro Habs; [reflexivity|].
  destruct (contains_char_cons _ _ _ Habs) as [Ha Hr].
  simpl. rewrite Ha. apply IH, Hr.
Qed.

Lemma split_on_keeps_absent (c sep : ascii) (s : string) :
  forall cur,
    contains_char c cur = false -> contains_char c s = false ->
    Forall (fun line => contains_char c line = false) (split_on sep cur s).
Proof.
  induction s as [|a r IH]; intros cur Hcur Habs; simpl.
  - constructor; [exact Hcur|constructor].
  - destruct (contains_char_cons _ _ _ Habs) as [Ha Hr].
    destruct (a =? sep)%char.
    + constructor; [exact Hcur|]. apply IH; [reflexivity|exact Hr].
    + apply IH; [|exact Hr].
      rewrite contains_char_app, Hcur. simpl. rewrite Ha. reflexivity.
Qed.

Section ParserFacts.

Variable json_loads : string -> result json.

Lemma strategy_code_blocks_needs_brace (patterns : list fence_pattern) (text : string) :
  contains_char "{" text = false -> strategy_code_blocks json_loads patterns text = None.
Proof.
  intro Habs. induction patterns as [|p rest IH]; simpl; [reflexivity|].
  rewrite (re_search_needs_brace p text Habs). exact IH.
Qed.

Lemma strategy_lines_needs_brace (lines : list string) :
  Forall (fun line => contains_char "{" line = false) lines ->
  forall json_lines, strategy_lines json_loads lines json_lines false = None.
Proof.
  induction 1 as [|line rest Hline _ IH]; intro json_lines; simpl; [reflexivity|].
  rewrite Hline. simpl. rewrite andb_false_r. apply IH.
Qed.

(** On a text without an opening brace only the strict parse of the whole
    trimmed text can produce a value: the result is whatever [json.loads]
    makes of it, and [None] when it raises. *)
Lemma extract_json_without_brace (text : string) :
  contains_char "{" text = false ->
  _extract_json json_loads (JStr text)
  = Ret (match json_loads (strip text) with
         | Ret v => v
         | Raise _ => JNull
         end).
Proof.
  intro Habs. unfold _extract_json.
  rewrite (strategy_code_blocks_needs_brace _ _ Habs).
  unfold strategy_balanced. rewrite (from_first_brace_none _ Habs).
  unfold try_loads. destruct (json_loads (strip text)) as [v|e]; [reflexivity|].
  unfold split.
  rewrite strategy_lines_needs_brace; [reflexivity|].
  apply split_on_keeps_absent; [reflexivity|exact Habs].
Qed.

End ParserFacts.

(** C7: a text without an opening brace is not always reported as
    unparseable.  The text 42 holds no brace, yet [_extract_json] returns
    the integer 42, the value the strict parse of the whole response gives,
    and not [None]. *)
Theorem extract_json_bare_number :
  contains_char "{" "42" = false /\
  _extract_json json_dec (JStr "42") = Ret (JInt 42) /\
  _extract_json json_dec (JStr "42") <> Ret JNull.
Proof.
  split; [reflexivity|]. split; [reflexivity|]. discriminate.
Qed.

Example extract_json_plain_prose :
  _extract_json json_dec (JStr "I could not find that file.") = Ret JNull.
Proof. reflexivity. Qed.

Example extract_json_fenced_object :
  _extract_json json_dec
    (JStr ("Here is the plan: ```json {" ++ dq ++ "complete" ++ dq ++ ": true} ``` Done."))
  = Ret (JObj [("complete", JBool true)]).
Proof. reflexivity. Qed.

Example extract_json_trailing_comma :
  _extract_json json_dec (JStr ("Result: {" ++ dq ++ "steps" ++ dq ++ ": [1, 2,], } thanks"))
  = Ret (JObj [("steps", JArr [JInt 1; JInt 2])]).
Proof. reflexivity. Qed.

(** ** Navigation-loop warning *)

Lemma is_prefix_app (sub rest : string) : is_prefix sub (sub ++ rest) = true.
Proof.
  induction sub as [|a sub IH]; simpl; [reflexivity|].
  rewrite Ascii.eqb_refl. exact IH.
Qed.

Lemma contains_here (sub rest : string) : contains sub (sub ++ rest) = true.
Proof.
  destruct (sub ++ rest) eqn:E; simpl; rewrite <- E, is_prefix_app; reflexivity.
Qed.

Lemma contains_app_r (sub pre s : string) :
  contains sub s = true -> contains sub (pre ++ s) = true.
Proof.
  intro H. induction pre as [|a pre IH]; simpl; [exact H|].
  fold (contains sub (pre ++ s)). rewrite IH. apply orb_true_r.
Qed.

Lemma last_n_length {A : Type} (n : nat) (l : list A) :
  n <= List.length l -> List.length (last_n n l) = n.
Proof. intro H. unfold last_n. rewrite length_skipn. lia. Qed.

(** C8, as the code has it: when more than three navigation targets are
    recorded and the three most recent are not all distinct, the
    verification prompt built next includes the navigation-loop warning
    block. *)
Theorem loop_warning_in_prompt :
  forall (py_repr : json -> string) (ctx : TaskContext) (goal : json)
         (current_directory : string) (open_files : list string)
         (turn_count max_turns : Z) (distinct : list json),
    3 < List.length (get_searched_directories ctx) ->
    py_set (last_n 3 (get_searched_directories ctx)) [] = Ret distinct ->
    List.length distinct < 3 ->
    exists prompt,
      verification_prompt py_repr ctx goal current_directory open_files turn_count max_turns
      = Ret prompt /\
      contains NAVIGATION_LOOP_WARNING prompt = true.
Proof.
  intros py_repr ctx goal current_directory open_files turn_count max_turns distinct
         Hmany Hset Hrepeat.
  assert (loop_warning (get_searched_directories ctx) = Ret NAVIGATION_LOOP_WARNING) as Hwarn.
  { unfold loop_warning.
    rewrite (proj2 (Nat.ltb_lt _ _) Hmany), Hset. cbv beta iota delta [bind].
    rewrite last_n_length by lia.
    apply Nat.ltb_lt in Hrepeat as ->. reflexivity. }
  unfold verification_prompt. rewrite Hwarn. cbv beta iota delta [bind].
  eexists. split; [reflexivity|].
  apply contains_app_r, contains_app_r, contains_here.
Qed.

Lemma loop_warning_in_prompt_witness :
  let dirs := [JStr "/home"; JStr "/home/a"; JStr "/home/b"; JStr "/home/a"] in
  let ctx := mkContext (JStr "Find notes.txt") [] 1
               (Some [mkSubtask 1 (JStr "Locate notes.txt") (JStr "not_started")])
               [] None 0 0 [] (Some dirs) None (Some 0) in
  exists prompt,
    verification_prompt repr_simple ctx (JStr "Find notes.txt") "/home/a" [] 4 50 = Ret prompt /\
    contains NAVIGATION_LOOP_WARNING prompt = true.
Proof.
  intros dirs ctx.
  apply (loop_warning_in_prompt repr_simple ctx (JStr "Find notes.txt") "/home/a" [] 4%Z 50%Z
                                [JStr "/home/a"; JStr "/home/b"]).
  - simpl. lia.
  - reflexivity.
  - simpl. lia.
Defined.

(** C8 as stated fails: after the three targets /home/a, /home/b, /home/a
    (the three most recent are not all distinct) the verification prompt has
    no navigation-loop warning block, because the detection asks for more
    than three recorded targets. *)
Lemma loop_warning_absent_after_three_targets :
  let dirs := [JStr "/home/a"; JStr "/home/b"; JStr "/home/a"] in
  let ctx := mkContext (JStr "Find notes.txt") [] 1
               (Some [mkSubtask 1 (JStr "Locate notes.txt") (JStr "not_started")])
               [] None 0 0 [] (Some dirs) None (Some 0) in
  last_n 3 (get_searched_directories ctx) = dirs /\
  py_set dirs [] = Ret [JStr "/home/a"; JStr "/home/b"] /\
  exists prompt,
    verification_prompt repr_simple ctx (JStr "Find notes.txt") "/home/a" [] 3 50 = Ret prompt /\
    contains NAVIGATION_LOOP_WARNING prompt = false.
Proof.
  intros dirs ctx. split; [reflexivity|]. split; [reflexivity|].
  eexists. split; [reflexivity|]. vm_compute. reflexivity.
Qed.

(** ** Executor *)

Section ExecutorFacts.

Variable py_repr : json -> string.
Variable World : Type.
Variable run_handler : Handler -> json -> World -> result string * World.

Lemma normalize_params_dict (action params : json) (results : list string) :
  is_dict params = true ->
  normalize_params py_repr action params results = (params, results).
Proof. intro H. unfold normalize_params. rewrite H. reflexivity. Qed.

(** With the recording world an action does what it does without it, and the
    handler call, if there is one, is appended to the record. *)
Lemma execute_action_logged (action params : json) (w : World) (log : list (Handler * json)) :
  _execute_action py_repr (logged World) (log_calls run_handler) action params (w, log)
  = let (r, w') := _execute_action py_repr World run_handler action params w in
    (r, (w', (log ++ match table_find action_map action with
                     | Ret (Some handler) => [(handler, params)]
                     | _ => []
                     end)%list)).
Proof.
  unfold _execute_action.
  destruct (table_find action_map action) as [[handler|]|e].
  - unfold log_calls. simpl. destruct (run_handler handler params w). reflexivity.
  - rewrite app_nil_r. reflexivity.
  - rewrite app_nil_r. reflexivity.
Qed.

(** Steps that all return are run to the last, each reported and recorded,
    and the batch goes on with what follows them. *)
Lemma execute_steps_all_return (before : list json) :
  forall (rest : list json) (results : list string) (w w1 : World) (lines : list string)
         (log : list (Handler * json)),
    all_return py_repr World run_handler before w lines w1 ->
    execute_steps py_repr (logged World) (log_calls run_handler) (before ++ rest) results (w, log)
    = execute_steps py_repr (logged World) (log_calls run_handler) rest
                    (results ++ lines)%list (w1, (log ++ flat_map step_calls before)%list).
Proof.
  induction before as [|step before IH]; intros rest results w w1 lines log Hall.
  - destruct lines as [|line lines]; [|contradiction Hall].
    simpl in Hall. subst w1. simpl. rewrite !app_nil_r. reflexivity.
  - destruct step as [ | | | | | |kvs]; try contradiction Hall.
    destruct lines as [|line lines]; [contradiction Hall|].
    cbn [all_return] in Hall.
    destruct Hall as (Hdict & text & w0 & Hrun & Hline & Hrest).
    cbn [app execute_steps].
    rewrite (normalize_params_dict _ _ _ Hdict), execute_action_logged, Hrun.
    rewrite (IH rest _ w0 w1 lines _ Hrest). subst line.
    unfold append. rewrite <- !app_assoc. reflexivity.
Qed.

(** Steps that all return give one check-marked line each. *)
Lemma all_return_lines (plan_steps : list json) :
  forall (w w1 : World) (lines : list string),
    all_return py_repr World run_handler plan_steps w lines w1 ->
    List.length lines = List.length plan_steps /\ Forall succeeded lines.
Proof.
  induction plan_steps as [|step plan_steps IH]; intros w w1 lines Hreturn.
  - destruct lines; [split; [reflexivity|constructor]|contradiction Hreturn].
  - destruct step as [ | | | | | |kvs]; try contradiction Hreturn.
    destruct lines as [|line lines]; [contradiction Hreturn|].
    cbn [all_return] in Hreturn.
    destruct Hreturn as (_ & text & w0 & _ & Hline & Hrest).
    destruct (IH w0 w1 lines Hrest) as [Hlen Hsucc].
    split; [simpl; rewrite Hlen; reflexivity|].
    constructor; [subst line; reflexivity|exact Hsucc].
Qed.

(** C9: in [execute], a NAVIGATE step whose params are the scalar ["/tmp/x"]
    and one whose params are the mapping [{"path": "/tmp/x"}] are normalised
    to the same parameters with no warning, so a plan holding the one and the
    plan holding the other in its place execute identically: the same
    outcomes and the same world, whatever the handlers do.  The normalised
    mapping is what the handler is invoked with: wherever the batch reaches
    the step, [_navigate] is called with [{"path": "/tmp/x"}], that call is
    the one recorded, and what it returns or raises is the step's outcome;
    in particular, after steps that all returned, the run of the whole plan
    is the run of those steps, this one call, and the steps that follow if
    it returned. *)
Theorem navigate_scalar_params_same_dispatch :
  forall (before after : list json) (scalar mapping : list (string * json)) (path : string)
         (goal confidence : json) (op : OperationType) (confirm : bool) (w : World),
    step_action scalar = JStr "NAVIGATE" ->
    step_action mapping = JStr "NAVIGATE" ->
    step_params scalar = JStr path ->
    step_params mapping = JObj [("path", JStr path)] ->
    step_desc scalar = step_desc mapping ->
    (forall results,
        normalize_params py_repr (step_action scalar) (step_params scalar) results
        = (JObj [("path", JStr path)], results) /\
        normalize_params py_repr (step_action mapping) (step_params mapping) results
        = (JObj [("path", JStr path)], results)) /\
    execute py_repr World run_handler
            (mkPlan goal (JArr (before ++ JObj scalar :: after)) confidence op confirm) w
    = execute py_repr World run_handler
              (mkPlan goal (JArr (before ++ JObj mapping :: after)) confidence op confirm) w /\
    (forall (step : list (string * json)) (results : list string) (w0 : World)
            (log : list (Handler * json)),
        step = scalar \/ step = mapping ->
        execute_steps py_repr (logged World) (log_calls run_handler) (JObj step :: after)
                      results (w0, log)
        = match run_handler _navigate (JObj [("path", JStr path)]) w0 with
          | (Ret text, w1) =>
            execute_steps py_repr (logged World) (log_calls run_handler) after
                          (results ++ [("✅ " ++ to_str py_repr (step_desc scalar) ++ ": " ++
                                        text)%string])%list
                          (w1, (log ++ [(_navigate, JObj [("path", JStr path)])])%list)
          | (Raise e, w1) =>
            ((results ++ [("❌ " ++ to_str py_repr (step_desc scalar) ++ ": Error - " ++
                           exn_text e)%string])%list,
             (w1, (log ++ [(_navigate, JObj [("path", JStr path)])])%list))
          end) /\
    (forall (lines : list string) (w1 : World),
        all_return py_repr World run_handler before w lines w1 ->
        let dispatched :=
          fun (step : list (string * json)) =>
            execute py_repr (logged World) (log_calls run_handler)
                    (mkPlan goal (JArr (before ++ JObj step :: after)) confidence op confirm)
                    (w, []) in
        let called :=
          (flat_map step_calls before ++ [(_navigate, JObj [("path", JStr path)])])%list in
        dispatched scalar = dispatched mapping /\
        dispatched scalar
        = match run_handler _navigate (JObj [("path", JStr path)]) w1 with
          | (Ret text, w2) =>
            let (results, end_) :=
              execute_steps py_repr (logged World) (log_calls run_handler) after
                            (lines ++ [("✅ " ++ to_str py_repr (step_desc scalar) ++ ": " ++
                                        text)%string])%list
                            (w2, called) in
            (Ret results, end_)
          | (Raise e, w2) =>
            (Ret (lines ++ [("❌ " ++ to_str py_repr (step_desc scalar) ++ ": Error - " ++
                             exn_text e)%string])%list,
             (w2, called))
          end).
Proof.
  intros before after scalar mapping path goal confidence op confirm w
         Hact1 Hact2 Hpar1 Hpar2 Hdesc.
  assert (Hnorm : forall results,
             normalize_params py_repr (step_action scalar) (step_params scalar) results
             = (JObj [("path", JStr path)], results) /\
             normalize_params py_repr (step_action mapping) (step_params mapping) results
             = (JObj [("path", JStr path)], results)).
  { intro results. rewrite Hact1, Hact2, Hpar1, Hpar2. split; reflexivity. }
  split; [exact Hnorm|].
  assert (Hsteps : forall (W : Type) (handlers : Handler -> json -> W -> result string * W)
                          results w0,
             execute_steps py_repr W handlers (before ++ JObj scalar :: after) results w0
             = execute_steps py_repr W handlers (before ++ JObj mapping :: after) results w0).
  { intros W handlers. induction before as [|step before IH]; intros results w0.
    - simpl app. simpl execute_steps.
      destruct (Hnorm results) as [-> ->]. rewrite Hact1, Hact2, Hdesc. reflexivity.
    - simpl app. simpl execute_steps.
      destruct step as [ | | | |s| |kvs]; try apply IH.
      destruct (normalize_params py_repr (step_action kvs) (step_params kvs) results)
        as [params' results'].
      destruct (_execute_action py_repr W handlers (step_action kvs) params' w0)
        as [[text|e] w1]; [apply IH|reflexivity]. }
  assert (Hhead : forall step results w0 log,
             step = scalar \/ step = mapping ->
             execute_steps py_repr (logged World) (log_calls run_handler) (JObj step :: after)
                           results (w0, log)
             = match run_handler _navigate (JObj [("path", JStr path)]) w0 with
               | (Ret text, w1) =>
                 execute_steps py_repr (logged World) (log_calls run_handler) after
                               (results ++ [("✅ " ++ to_str py_repr (step_desc scalar) ++ ": " ++
                                             text)%string])%list
                               (w1, (log ++ [(_navigate, JObj [("path", JStr path)])])%list)
               | (Raise e, w1) =>
                 ((results ++ [("❌ " ++ to_str py_repr (step_desc scalar) ++ ": Error - " ++
                                exn_text e)%string])%list,
                  (w1, (log ++ [(_navigate, JObj [("path", JStr path)])])%list))
               end).
  { intros step results w0 log Hstep. cbn [execute_steps].
    assert (normalize_params py_repr (step_action step) (step_params step) results
            = (JObj [("path", JStr path)], results) /\
            step_action step = JStr "NAVIGATE" /\
            step_desc step = step_desc scalar) as (Hn & Ha & Hd).
    { destruct (Hnorm results) as [Hn1 Hn2].
      destruct Hstep as [E|E]; subst step; repeat split; auto. }
    rewrite Hn, execute_action_logged. unfold _execute_action. rewrite Ha, Hd.
    simpl table_find. cbv iota.
    destruct (run_handler _navigate (JObj [("path", JStr path)]) w0) as [[text|e] w1];
      reflexivity. }
  split; [|split].
  - unfold execute. simpl py_iter. cbv beta iota. rewrite Hsteps. reflexivity.
  - intros step results w0 log Hstep. apply Hhead. exact Hstep.
  - intros lines w1 Hall. cbv zeta. split.
    + unfold execute. simpl py_iter. cbv beta iota. rewrite Hsteps. reflexivity.
    + unfold execute. simpl py_iter. cbv beta iota.
      rewrite (execute_steps_all_return before _ _ _ _ _ _ Hall).
      rewrite (Hhead scalar _ _ _ (or_introl eq_refl)). simpl app.
      destruct (run_handler _navigate (JObj [("path", JStr path)]) w1) as [[text|e] w2];
        reflexivity.
Qed.

End ExecutorFacts.

Lemma navigate_scalar_params_same_dispatch_witness :
  let scalar := [("action", JStr "NAVIGATE"); ("params", JStr "/tmp/x");
                 ("description", JStr "Go to /tmp/x")] in
  let mapping := [("action", JStr "NAVIGATE"); ("params", JObj [("path", JStr "/tmp/x")]);
                  ("description", JStr "Go to /tmp/x")] in
  let plan := fun step => mkPlan (JStr "Open /tmp/x") (JArr ([] ++ JObj step :: []))
                                 (JFloat 0.96%float) READ_ONLY false in
  (forall results,
      normalize_params repr_simple (step_action scalar) (step_params scalar) results
      = (JObj [("path", JStr "/tmp/x")], results) /\
      normalize_params repr_simple (step_action mapping) (step_params mapping) results
      = (JObj [("path", JStr "/tmp/x")], results)) /\
  execute repr_simple demo_world demo_handler (plan scalar) ["/tmp/x"]
  = execute repr_simple demo_world demo_handler (plan mapping) ["/tmp/x"] /\
  execute repr_simple (logged demo_world) (log_calls demo_handler) (plan scalar) (["/tmp/x"], [])
  = (Ret ["✅ Go to /tmp/x: Navigated to /tmp/x"],
     (["/tmp/x"], [(_navigate, JObj [("path", JStr "/tmp/x")])])) /\
  execute repr_simple (logged demo_world) (log_calls demo_handler) (plan mapping) (["/tmp/x"], [])
  = (Ret ["✅ Go to /tmp/x: Navigated to /tmp/x"],
     (["/tmp/x"], [(_navigate, JObj [("path", JStr "/tmp/x")])])).
Proof.
  intros scalar mapping plan.
  destruct (navigate_scalar_params_same_dispatch repr_simple demo_world demo_handler
              [] [] scalar mapping "/tmp/x" (JStr "Open /tmp/x") (JFloat 0.96%float)
              READ_ONLY false ["/tmp/x"] eq_refl eq_refl eq_refl eq_refl eq_refl)
    as (Hnorm & Hsame & _ & Hcall).
  destruct (Hcall [] ["/tmp/x"] eq_refl) as [Hboth Hrun].
  split; [exact Hnorm|]. split; [exact Hsame|].
  split; [exact Hrun|]. exact (eq_trans (eq_sym Hboth) Hrun).
Defined.

Example navigate_scalar_params_outcome :
  execute repr_simple demo_world demo_handler
          (mkPlan (JStr "Open /tmp/x")
                  (JArr [JObj [("action", JStr "NAVIGATE"); ("params", JStr "/tmp/x");
                               ("description", JStr "Go to /tmp/x")]])
                  (JFloat 0.96%float) READ_ONLY false) ["/tmp/x"]
  = (Ret ["✅ Go to /tmp/x: Navigated to /tmp/x"], ["/tmp/x"]).
Proof. reflexivity. Qed.

Section ExecutorBatch.

Variable py_repr : json -> string.
Variable World : Type.
Variable run_handler : Handler -> json -> World -> result string * World.

#[local] Abbreviation run_logged :=
  (execute_steps py_repr (logged World) (log_calls run_handler)).

Lemma last_cons_nonempty (a b : string) (l : list string) :
  last (a :: b :: l) EmptyString = last (b :: l) EmptyString.
Proof. reflexivity. Qed.

(** A batch of well-formed steps, from any results and record so far: the
    outcomes appended are one per attempted step, in order; the handler
    calls recorded are those of the attempted steps; every outcome but the
    last is of a step that returned; and when a step is left unattempted the
    last outcome is of a step that raised. *)
Lemma execute_steps_batch (plan_steps : list json) :
  forall results0 w log0 results w' log,
    forallb well_formed_step plan_steps = true ->
    run_logged plan_steps results0 (w, log0) = (results, (w', log)) ->
    exists outs,
      results = (results0 ++ outs)%list /\
      Forall2 (outcome_of py_repr) (firstn (List.length outs) plan_steps) outs /\
      log = (log0 ++ flat_map step_calls (firstn (List.length outs) plan_steps))%list /\
      Forall succeeded (removelast outs) /\
      (List.length outs < List.length plan_steps -> failed (last outs EmptyString)).
Proof.
  induction plan_steps as [|step rest IH]; intros results0 w log0 results w' log Hwf Hrun.
  - simpl in Hrun. injection Hrun as <- <- <-.
    exists []. rewrite !app_nil_r. simpl.
    repeat split; try constructor. intro H. inversion H.
  - simpl in Hwf. apply andb_true_iff in Hwf as [Hstep Hrest].
    destruct step as [ | | | | | |kvs]; try discriminate Hstep.
    simpl in Hstep. simpl execute_steps in Hrun.
    rewrite (normalize_params_dict py_repr _ _ _ Hstep) in Hrun.
    rewrite execute_action_logged in Hrun.
    destruct (_execute_action py_repr World run_handler (step_action kvs) (step_params kvs) w)
      as [[text|e] w1].
    + (* the step returned *)
      destruct (IH _ _ _ _ _ _ Hrest Hrun) as (outs' & Hres & Hall & Hlog & Hok & Hfail).
      exists (("✅ " ++ to_str py_repr (step_desc kvs) ++ ": " ++ text) :: outs').
      split; [|split; [|split; [|split]]].
      * rewrite Hres. unfold append. rewrite <- app_assoc. reflexivity.
      * simpl. constructor; [|exact Hall].
        exists kvs, text. split; [reflexivity|left; reflexivity].
      * rewrite Hlog. simpl. rewrite <- app_assoc. reflexivity.
      * destruct outs' as [|o outs']; [constructor|].
        change (Forall succeeded
                  (("✅ " ++ to_str py_repr (step_desc kvs) ++ ": " ++ text)
                     :: removelast (o :: outs'))).
        constructor; [reflexivity|exact Hok].
      * intro Hlen. simpl in Hlen.
        assert (List.length outs' < List.length rest) as Hlen' by lia.
        specialize (Hfail Hlen').
        destruct outs' as [|o outs']; [discriminate Hfail|].
        rewrite last_cons_nonempty. exact Hfail.
    + (* the step raised: the batch stops *)
      injection Hrun as <- <- <-.
      exists ["❌ " ++ to_str py_repr (step_desc kvs) ++ ": Error - " ++ exn_text e].
      split; [|split; [|split; [|split]]].
      * reflexivity.
      * simpl. constructor; [|constructor].
        exists kvs, (exn_text e). split; [reflexivity|right; reflexivity].
      * simpl. rewrite app_nil_r. reflexivity.
      * constructor.
      * intros _. reflexivity.
Qed.

(** The batch [ok, failing, later]: two outcomes and two handler calls at
    most, whatever the third step is. *)
Lemma execute_steps_ok_fail (s1 s2 : list (string * json)) (s3 : json)
  (w w1 w2 : World) (text : string) (e : exn) :
  is_dict (step_params s1) = true ->
  is_dict (step_params s2) = true ->
  _execute_action py_repr World run_handler (step_action s1) (step_params s1) w = (Ret text, w1) ->
  _execute_action py_repr World run_handler (step_action s2) (step_params s2) w1 = (Raise e, w2) ->
  run_logged [JObj s1; JObj s2; s3] [] (w, [])
  = ([ "✅ " ++ to_str py_repr (step_desc s1) ++ ": " ++ text;
       "❌ " ++ to_str py_repr (step_desc s2) ++ ": Error - " ++ exn_text e ],
     (w2, (step_calls (JObj s1) ++ step_calls (JObj s2))%list)).
Proof.
  intros Hp1 Hp2 Hok Hfail. simpl execute_steps.
  rewrite (normalize_params_dict py_repr _ _ _ Hp1), execute_action_logged, Hok.
  rewrite (normalize_params_dict py_repr _ _ _ Hp2), execute_action_logged, Hfail.
  reflexivity.
Qed.

(** C2: on a plan whose steps are well-formed action records, [execute]
    attempts the steps in array order and appends exactly one outcome per
    attempted step (the outcomes pair off, in order, with a prefix of the
    steps, and the handlers called are exactly those of that prefix, in
    order); every outcome but the last is of a step that returned, and if a
    step is left unattempted the last outcome is of a step that raised.  The
    batch halts at the first failure, in every plan: when the steps before
    some step all return and that step's action raises, the outcomes are the
    check-marked lines of the steps before it followed by the cross-marked
    line of that step with the text of the exception, no handler of a later
    step is called, and the world is as the raising step left it.  When no
    step raises, every step is attempted and every outcome is check-marked.
    For the steps [ok, failing, ok] exactly two outcomes are returned and
    the third step's handler is never called. *)
Theorem execute_fail_fast :
  forall (plan : ExecutionPlan) (plan_steps : list json) (w w' : World)
         (r : result (list string)) (log : list (Handler * json)),
    steps plan = JArr plan_steps ->
    forallb well_formed_step plan_steps = true ->
    execute py_repr (logged World) (log_calls run_handler) plan (w, []) = (r, (w', log)) ->
    exists results,
      r = Ret results /\
      List.length results <= List.length plan_steps /\
      Forall2 (outcome_of py_repr) (firstn (List.length results) plan_steps) results /\
      log = flat_map step_calls (firstn (List.length results) plan_steps) /\
      Forall succeeded (removelast results) /\
      (List.length results < List.length plan_steps -> failed (last results EmptyString)) /\
      (forall s1 s2 s3 text e w1 w2,
          plan_steps = [JObj s1; JObj s2; s3] ->
          _execute_action py_repr World run_handler (step_action s1) (step_params s1) w
          = (Ret text, w1) ->
          _execute_action py_repr World run_handler (step_action s2) (step_params s2) w1
          = (Raise e, w2) ->
          List.length results = 2 /\
          log = (step_calls (JObj s1) ++ step_calls (JObj s2))%list /\
          w' = w2) /\
      (forall (before : list json) (failing : list (string * json)) (after : list json)
              (lines : list string) (w1 w2 : World) (e : exn),
          plan_steps = (before ++ JObj failing :: after)%list ->
          all_return py_repr World run_handler before w lines w1 ->
          _execute_action py_repr World run_handler (step_action failing) (step_params failing) w1
          = (Raise e, w2) ->
          results = (lines ++ [("❌ " ++ to_str py_repr (step_desc failing) ++ ": Error - " ++
                                exn_text e)%string])%list /\
          List.length results = List.length before + 1 /\
          log = flat_map step_calls (before ++ [JObj failing]) /\
          w' = w2) /\
      (forall (lines : list string) (w1 : World),
          all_return py_repr World run_handler plan_steps w lines w1 ->
          results = lines /\
          List.length results = List.length plan_steps /\
          Forall succeeded results /\
          log = flat_map step_calls plan_steps /\
          w' = w1).
Proof.
  intros plan plan_steps w w' r log Hsteps Hwf Hrun.
  unfold execute in Hrun. rewrite Hsteps in Hrun. simpl py_iter in Hrun. cbv beta iota in Hrun.
  destruct (execute_steps py_repr (logged World) (log_calls run_handler) plan_steps [] (w, []))
    as [results [w0 log0]] eqn:Hbatch.
  injection Hrun as <- <- <-.
  exists results. split; [reflexivity|].
  destruct (execute_steps_batch plan_steps [] w [] results w0 log0 Hwf Hbatch)
    as (outs & Hres & Hall & Hlog & Hok & Hhalt).
  simpl in Hres, Hlog. subst outs.
  split; [|split; [exact Hall|split; [exact Hlog|split; [exact Hok|split; [exact Hhalt|]]]]].
  - apply Forall2_length in Hall. rewrite <- Hall. rewrite length_firstn. lia.
  - split; [|split].
    + intros s1 s2 s3 text e w1 w2 -> Hfirst Hsecond.
      simpl in Hwf. apply andb_true_iff in Hwf as [Hp1 Hwf].
      apply andb_true_iff in Hwf as [Hp2 _].
      pose proof (execute_steps_ok_fail s1 s2 s3 w w1 w2 text e Hp1 Hp2 Hfirst Hsecond) as Hthree.
      rewrite Hthree in Hbatch.
      injection Hbatch as <- <- <-.
      repeat split.
    + intros before failing after lines w1 w2 e -> Hreturn Hraise.
      rewrite (execute_steps_all_return py_repr World run_handler before _ _ _ _ _ _ Hreturn)
        in Hbatch.
      rewrite forallb_app in Hwf. apply andb_true_iff in Hwf as [_ Hwf].
      simpl in Hwf. apply andb_true_iff in Hwf as [Hdict _].
      cbn [execute_steps] in Hbatch.
      rewrite (normalize_params_dict py_repr _ _ _ Hdict), execute_action_logged, Hraise
        in Hbatch.
      injection Hbatch as <- <- <-.
      destruct (all_return_lines py_repr World run_handler _ _ _ _ Hreturn) as [Hlen _].
      split; [reflexivity|]. split; [|split; [|reflexivity]].
      * unfold append. simpl app. rewrite !length_app, Hlen. reflexivity.
      * rewrite flat_map_app. simpl. rewrite app_nil_r. reflexivity.
    + intros lines w1 Hreturn.
      pose proof (execute_steps_all_return py_repr World run_handler plan_steps [] [] _ _ _ []
                                           Hreturn) as Hrunall.
      rewrite app_nil_r in Hrunall. rewrite Hrunall in Hbatch. simpl in Hbatch.
      injection Hbatch as <- <- <-.
      destruct (all_return_lines py_repr World run_handler _ _ _ _ Hreturn) as [Hlen Hsucc].
      repeat split; assumption.
Qed.

End ExecutorBatch.

Lemma execute_fail_fast_witness :
  let s1 := JObj [("action", JStr "NAVIGATE"); ("params", JObj [("path", JStr "/home/a")]);
                  ("description", JStr "Go to the notes")] in
  let failing := [("action", JStr "APPEND_TEXT");
                  ("params", JObj [("text", JStr "done"); ("path", JStr "/missing/log.txt")]);
                  ("description", JStr "Log the visit")] in
  let s3 := JObj [("action", JStr "DELETE_FILE"); ("params", JObj [("path", JStr "/home/a")]);
                  ("description", JStr "Remove the notes")] in
  let plan := mkPlan (JStr "Visit, log and clean up") (JArr [s1; JObj failing; s3])
                     (JFloat 0.96%float) DESTRUCTIVE true in
  exists results,
    fst (execute repr_simple (logged demo_world) (log_calls demo_handler) plan (["/home/a"], []))
    = Ret results /\
    List.length results = 2 /\
    results = [ "✅ Go to the notes: Navigated to /home/a";
                "❌ Log the visit: Error - [Errno 2] No such file or directory: '/missing/log.txt'" ] /\
    [ (_navigate, JObj [("path", JStr "/home/a")]);
      (_append_text, JObj [("text", JStr "done"); ("path", JStr "/missing/log.txt")]) ]
    = flat_map step_calls (firstn (List.length results) [s1; JObj failing; s3]) /\
    results = (["✅ Go to the notes: Navigated to /home/a"] ++
               [("❌ " ++ to_str repr_simple (step_desc failing) ++ ": Error - " ++
                 "[Errno 2] No such file or directory: '/missing/log.txt'")%string])%list.
Proof.
  intros s1 failing s3 plan.
  destruct (execute_fail_fast repr_simple demo_world demo_handler
              plan [s1; JObj failing; s3] ["/home/a"] ["/home/a"]
              (Ret [ "✅ Go to the notes: Navigated to /home/a";
                     "❌ Log the visit: Error - [Errno 2] No such file or directory: '/missing/log.txt'" ])
              [ (_navigate, JObj [("path", JStr "/home/a")]);
                (_append_text, JObj [("text", JStr "done"); ("path", JStr "/missing/log.txt")]) ]
              eq_refl eq_refl eq_refl)
    as (results & Hret & _ & _ & Hlog & _ & _ & _ & Hhalt & _).
  exists results.
  assert (all_return repr_simple demo_world demo_handler [s1] ["/home/a"]
                     ["✅ Go to the notes: Navigated to /home/a"] ["/home/a"]) as Hbefore.
  { split; [reflexivity|].
    exists "Navigated to /home/a", ["/home/a"].
    split; [reflexivity|]. split; reflexivity. }
  destruct (Hhalt [s1] failing [s3] _ _ _ _ eq_refl Hbefore eq_refl) as (Hresults & _).
  injection Hret as <-.
  split; [reflexivity|]. split; [reflexivity|]. split; [reflexivity|].
  split; [exact Hlog|exact Hresults].
Defined.

(** ** Goal-completion check *)



Section SupervisorFacts.

Variable py_repr : json -> string.
Variable py_int : string -> result Z.


End SupervisorFacts.



Example verify_honours_completion :
  let ctx := mkContext (JStr "Tidy the notes") [] 1
               (Some [ mkSubtask 1 (JStr "Open notes.txt") (JStr "not_started") ])
               [] None 0 0 [] (Some []) None (Some 0) in
  verify repr_simple int_simple ctx []
         (JObj [ ("complete", JBool true);
                 ("subtasks_status", JObj [("subtask_1", JStr "complete")]);
                 ("reasoning", JStr "The file is open.") ])
  = ([ "<i>💭 The file is open.</i>"; "<b>✅ Goal achieved! All subtasks complete.</b>" ],
     _reset_task_context, GoalAchieved).
Proof. reflexivity. Qed.

(** ** Planner loop *)

Section PlannerFacts.

Variable json_loads : string -> result json.
Variable py_repr : json -> string.
Variable format_pct : json -> result string.
Variable post_at : nat -> transport.
Variable cancelled : nat -> bool.
Variable base_url : string.
Variable model : json.
Variable user_input : json.
Variable context : list (string * json).
Variable max_loops : Z.
Variable confidence_threshold : float.

#[local] Abbreviation body :=
  (loop_body json_loads py_repr format_pct post_at cancelled base_url model
             max_loops confidence_threshold).
#[local] Abbreviation test := (loop_test cancelled max_loops).
#[local] Abbreviation while :=
  (while_loop json_loads py_repr format_pct post_at cancelled base_url model
              max_loops confidence_threshold).

(** Every way through the loop body adds one to [loop_count]. *)
Lemma loop_body_count (k : nat) (st : run_state) :
  match body k st with
  | Next st' | Break st' | Return st' | Uncaught _ st' =>
    loop_count st' = (loop_count st + 1)%Z
  end.
Proof.
  unfold loop_body.
  destruct (generate (post_at k) base_url (JStr (context_str st)) model (JStr SYSTEM_PROMPT) false);
    [|reflexivity].
  destruct (cancelled (2 * k + 1)); [reflexivity|].
  destruct (attempt json_loads py_repr format_pct confidence_threshold (context_str st) a)
    as [sigs [[plan|context_str']|e]]; reflexivity.
Qed.

(** The test fails once [loop_count] has reached the budget. *)
Lemma loop_test_exhausted (k : nat) (st : run_state) :
  loop_count st = Z.of_nat k -> Z.to_nat max_loops <= k -> test k st = false.
Proof.
  intros Hcount Hk. unfold loop_test.
  assert ((loop_count st <? max_loops)%Z = false) as -> by (apply Z.ltb_ge; lia).
  reflexivity.
Qed.

(** From its [k]-th test, with [m] iterations left in the budget, the loop
    is left after at most [m] more iterations; [m + 1] units of fuel are
    enough and more fuel changes nothing. *)
Lemma while_loop_terminates (m : nat) :
  forall (k : nat) (st : run_state),
    loop_count st = Z.of_nat k ->
    k + m = Nat.max k (Z.to_nat max_loops) ->
    exists e,
      iterations_of e <= k + m /\
      forall fuel, m < fuel -> while fuel k st = Some e.
Proof.
  induction m as [|m IH]; intros k st Hcount Hbudget.
  - exists (Fell k st). split; [simpl; lia|].
    intros [|fuel] Hfuel; [lia|]. simpl.
    rewrite loop_test_exhausted by (assumption || lia). reflexivity.
  - destruct (test k st) eqn:Htest.
    + pose proof (loop_body_count k st) as Hbody.
      destruct (body k st) as [st'|st'|st'|e st'] eqn:Hstep.
      * destruct (IH (S k) st') as (e & Hiter & Hrun); [lia|lia|].
        exists e. split; [lia|].
        intros [|fuel] Hfuel; [lia|]. simpl. rewrite Htest, Hstep. apply Hrun. lia.
      * exists (Fell (S k) st'). split; [simpl; lia|].
        intros [|fuel] Hfuel; [lia|]. simpl. rewrite Htest, Hstep. reflexivity.
      * exists (Returned (S k) st'). split; [simpl; lia|].
        intros [|fuel] Hfuel; [lia|]. simpl. rewrite Htest, Hstep. reflexivity.
      * exists (Failed (S k) e st'). split; [simpl; lia|].
        intros [|fuel] Hfuel; [lia|]. simpl. rewrite Htest, Hstep. reflexivity.
    + exists (Fell k st). split; [simpl; lia|].
      intros [|fuel] Hfuel; [lia|]. simpl. rewrite Htest. reflexivity.
Qed.

(** C5: for every [max_loops], every behaviour of the Model Gateway and of
    the decoder (so also when every response is unparseable) and every
    cancellation, the reasoning loop of [run] makes at most [max_loops]
    iterations and [run] terminates: a number of steps just above the budget
    is enough for it to finish, and it finishes with the same result however
    many more it is given. *)
Theorem run_terminates_within_max_loops :
  exists (iterations : nat) (signals : list signal),
    iterations <= Z.to_nat max_loops /\
    forall fuel,
      Z.to_nat max_loops < fuel ->
      run json_loads py_repr format_pct post_at cancelled base_url model user_input context
          max_loops confidence_threshold fuel
      = Some (iterations, signals).
Proof.
  unfold run.
  destruct (initial_context_str py_repr user_input context) as [context_str0|e].
  - destruct (while_loop_terminates (Z.to_nat max_loops) 0 (mkState 0 context_str0 None []))
      as (e & Hiter & Hrun); [reflexivity|simpl; lia|].
    simpl in Hiter.
    destruct e as [n st|n st|n e st]; simpl in Hiter.
    + destruct (final_plan st) as [plan|] eqn:Hplan.
      * exists n, (emitted st ++ [plan_ready plan])%list. split; [exact Hiter|].
        intros fuel Hfuel. rewrite (Hrun fuel Hfuel), Hplan. reflexivity.
      * exists n, (emitted st ++ [plan_ready clarification_plan])%list. split; [exact Hiter|].
        intros fuel Hfuel. rewrite (Hrun fuel Hfuel), Hplan. reflexivity.
    + exists n, (emitted st). split; [exact Hiter|].
      intros fuel Hfuel. rewrite (Hrun fuel Hfuel). reflexivity.
    + exists n, (emitted st ++ [error_occurred (exn_text e)])%list. split; [exact Hiter|].
      intros fuel Hfuel. rewrite (Hrun fuel Hfuel). reflexivity.
  - exists 0, [error_occurred (exn_text e)]. split; [lia|]. intros fuel _. reflexivity.
Qed.

End PlannerFacts.

Example run_unreachable_gateway :
  option_map (fun r => (fst r, plans_emitted (snd r)))
    (run json_dec repr_simple pct_simple unreachable_gateway (fun _ => false)
         "http://localhost:11434" (JStr "llama3") (JStr "tidy up")
         [("current_dir", JStr "/home/a"); ("open_files", JArr [])] 3 0.95%float 4)
  = Some (3, [clarification_plan]).
Proof. vm_compute. reflexivity. Qed.

(** *** What one iteration emits *)

Lemma ebind_updates {A B : Type} (c : emitting A) (k : A -> emitting B) :
  Forall is_update (fst c) ->
  (forall a, Forall is_update (fst (k a))) ->
  Forall is_update (fst (ebind c k)).
Proof.
  intros Hc Hk. destruct c as [out [a|e]]; simpl in *; [|exact Hc].
  specialize (Hk a). destruct (k a) as [out' r]. simpl in *.
  apply Forall_app. split; assumption.
Qed.

Lemma ebind_returns {A B : Type} (c : emitting A) (k : A -> emitting B) (b : B) :
  snd (ebind c k) = Ret b ->
  exists a, snd c = Ret a /\ snd (k a) = Ret b.
Proof.
  destruct c as [out [a|e]]; simpl; [|discriminate].
  destruct (k a) as [out' r] eqn:Hk. simpl. intros ->.
  exists a. rewrite Hk. split; reflexivity.
Qed.

Lemma lift_updates {A : Type} (r : result A) : Forall is_update (fst (lift r)).
Proof. constructor. Qed.

Lemma emit_updates (message : string) : Forall is_update (fst (emit message)).
Proof. repeat constructor. exists message. reflexivity. Qed.

Create HintDb updates.
#[local] Hint Resolve lift_updates emit_updates : updates.

Section AttemptFacts.

Variable json_loads : string -> result json.
Variable py_repr : json -> string.
Variable format_pct : json -> result string.
Variable confidence_threshold : float.

Lemma emit_reasoning_cons (step : json) (rest : list json) :
  emit_reasoning py_repr format_pct (step :: rest)
  = (thought <~ lift (py_get step "thought" (JStr EmptyString)) ;;
     confidence <~ lift (py_get step "confidence" (JInt 0)) ;;
     pct <~ lift (format_pct confidence) ;;
     _ <~ emit ("💭 " ++ to_str py_repr thought ++ " (confidence: " ++ pct ++ ")") ;;
     emit_reasoning py_repr format_pct rest).
Proof. reflexivity. Qed.

Lemma emit_reasoning_updates (rsteps : list json) :
  Forall is_update (fst (emit_reasoning py_repr format_pct rsteps)).
Proof.
  induction rsteps as [|step rest IH]; [constructor|].
  rewrite emit_reasoning_cons.
  repeat (apply ebind_updates; [auto with updates|intro]). exact IH.
Qed.

(** The [try] block of an iteration emits reasoning updates only. *)
Lemma attempt_updates (context_str : string) (response : json) :
  Forall is_update
         (fst (attempt json_loads py_repr format_pct confidence_threshold context_str response)).
Proof.
  unfold attempt.
  apply ebind_updates; [auto with updates|intro parsed].
  destruct (py_truthy parsed).
  - apply ebind_updates; [auto with updates|intro reasoning].
    apply ebind_updates; [auto with updates|intro rsteps].
    apply ebind_updates; [apply emit_reasoning_updates|intros _].
    apply ebind_updates; [auto with updates|intro plan_data].
    apply ebind_updates; [auto with updates|intro confidence].
    apply ebind_updates; [auto with updates|intros [|]].
    + apply ebind_updates; [auto with updates|intro plan]. constructor.
    + repeat (apply ebind_updates; [auto with updates|intro]). constructor.
  - repeat (apply ebind_updates; [auto with updates|intro]). constructor.
Qed.

(** The [try] block accepts a plan only from a response that meets the
    threshold. *)
Lemma attempt_accepts (context_str : string) (response : json) (plan : ExecutionPlan) :
  snd (attempt json_loads py_repr format_pct confidence_threshold context_str response)
  = Ret (Accepted plan) ->
  meets_threshold json_loads confidence_threshold response = true.
Proof.
  unfold attempt, meets_threshold. intro H.
  apply ebind_returns in H as (parsed & Hparsed & H). simpl in Hparsed. rewrite Hparsed.
  destruct (py_truthy parsed).
  - apply ebind_returns in H as (reasoning & _ & H).
    apply ebind_returns in H as (rsteps & _ & H).
    apply ebind_returns in H as (u & _ & H).
    apply ebind_returns in H as (plan_data & Hplan & H). simpl in Hplan. rewrite Hplan.
    apply ebind_returns in H as (confidence & Hconf & H). simpl in Hconf. rewrite Hconf.
    apply ebind_returns in H as (enough & Henough & H). simpl in Henough. rewrite Henough.
    destruct enough; [reflexivity|].
    apply ebind_returns in H as (pct & _ & H).
    apply ebind_returns in H as (tpct & _ & H).
    apply ebind_returns in H as (u' & _ & H).
    apply ebind_returns in H as (pct' & _ & H).
    discriminate H.
  - apply ebind_returns in H as (preview & _ & H).
    apply ebind_returns in H as (u1 & _ & H).
    apply ebind_returns in H as (u2 & _ & H).
    apply ebind_returns in H as (u3 & _ & H).
    discriminate H.
Qed.

End AttemptFacts.

Lemma plans_emitted_updates (signals : list signal) :
  Forall is_update signals -> plans_emitted signals = [].
Proof.
  induction 1 as [|s rest [message ->] _ IH]; [reflexivity|]. exact IH.
Qed.

Section PlannerExhausted.

Variable json_loads : string -> result json.
Variable py_repr : json -> string.
Variable format_pct : json -> result string.
Variable post_at : nat -> transport.
Variable cancelled : nat -> bool.
Variable base_url : string.
Variable model : json.
Variable user_input : json.
Variable context : list (string * json).
Variable max_loops : Z.
Variable confidence_threshold : float.

Hypothesis never_cancelled : forall n, cancelled n = false.

Hypothesis no_response_qualifies :
  forall k prompt response,
    generate (post_at k) base_url (JStr prompt) model (JStr SYSTEM_PROMPT) false = Ret response ->
    meets_threshold json_loads confidence_threshold response = false.

#[local] Abbreviation body' :=
  (loop_body json_loads py_repr format_pct post_at cancelled base_url model
             max_loops confidence_threshold).
#[local] Abbreviation while' :=
  (while_loop json_loads py_repr format_pct post_at cancelled base_url model
              max_loops confidence_threshold).

(** Without cancellation and without a qualifying response an iteration
    leads back to the loop test, with no plan and only updates emitted. *)
Lemma loop_body_refines (k : nat) (st : run_state) :
  final_plan st = None ->
  Forall is_update (emitted st) ->
  exists st',
    body' k st = Next st' /\ final_plan st' = None /\ Forall is_update (emitted st').
Proof.
  intros Hplan Hout. unfold loop_body.
  destruct (generate_returns (post_at k) base_url (JStr (context_str st)) model
                             (JStr SYSTEM_PROMPT) false) as [response Hresponse].
  rewrite Hresponse, never_cancelled.
  pose proof (no_response_qualifies k _ _ Hresponse) as Hlow.
  pose proof (attempt_updates json_loads py_repr format_pct confidence_threshold
                              (context_str st) response) as Hsigs.
  pose proof (attempt_accepts json_loads py_repr format_pct confidence_threshold
                              (context_str st) response) as Haccept.
  assert (Forall is_update
                 (emitted st ++
                  [reasoning_update ("🔄 Reasoning loop " ++ str_of_Z (loop_count st + 1) ++ "/" ++
                                     str_of_Z max_loops ++ "...")])) as Hout'.
  { apply Forall_app. split; [exact Hout|]. repeat constructor. eexists. reflexivity. }
  destruct (attempt json_loads py_repr format_pct confidence_threshold (context_str st) response)
    as [sigs [[plan|context_str']|e]]; simpl in Hsigs, Haccept.
  - rewrite (Haccept plan eq_refl) in Hlow. discriminate Hlow.
  - eexists. split; [reflexivity|]. split; [exact Hplan|].
    apply Forall_app. split; assumption.
  - eexists. split; [reflexivity|]. split; [exact Hplan|]. simpl.
    apply Forall_app. split; [exact Hout'|].
    apply Forall_app. split; [exact Hsigs|].
    unfold parse_error_signals. repeat constructor; eexists; reflexivity.
Qed.

Lemma while_loop_exhausts (m : nat) :
  forall (k : nat) (st : run_state),
    loop_count st = Z.of_nat k ->
    k + m = Z.to_nat max_loops ->
    final_plan st = None ->
    Forall is_update (emitted st) ->
    forall fuel, m < fuel ->
    exists st',
      while' fuel k st = Some (Fell (Z.to_nat max_loops) st') /\
      final_plan st' = None /\ Forall is_update (emitted st').
Proof.
  induction m as [|m IH]; intros k st Hcount Hbudget Hplan Hout [|fuel] Hfuel; try lia.
  - simpl. rewrite loop_test_exhausted by (assumption || lia).
    exists st. rewrite <- Hbudget, Nat.add_0_r. repeat split; assumption.
  - simpl. unfold loop_test. rewrite never_cancelled.
    assert ((loop_count st <? max_loops)%Z = true) as -> by (apply Z.ltb_lt; lia).
    simpl andb. cbv iota.
    destruct (loop_body_refines k st Hplan Hout) as (st' & Hstep & Hplan' & Hout').
    pose proof (loop_body_count json_loads py_repr format_pct post_at cancelled base_url model
                                max_loops confidence_threshold k st) as Hcount'.
    rewrite Hstep in Hcount' |- *.
    apply IH; try assumption; lia.
Qed.

(** C6: when no cancellation occurs and no response parses to a plan whose
    confidence meets the threshold, [run] uses up its loop budget and then
    emits exactly one plan, the sentinel that asks for clarification: no
    steps, confidence 0.0, no confirmation required.  Everything else it
    emits is a reasoning update. *)
Theorem run_exhausted_emits_clarification :
  forall (context_str0 : string) (fuel : nat),
    initial_context_str py_repr user_input context = Ret context_str0 ->
    Z.to_nat max_loops < fuel ->
    exists updates,
      Forall is_update updates /\
      run json_loads py_repr format_pct post_at cancelled base_url model user_input context
          max_loops confidence_threshold fuel
      = Some (Z.to_nat max_loops, (updates ++ [plan_ready clarification_plan])%list) /\
      plans_emitted (updates ++ [plan_ready clarification_plan]) = [clarification_plan] /\
      steps clarification_plan = JArr [] /\
      overall_confidence clarification_plan = JFloat 0%float /\
      requires_confirmation clarification_plan = false.
Proof.
  intros context_str0 fuel Hcontext Hfuel.
  destruct (while_loop_exhausts (Z.to_nat max_loops) 0 (mkState 0 context_str0 None []))
    with (fuel := fuel) as (st & Hrun & Hplan & Hout);
    try reflexivity; try assumption; [constructor|].
  exists (emitted st). split; [exact Hout|]. split.
  - unfold run. rewrite Hcontext, Hrun, Hplan. reflexivity.
  - split; [|repeat split].
    unfold plans_emitted. rewrite flat_map_app.
    fold (plans_emitted (emitted st)). rewrite (plans_emitted_updates _ Hout). reflexivity.
Qed.

End PlannerExhausted.

Lemma run_exhausted_emits_clarification_witness :
  exists updates,
    Forall is_update updates /\
    run json_dec repr_simple pct_simple hesitant_gateway (fun _ => false)
        "http://localhost:11434" (JStr "llama3") (JStr "tidy up")
        [("current_dir", JStr "/home/a"); ("open_files", JArr []); ("selected_item", JNull)]
        2 0.95%float 3
    = Some (Z.to_nat 2, (updates ++ [plan_ready clarification_plan])%list) /\
    plans_emitted (updates ++ [plan_ready clarification_plan]) = [clarification_plan] /\
    steps clarification_plan = JArr [] /\
    overall_confidence clarification_plan = JFloat 0%float /\
    requires_confirmation clarification_plan = false.
Proof.
  eapply (run_exhausted_emits_clarification json_dec repr_simple pct_simple hesitant_gateway
            (fun _ => false) "http://localhost:11434" (JStr "llama3") (JStr "tidy up")
            [("current_dir", JStr "/home/a"); ("open_files", JArr []); ("selected_item", JNull)]
            2%Z 0.95%float).
  - reflexivity.
  - intros [|k] prompt response Hresponse; cbv in Hresponse;
      injection Hresponse as <-; vm_compute; reflexivity.
  - reflexivity.
  - simpl. lia.
Defined.

(** * Further properties *)

(** ** Response Parser *)

(** X1: on a text without an opening brace [_extract_json] never raises; it
    returns what the strict parse of the whole trimmed text gives, and [None]
    when that parse fails. *)
Theorem extract_json_brace_free_text :
  forall (json_loads : string -> result json) (text : string),
    contains_char "{" text = false ->
    exists v,
      _extract_json json_loads (JStr text) = Ret v /\
      (json_loads (strip text) = Ret v \/
       (v = JNull /\ exists e, json_loads (strip text) = Raise e)).
Proof.
  intros json_loads text Habs.
  rewrite (extract_json_without_brace json_loads text Habs).
  destruct (json_loads (strip text)) as [v|e]; eexists; split; try reflexivity.
  - left. reflexivity.
  - right. split; [reflexivity|]. exists e. reflexivity.
Qed.

Lemma extract_json_brace_free_text_witness :
  exists v,
    _extract_json json_dec (JStr "  [1, 2, 3] ") = Ret v /\
    (json_dec (strip "  [1, 2, 3] ") = Ret v \/
     (v = JNull /\ exists e, json_dec (strip "  [1, 2, 3] ") = Raise e)).
Proof.
  apply (extract_json_brace_free_text json_dec "  [1, 2, 3] "). reflexivity.
Defined.

(** X2: an exception leaves [_extract_json] on a text only from the first
    parse of the balanced-brace candidate of strategy 2, and only when it is
    not a [JSONDecodeError]; every other failure of the decoder is absorbed.
    So with a decoder that raises nothing but [JSONDecodeError] the parser
    returns on every text. *)
Theorem extract_json_escape_only_from_balanced_parse :
  forall (json_loads : string -> result json) (text : string) (e : exn),
    _extract_json json_loads (JStr text) = Raise e ->
    exn_kind e <> JSONDecodeError /\
    exists suffix span,
      from_first_brace text = Some suffix /\
      scan_braces suffix 0 false false = Some span /\
      json_loads (take_bytes span suffix) = Raise e.
Proof.
  intros json_loads text e. unfold _extract_json.
  destruct (strategy_code_blocks json_loads code_block_patterns text); [discriminate|].
  unfold strategy_balanced.
  destruct (from_first_brace text) as [suffix|] eqn:Hfirst.
  - destruct (scan_braces suffix 0 false false) as [span|] eqn:Hscan.
    + destruct (json_loads (take_bytes span suffix)) as [v|e'] eqn:Hloads; [discriminate|].
      destruct (exn_kind e') eqn:Hkind;
        try (intros [= <-]; split; [rewrite Hkind; discriminate|];
             exists suffix, span; repeat split; assumption).
      destruct (try_loads json_loads (fix_trailing_commas (take_bytes span suffix)));
        [discriminate|].
      destruct (try_loads json_loads (strip text)); [discriminate|].
      destruct (strategy_lines json_loads (split newline text) [] false); discriminate.
    + destruct (try_loads json_loads (strip text)); [discriminate|].
      destruct (strategy_lines json_loads (split newline text) [] false); discriminate.
  - destruct (try_loads json_loads (strip text)); [discriminate|].
    destruct (strategy_lines json_loads (split newline text) [] false); discriminate.
Qed.

Lemma extract_json_escape_only_from_balanced_parse_witness :
  let text := "Count: {" ++ dq ++ "n" ++ dq ++ ": 1" ++ string_of_list_ascii (repeat "0"%char 4300) ++ "}" in
  let e := mkExn ValueError "text outside the decoded fragment" in
  exn_kind e <> JSONDecodeError /\
  exists suffix span,
    from_first_brace text = Some suffix /\
    scan_braces suffix 0 false false = Some span /\
    json_dec (take_bytes span suffix) = Raise e.
Proof.
  intros text e.
  apply (extract_json_escape_only_from_balanced_parse json_dec text e).
  vm_compute. reflexivity.
Defined.

Lemma from_first_brace_some (text suffix : string) :
  from_first_brace text = Some suffix ->
  exists pre rest,
    text = pre ++ suffix /\ suffix = String "{" rest /\ contains_char "{" pre = false.
Proof.
  revert suffix. induction text as [|a r IH]; intros suffix H; simpl in H; [discriminate|].
  destruct (a =? "{")%char eqn:Ha.
  - injection H as <-. apply Ascii.eqb_eq in Ha. subst a.
    exists EmptyString, r. repeat split.
  - destruct (IH suffix H) as (pre & rest & -> & -> & Hpre).
    exists (String a pre), rest. repeat split. simpl. rewrite Ha, Hpre. reflexivity.
Qed.

Lemma scan_braces_ends_with_brace (s : string) :
  forall (brace_count : Z) (in_string escape_next : bool) (span : nat),
    scan_braces s brace_count in_string escape_next = Some span ->
    exists body, take_bytes span s = body ++ "}" /\ span = String.length body + 1.
Proof.
  induction s as [|c r IH]; intros brace_count in_string escape_next span H;
    simpl in H; [discriminate|].
  assert (Hrec : forall bc i e,
             option_map S (scan_braces r bc i e) = Some span ->
             exists body, take_bytes span (String c r) = body ++ "}" /\
                          span = String.length body + 1).
  { intros bc i e Hmap.
    destruct (scan_braces r bc i e) as [m|] eqn:Hm; [|discriminate Hmap].
    injection Hmap as <-. destruct (IH _ _ _ _ Hm) as (body & Htake & Hlen).
    exists (String c body). simpl. rewrite Htake. split; [reflexivity|lia]. }
  destruct escape_next; [eapply Hrec; eassumption|].
  destruct (c =? "\")%char; [eapply Hrec; eassumption|].
  destruct (c =? dquote)%char; [eapply Hrec; eassumption|].
  destruct (negb in_string); [|eapply Hrec; eassumption].
  destruct (c =? "{")%char; [eapply Hrec; eassumption|].
  destruct (c =? "}")%char eqn:Hc; [|eapply Hrec; eassumption].
  destruct (brace_count - 1 =? 0)%Z; [|eapply Hrec; eassumption].
  injection H as <-. apply Ascii.eqb_eq in Hc. subst c.
  exists EmptyString. split; reflexivity.
Qed.

(** X3: the candidate that strategy 2 hands to the decoder is a piece of the
    response that starts at its first opening brace and ends with a closing
    brace: the response is [pre ++ candidate ++ post] with no brace opened in
    [pre], and the candidate is ["{" ++ body ++ "}"]. *)
Theorem balanced_candidate_shape :
  forall (text suffix : string) (span : nat),
    from_first_brace text = Some suffix ->
    scan_braces suffix 0 false false = Some span ->
    exists pre body post,
      text = pre ++ take_bytes span suffix ++ post /\
      take_bytes span suffix = "{" ++ body ++ "}" /\
      contains_char "{" pre = false.
Proof.
  intros text suffix span Hfirst Hscan.
  destruct (from_first_brace_some _ _ Hfirst) as (pre & rest & -> & -> & Hpre).
  simpl in Hscan.
  destruct (scan_braces rest 1 false false) as [m|] eqn:Hm; [|discriminate Hscan].
  injection Hscan as <-.
  destruct (scan_braces_ends_with_brace _ _ _ _ _ Hm) as (body & Htake & Hlen).
  assert (Hsplit : forall n s, exists post, s = take_bytes n s ++ post).
  { induction n as [|n IHn]; intros [|a s]; simpl; try (eexists; reflexivity).
    destruct (IHn s) as [post Hpost]. exists post. rewrite <- Hpost. reflexivity. }
  destruct (Hsplit m rest) as [post Hpost].
  exists pre, body, post. simpl. rewrite Htake. repeat split; try assumption.
  rewrite <- Htake, <- Hpost. reflexivity.
Qed.

Lemma balanced_candidate_shape_witness :
  exists pre body post,
    "Plan: {a{b}} and {c}" = pre ++ take_bytes 6 "{a{b}} and {c}" ++ post /\
    take_bytes 6 "{a{b}} and {c}" = "{" ++ body ++ "}" /\
    contains_char "{" pre = false.
Proof.
  apply (balanced_candidate_shape "Plan: {a{b}} and {c}" "{a{b}} and {c}" 6); reflexivity.
Defined.

Lemma scan_braces_depth (s : string) :
  contains_char dquote s = false ->
  contains_char "\" s = false ->
  forall (brace_count : Z) (span : nat),
    (1 <= brace_count)%Z ->
    scan_braces s brace_count false false = Some span ->
    (brace_count + Z.of_nat (count_char "{" (take_bytes span s))
     = Z.of_nat (count_char "}" (take_bytes span s)))%Z /\
    forall k, k < span ->
      (Z.of_nat (count_char "}" (take_bytes k s))
       < brace_count + Z.of_nat (count_char "{" (take_bytes k s)))%Z.
Proof.
  induction s as [|c r IH]; intros Hq Hb brace_count span Hpos H; simpl in H; [discriminate|].
  simpl in Hq, Hb. apply orb_false_iff in Hq as [Hcq Hq]. apply orb_false_iff in Hb as [Hcb Hb].
  rewrite Hcb, Hcq in H. simpl negb in H. cbv iota in H.
  assert (Hrec : forall bc,
             (1 <= bc)%Z ->
             (bc = brace_count + (if (c =? "{")%char then 1 else 0)
                   - (if (c =? "}")%char then 1 else 0))%Z ->
             option_map S (scan_braces r bc false false) = Some span ->
             (brace_count + Z.of_nat (count_char "{" (take_bytes span (String c r)))
              = Z.of_nat (count_char "}" (take_bytes span (String c r))))%Z /\
             forall k, k < span ->
               (Z.of_nat (count_char "}" (take_bytes k (String c r)))
                < brace_count + Z.of_nat (count_char "{" (take_bytes k (String c r))))%Z).
  { intros bc Hbc Heq Hmap.
    destruct (scan_braces r bc false false) as [m|] eqn:Hm; [|discriminate Hmap].
    injection Hmap as <-. destruct (IH Hq Hb bc m Hbc Hm) as [Hend Hbefore].
    split.
    - simpl. destruct (c =? "{")%char, (c =? "}")%char; simpl in *; lia.
    - intros [|k] Hk; [simpl; lia|].
      specialize (Hbefore k ltac:(lia)). simpl.
      destruct (c =? "{")%char, (c =? "}")%char; simpl in *; lia. }
  destruct (c =? "{")%char eqn:Hopen.
  - assert ((c =? "}")%char = false) as Hclose
        by (apply Ascii.eqb_eq in Hopen; subst c; reflexivity).
    rewrite Hclose in Hrec.
    apply (Hrec (brace_count + 1)%Z); [lia|lia|exact H].
  - destruct (c =? "}")%char eqn:Hclose.
    + destruct (brace_count - 1 =? 0)%Z eqn:Hzero.
      * injection H as <-. apply Z.eqb_eq in Hzero. split.
        -- simpl. rewrite Hopen, Hclose. simpl. lia.
        -- intros k Hk. assert (k = 0) as -> by lia. simpl. lia.
      * apply Z.eqb_neq in Hzero.
        apply (Hrec (brace_count - 1)%Z); [lia|lia|exact H].
    + apply (Hrec brace_count); [lia|lia|exact H].
Qed.

(** X4: on a response without quotes and backslashes the candidate of
    strategy 2 is the shortest balanced piece that starts at the first
    opening brace: it holds as many closing braces as opening ones, and every
    shorter non-empty piece from the same start holds fewer closing braces
    than opening ones. *)
Theorem balanced_candidate_is_balanced :
  forall (suffix rest : string) (span : nat),
    suffix = String "{" rest ->
    contains_char dquote suffix = false ->
    contains_char "\" suffix = false ->
    scan_braces suffix 0 false false = Some span ->
    count_char "{" (take_bytes span suffix) = count_char "}" (take_bytes span suffix) /\
    forall k, 0 < k < span ->
      count_char "}" (take_bytes k suffix) < count_char "{" (take_bytes k suffix).
Proof.
  intros suffix rest span -> Hq Hb Hscan.
  simpl in Hq, Hb, Hscan.
  destruct (scan_braces rest 1 false false) as [m|] eqn:Hm; [|discriminate Hscan].
  injection Hscan as <-.
  destruct (scan_braces_depth rest Hq Hb 1 m ltac:(lia) Hm) as [Hend Hbefore].
  split.
  - simpl. lia.
  - intros [|k] Hk; [lia|]. specialize (Hbefore k ltac:(lia)). simpl. lia.
Qed.

Lemma balanced_candidate_is_balanced_witness :
  count_char "{" (take_bytes 6 "{a{b}} and {c}") = count_char "}" (take_bytes 6 "{a{b}} and {c}") /\
  forall k, 0 < k < 6 ->
    count_char "}" (take_bytes k "{a{b}} and {c}") < count_char "{" (take_bytes k "{a{b}} and {c}").
Proof.
  apply (balanced_candidate_is_balanced "{a{b}} and {c}" "a{b}} and {c}" 6); reflexivity.
Defined.

Lemma is_prefix_char_contains (c : ascii) (s : string) :
  is_prefix (String c EmptyString) s = true -> contains_char c s = true.
Proof.
  destruct s as [|a r]; simpl; [discriminate|].
  rewrite andb_true_r. intro H. rewrite Ascii.eqb_sym, H. reflexivity.
Qed.

Lemma lstrip_no_closer (c : ascii) (r : string) :
  contains_char c r = false -> is_prefix (String c EmptyString) (lstrip r) = false.
Proof.
  intro H. destruct (is_prefix (String c EmptyString) (lstrip r)) eqn:E; [|reflexivity].
  apply is_prefix_char_contains in E.
  unfold lstrip in E. rewrite (drop_ws_keeps_absent c r H 0) in E. discriminate E.
Qed.

Lemma fix_trailing_commas_cons (c : ascii) (r : string) :
  fix_trailing_commas (String c r)
  = if (c =? ",")%char && (is_prefix "}" (lstrip r) || is_prefix "]" (lstrip r))
    then fix_trailing_commas r
    else String c (fix_trailing_commas r).
Proof. reflexivity. Qed.

(** X5: the repair of strategy 3 deletes commas and nothing else: without its
    commas the repaired text is the original without its commas, so it is
    never longer; and a text that holds no comma, or neither a closing brace
    nor a closing bracket, is left as it is. *)
Theorem fix_trailing_commas_only_deletes_commas :
  forall s : string,
    remove_char "," (fix_trailing_commas s) = remove_char "," s /\
    String.length (fix_trailing_commas s) <= String.length s /\
    (contains_char "," s = false -> fix_trailing_commas s = s) /\
    (contains_char "}" s = false -> contains_char "]" s = false -> fix_trailing_commas s = s).
Proof.
  induction s as [|c r (Hrem & Hlen & Hcomma & Hcloser)].
  - repeat split; reflexivity.
  - rewrite fix_trailing_commas_cons.
    assert (Hkeep : contains_char "}" (String c r) = false ->
                    contains_char "]" (String c r) = false ->
                    is_prefix "}" (lstrip r) || is_prefix "]" (lstrip r) = false /\
                    fix_trailing_commas r = r).
    { intros Hb Hk. apply contains_char_cons in Hb as [_ Hb].
      apply contains_char_cons in Hk as [_ Hk].
      rewrite (lstrip_no_closer _ _ Hb), (lstrip_no_closer _ _ Hk), (Hcloser Hb Hk).
      split; reflexivity. }
    destruct (c =? ",")%char eqn:Hc.
    + destruct (is_prefix "}" (lstrip r) || is_prefix "]" (lstrip r)) eqn:Hnext;
        cbn [andb remove_char String.length]; rewrite ?Hc.
      * split; [exact Hrem|]. split; [lia|]. split.
        -- cbn [contains_char]. rewrite Hc. discriminate.
        -- intros Hb Hk. destruct (Hkeep Hb Hk) as [Hno _]. discriminate Hno.
      * split; [exact Hrem|]. split; [lia|]. split.
        -- cbn [contains_char]. rewrite Hc. discriminate.
        -- intros Hb Hk. destruct (Hkeep Hb Hk) as [_ ->]. reflexivity.
    + cbn [andb remove_char String.length]. rewrite Hc.
      split; [rewrite Hrem; reflexivity|]. split; [lia|]. split.
      * intro H. apply contains_char_cons in H as [_ H]. rewrite (Hcomma H). reflexivity.
      * intros Hb Hk. destruct (Hkeep Hb Hk) as [_ ->]. reflexivity.
Qed.

Example fix_trailing_commas_doubled :
  fix_trailing_commas "[1, 2,, ]" = "[1, 2, ]".
Proof. reflexivity. Qed.

(** *** Fenced blocks *)

Lemma ws_width_le_3 (s : string) : ws_width s <= 3.
Proof.
  unfold ws_width. destruct s as [|a [|b [|c r]]]; try lia;
    repeat match goal with |- context [if ?x then _ else _] => destruct x end; lia.
Qed.

Lemma ws_width_at_closing_brace (r : string) : ws_width (String "}" r) = 0.
Proof. destruct r as [|b [|c r]]; reflexivity. Qed.

Lemma ws_width_before_closing_brace_1 (a : ascii) (r : string) :
  ws_width (String a (String "}" r)) <= 1.
Proof.
  unfold ws_width. destruct r as [|c r]; simpl;
    rewrite ?andb_false_r; simpl;
    repeat match goal with |- context [if ?x then _ else _] => destruct x end; lia.
Qed.

Lemma ws_width_before_closing_brace_2 (a b : ascii) (r : string) :
  ws_width (String a (String b (String "}" r))) <= 2.
Proof.
  unfold ws_width. simpl. rewrite ?andb_false_r. simpl.
  repeat match goal with |- context [if ?x then _ else _] => destruct x end; lia.
Qed.

Lemma ws_width_before_closing_brace (b tail : string) :
  ws_width (b ++ String "}" tail) <= String.length b.
Proof.
  destruct b as [|a1 [|a2 [|a3 b]]].
  - simpl String.append. rewrite ws_width_at_closing_brace. simpl String.length. lia.
  - apply ws_width_before_closing_brace_1.
  - apply ws_width_before_closing_brace_2.
  - pose proof (ws_width_le_3 (String a1 (String a2 (String a3 b)) ++ String "}" tail)).
    simpl String.length. lia.
Qed.

(** Dropping leading whitespace never goes past a closing brace: what is
    left is an end piece of the text before the brace, then the brace. *)
Lemma drop_ws_before_closing_brace (b tail : string) :
  forall pending,
    pending <= String.length b ->
    exists b2,
      drop_ws pending (b ++ String "}" tail) = b2 ++ String "}" tail /\
      forall c, contains_char c b = false -> contains_char c b2 = false.
Proof.
  induction b as [|a b IH]; intros pending Hpending.
  - assert (pending = 0) as -> by (simpl in Hpending; lia).
    exists EmptyString. split; [|intros; reflexivity].
    simpl String.append. rewrite drop_ws_cons, ws_width_at_closing_brace. reflexivity.
  - simpl String.append. rewrite drop_ws_cons. destruct pending as [|p].
    + pose proof (ws_width_before_closing_brace (String a b) tail) as Hwidth.
      simpl String.append in Hwidth.
      destruct (ws_width (String a (b ++ String "}" tail))) as [|w].
      * exists (String a b). split; [reflexivity|]. intros c H. exact H.
      * destruct (IH w) as (b2 & Hdrop & Hkeep); [simpl in Hwidth; lia|].
        exists b2. split; [exact Hdrop|].
        intros c H. apply Hkeep. apply (contains_char_cons _ _ _ H).
    + destruct (IH p) as (b2 & Hdrop & Hkeep); [simpl in Hpending; lia|].
      exists b2. split; [exact Hdrop|].
      intros c H. apply Hkeep. apply (contains_char_cons _ _ _ H).
Qed.

Lemma blank_char_width (a : ascii) (r : string) :
  ((a =? " ")%char || (a =? newline)%char ||
   (nat_of_ascii a =? 9)%nat || (nat_of_ascii a =? 13)%nat) = true ->
  ws_width (String a r) = 1.
Proof.
  intro H.
  assert (a = " "%char \/ a = newline \/ a = ascii_of_nat 9 \/ a = ascii_of_nat 13) as Ha.
  { repeat (apply orb_true_iff in H as [H|H]).
    - left. apply Ascii.eqb_eq, H.
    - right; left. apply Ascii.eqb_eq, H.
    - right; right; left. apply Nat.eqb_eq in H. rewrite <- H, ascii_nat_embedding. reflexivity.
    - right; right; right. apply Nat.eqb_eq in H. rewrite <- H, ascii_nat_embedding. reflexivity. }
  destruct Ha as [Ha|[Ha|[Ha|Ha]]]; rewrite Ha; reflexivity.
Qed.

Lemma lstrip_blank (ws y : string) :
  blank ws = true -> ws_width y = 0 -> lstrip (ws ++ y) = y.
Proof.
  intros Hblank Hy. unfold lstrip. induction ws as [|a ws IH].
  - simpl String.append. destruct y as [|c y]; [reflexivity|]. rewrite drop_ws_cons, Hy. reflexivity.
  - simpl in Hblank. apply andb_true_iff in Hblank as [Ha Hws].
    simpl String.append. rewrite drop_ws_cons, (blank_char_width a _ Ha). exact (IH Hws).
Qed.

Lemma closes_not_before_last_brace (b tail : string) :
  contains_char "`" b = false -> closes json_fence (b ++ String "}" tail) = false.
Proof.
  intro Hb. unfold closes, lstrip. simpl pat_ws. cbv iota. simpl pat_close.
  destruct (drop_ws_before_closing_brace b tail 0 ltac:(lia)) as (b2 & -> & Hkeep).
  specialize (Hkeep _ Hb).
  destruct b2 as [|a b2]; [reflexivity|].
  apply contains_char_cons in Hkeep as [Ha _].
  simpl String.append. cbn [is_prefix]. rewrite Ascii.eqb_sym, Ha. reflexivity.
Qed.

Lemma lazy_body_fenced (body ws2 post : string) :
  contains_char "`" body = false ->
  blank ws2 = true ->
  lazy_body json_fence (body ++ String "}" (ws2 ++ "```" ++ post)) = Some body.
Proof.
  intros Hbody Hws.
  assert (ws_width ("```" ++ post) = 0) as Hwidth
    by (destruct post as [|x [|y post]]; reflexivity).
  assert (is_prefix "```" ("```" ++ post) = true) as Hfence by reflexivity.
  remember ("```" ++ post) as fence eqn:E. clear E.
  induction body as [|c body IH].
  - simpl String.append. cbn [lazy_body]. rewrite Ascii.eqb_refl. cbn [andb].
    unfold closes. simpl pat_ws. cbv iota.
    rewrite (lstrip_blank ws2 fence Hws Hwidth). simpl pat_close. rewrite Hfence.
    reflexivity.
  - apply contains_char_cons in Hbody as [_ Hbody].
    simpl String.append. cbn [lazy_body].
    rewrite (closes_not_before_last_brace body _ Hbody), andb_false_r.
    rewrite (IH Hbody). reflexivity.
Qed.

Lemma match_here_fenced (ws1 body ws2 post : string) :
  contains_char "`" body = false ->
  blank ws1 = true -> blank ws2 = true ->
  match_here json_fence ("```json" ++ ws1 ++ String "{" (body ++ String "}" (ws2 ++ "```" ++ post)))
  = Some ("{" ++ body ++ "}").
Proof.
  intros Hbody H1 H2. unfold match_here.
  pose proof (lazy_body_fenced body ws2 post Hbody H2) as Hlazy.
  set (inner := body ++ String "}" (ws2 ++ "```" ++ post)) in *.
  change (strip_prefix (pat_open json_fence) ("```json" ++ ws1 ++ String "{" inner))
    with (Some (ws1 ++ String "{" inner)).
  change (pat_ws json_fence) with true. cbv iota.
  rewrite (lstrip_blank ws1 _ H1).
  - rewrite Ascii.eqb_refl, Hlazy. reflexivity.
  - destruct inner as [|x [|y r]]; reflexivity.
Qed.

Lemma re_search_at_head (p : fence_pattern) (s g : string) :
  match_here p s = Some g -> re_search p s = Some g.
Proof. intro H. destruct s; cbn [re_search]; rewrite H; reflexivity. Qed.

Lemma re_search_skips_plain_text (pre rest : string) :
  contains_char "`" pre = false ->
  re_search json_fence (pre ++ rest) = re_search json_fence rest.
Proof.
  intro Hpre. induction pre as [|a pre IH]; [reflexivity|].
  apply contains_char_cons in Hpre as [Ha Hpre].
  simpl String.append. simpl re_search.
  assert (match_here json_fence (String a (pre ++ rest)) = None) as ->.
  { unfold match_here. simpl pat_open. cbn [strip_prefix].
    rewrite Ascii.eqb_sym, Ha. reflexivity. }
  exact (IH Hpre).
Qed.

(** X6: an object inside a [```json] fence is recovered from the prose
    around it.  When the response is [pre], the opening fence, blanks,
    ["{" ++ body ++ "}"], blanks, the closing fence and anything after, with
    no backtick in [pre] and [body], and the decoder accepts the object, then
    [_extract_json] returns its decoded value. *)
Theorem extract_json_fenced_object_recovered :
  forall (json_loads : string -> result json) (pre ws1 body ws2 post : string) (v : json),
    contains_char "`" pre = false ->
    contains_char "`" body = false ->
    blank ws1 = true ->
    blank ws2 = true ->
    json_loads ("{" ++ body ++ "}") = Ret v ->
    _extract_json json_loads
      (JStr (pre ++ "```json" ++ ws1 ++ "{" ++ body ++ "}" ++ ws2 ++ "```" ++ post))
    = Ret v.
Proof.
  intros json_loads pre ws1 body ws2 post v Hpre Hbody H1 H2 Hloads.
  unfold _extract_json, code_block_patterns. cbn [strategy_code_blocks].
  change (mkPattern (backticks3 ++ "json") true backticks3) with json_fence.
  rewrite (re_search_skips_plain_text pre _ Hpre).
  pose proof (match_here_fenced ws1 body ws2 post Hbody H1 H2) as Hmatch.
  change ("```json" ++ ws1 ++ "{" ++ body ++ "}" ++ ws2 ++ "```" ++ post)
    with ("```json" ++ ws1 ++ String "{" (body ++ String "}" (ws2 ++ "```" ++ post))).
  set (fenced := "```json" ++ ws1 ++ String "{" (body ++ String "}" (ws2 ++ "```" ++ post))) in *.
  rewrite (re_search_at_head _ _ _ Hmatch).
  unfold try_loads. rewrite Hloads. reflexivity.
Qed.

Lemma extract_json_fenced_object_recovered_witness :
  _extract_json json_dec
    (JStr ("Here is the plan:" ++ nl ++ "```json" ++ nl ++
           "{" ++ (dq ++ "plan" ++ dq ++ ": {" ++ dq ++ "steps" ++ dq ++ ": []}") ++ "}" ++
           nl ++ "```" ++ " Let me know."))
  = Ret (JObj [("plan", JObj [("steps", JArr [])])]).
Proof.
  apply (extract_json_fenced_object_recovered json_dec
           ("Here is the plan:" ++ nl) nl
           (dq ++ "plan" ++ dq ++ ": {" ++ dq ++ "steps" ++ dq ++ ": []}") nl " Let me know.");
    reflexivity.
Defined.

(** ** Planner: what a run emits *)

Section AttemptSource.

Variable json_loads : string -> result json.
Variable py_repr : json -> string.
Variable format_pct : json -> result string.
Variable confidence_threshold : float.

(** An accepted plan is built from the [plan] entry of the parsed
    response. *)
Lemma attempt_plan_source (context_str : string) (response : json) (plan : ExecutionPlan) :
  snd (attempt json_loads py_repr format_pct confidence_threshold context_str response)
  = Ret (Accepted plan) ->
  exists parsed plan_data,
    _extract_json json_loads response = Ret parsed /\
    py_get parsed "plan" (JObj []) = Ret plan_data /\
    _build_plan plan_data = Ret plan.
Proof.
  unfold attempt. intro H.
  apply ebind_returns in H as (parsed & Hparsed & H). simpl in Hparsed.
  exists parsed.
  destruct (py_truthy parsed).
  - apply ebind_returns in H as (reasoning & _ & H).
    apply ebind_returns in H as (rsteps & _ & H).
    apply ebind_returns in H as (u & _ & H).
    apply ebind_returns in H as (plan_data & Hplan & H). simpl in Hplan.
    exists plan_data.
    apply ebind_returns in H as (confidence & _ & H).
    apply ebind_returns in H as (enough & _ & H).
    destruct enough.
    + apply ebind_returns in H as (built & Hbuilt & H). simpl in Hbuilt, H.
      injection H as <-. repeat split; assumption.
    + apply ebind_returns in H as (pct & _ & H).
      apply ebind_returns in H as (tpct & _ & H).
      apply ebind_returns in H as (u' & _ & H).
      apply ebind_returns in H as (pct' & _ & H).
      discriminate H.
  - apply ebind_returns in H as (preview & _ & H).
    apply ebind_returns in H as (u1 & _ & H).
    apply ebind_returns in H as (u2 & _ & H).
    apply ebind_returns in H as (u3 & _ & H).
    discriminate H.
Qed.

Lemma parse_error_signals_updates (e : exn) (response : json) :
  Forall is_update (parse_error_signals py_repr e response).
Proof. unfold parse_error_signals. repeat constructor; eexists; reflexivity. Qed.

End AttemptSource.

Section PlannerOutcome.

Variable json_loads : string -> result json.
Variable py_repr : json -> string.
Variable format_pct : json -> result string.
Variable post_at : nat -> transport.
Variable cancelled : nat -> bool.
Variable base_url : string.
Variable model : json.
Variable user_input : json.
Variable context : list (string * json).
Variable max_loops : Z.
Variable confidence_threshold : float.

#[local] Abbreviation iteration :=
  (loop_body json_loads py_repr format_pct post_at cancelled base_url model
             max_loops confidence_threshold).
#[local] Abbreviation loop :=
  (while_loop json_loads py_repr format_pct post_at cancelled base_url model
              max_loops confidence_threshold).

(** The response of the [k]-th call of the Model Gateway to [prompt] met the
    threshold and [plan] was built from its [plan] entry. *)
#[local] Abbreviation accepted_from k plan :=
  (exists prompt response parsed plan_data,
      generate (post_at k) base_url (JStr prompt) model (JStr SYSTEM_PROMPT) false
      = Ret response /\
      meets_threshold json_loads confidence_threshold response = true /\
      _extract_json json_loads response = Ret parsed /\
      py_get parsed "plan" (JObj []) = Ret plan_data /\
      _build_plan plan_data = Ret plan).

(** The ways an iteration can end, with what is then known. *)
Lemma loop_body_outcome (k : nat) (st : run_state) :
  Forall is_update (emitted st) ->
  match iteration k st with
  | Next st' =>
    Forall is_update (emitted st') /\ final_plan st' = final_plan st /\
    cancelled (2 * k + 1) = false
  | Break st' =>
    Forall is_update (emitted st') /\ cancelled (2 * k + 1) = false /\
    exists plan, final_plan st' = Some plan /\ accepted_from k plan
  | Return st' =>
    Forall is_update (emitted st') /\ cancelled (2 * k + 1) = true
  | Uncaught _ _ => False
  end.
Proof.
  intro Hout. unfold loop_body.
  destruct (generate_returns (post_at k) base_url (JStr (context_str st)) model
                             (JStr SYSTEM_PROMPT) false) as [response Hresponse].
  rewrite Hresponse.
  assert (Forall is_update
                 (emitted st ++
                  [reasoning_update ("🔄 Reasoning loop " ++ str_of_Z (loop_count st + 1) ++ "/" ++
                                     str_of_Z max_loops ++ "...")])) as Hout'.
  { apply Forall_app. split; [exact Hout|]. repeat constructor. eexists. reflexivity. }
  destruct (cancelled (2 * k + 1)) eqn:Hcancel; [split; [exact Hout'|reflexivity]|].
  pose proof (attempt_updates json_loads py_repr format_pct confidence_threshold
                              (context_str st) response) as Hsigs.
  pose proof (attempt_accepts json_loads py_repr format_pct confidence_threshold
                              (context_str st) response) as Haccept.
  pose proof (attempt_plan_source json_loads py_repr format_pct confidence_threshold
                                  (context_str st) response) as Hsource.
  destruct (attempt json_loads py_repr format_pct confidence_threshold (context_str st) response)
    as [sigs [[plan|context_str']|e]]; simpl in Hsigs, Haccept, Hsource.
  - split; [apply Forall_app; split; assumption|]. split; [reflexivity|].
    exists plan. split; [reflexivity|].
    destruct (Hsource plan eq_refl) as (parsed & plan_data & Hparsed & Hdata & Hbuilt).
    exists (context_str st), response, parsed, plan_data.
    repeat split; try assumption. exact (Haccept plan eq_refl).
  - split; [apply Forall_app; split; assumption|]. split; reflexivity.
  - split; [|split; reflexivity]. simpl.
    apply Forall_app. split; [exact Hout'|].
    apply Forall_app. split; [exact Hsigs|]. apply parse_error_signals_updates.
Qed.

(** The ways the loop can be left, with what is then known. *)
Lemma while_loop_outcome (fuel : nat) :
  forall (k : nat) (st : run_state) (e : loop_end),
    loop_count st = Z.of_nat k ->
    final_plan st = None ->
    Forall is_update (emitted st) ->
    loop fuel k st = Some e ->
    match e with
    | Fell n st' =>
      Forall is_update (emitted st') /\
      match final_plan st' with
      | Some plan =>
        1 <= n /\ cancelled (2 * (n - 1) + 1) = false /\ accepted_from (n - 1) plan
      | None =>
        (n = k \/ 1 <= n /\ cancelled (2 * (n - 1) + 1) = false) /\
        ((max_loops <= Z.of_nat n)%Z \/ cancelled (2 * n) = true)
      end
    | Returned n st' =>
      Forall is_update (emitted st') /\ 1 <= n /\ cancelled (2 * (n - 1) + 1) = true
    | Failed _ _ _ => False
    end.
Proof.
  induction fuel as [|fuel IH]; intros k st e Hcount Hplan Hout Hrun; [discriminate Hrun|].
  simpl in Hrun.
  destruct (loop_test cancelled max_loops k st) eqn:Htest.
  - pose proof (loop_body_outcome k st Hout) as Hstep.
    pose proof (loop_body_count json_loads py_repr format_pct post_at cancelled base_url model
                                max_loops confidence_threshold k st) as Hcount'.
    destruct (iteration k st) as [st'|st'|st'|x st'].
    + destruct Hstep as (Hout' & Hplan' & Hcancel).
      specialize (IH (S k) st' e).
      rewrite Hplan', Hplan in IH.
      assert (loop_count st' = Z.of_nat (S k)) as Hk by lia.
      specialize (IH Hk eq_refl Hout' Hrun).
      destruct e as [n st''|n st''|n x st'']; [|exact IH|exact IH].
      destruct IH as [Hout'' IH]. split; [exact Hout''|].
      destruct (final_plan st'') as [plan|]; [exact IH|].
      destruct IH as [[->|Hlast] Hend]; (split; [|exact Hend]).
      * right. split; [lia|].
        replace (S k - 1) with k by lia. exact Hcancel.
      * right. exact Hlast.
    + injection Hrun as <-.
      destruct Hstep as (Hout' & Hcancel & plan & Hplan' & Hfrom).
      split; [exact Hout'|]. rewrite Hplan'.
      replace (S k - 1) with k by lia.
      split; [lia|]. split; [exact Hcancel|exact Hfrom].
    + injection Hrun as <-.
      destruct Hstep as (Hout' & Hcancel).
      replace (S k - 1) with k by lia.
      split; [exact Hout'|]. split; [lia|exact Hcancel].
    + destruct Hstep.
  - injection Hrun as <-. split; [exact Hout|]. rewrite Hplan.
    split; [left; reflexivity|].
    unfold loop_test in Htest. apply andb_false_iff in Htest as [Hbudget|Hcancel].
    + left. apply Z.ltb_ge in Hbudget. lia.
    + right. apply negb_false_iff in Hcancel. exact Hcancel.
Qed.

(** X7: what [run] emits follows one of three shapes.  Either the prompt
    could not be built and the only signal is the error; or the signals are
    reasoning updates followed by exactly one plan, which is the last signal;
    or cancellation was seen right after the response of the last Model
    Gateway call, and then only reasoning updates were emitted: no plan and
    no error.  A plan is never followed by anything, and no error is emitted
    once the loop has started. *)
Theorem run_signal_protocol :
  forall (fuel n : nat) (signals : list signal),
    run json_loads py_repr format_pct post_at cancelled base_url model user_input context
        max_loops confidence_threshold fuel
    = Some (n, signals) ->
    (exists e,
        initial_context_str py_repr user_input context = Raise e /\
        n = 0 /\ signals = [error_occurred (exn_text e)]) \/
    (exists updates plan,
        signals = (updates ++ [plan_ready plan])%list /\
        Forall is_update updates /\
        (n = 0 \/ 1 <= n /\ cancelled (2 * (n - 1) + 1) = false)) \/
    (Forall is_update signals /\ 1 <= n /\ cancelled (2 * (n - 1) + 1) = true).
Proof.
  intros fuel n signals Hrun. unfold run in Hrun.
  destruct (initial_context_str py_repr user_input context) as [context_str0|e].
  - right.
    destruct (loop fuel 0 (mkState 0 context_str0 None [])) as [e|] eqn:Hloop;
      [|discriminate Hrun].
    pose proof (while_loop_outcome fuel 0 (mkState 0 context_str0 None []) e eq_refl eq_refl (Forall_nil _) Hloop) as Hend.
    destruct e as [m st|m st|m x st]; [| |destruct Hend].
    + left. destruct Hend as [Hout Hend].
      destruct (final_plan st) as [plan|]; injection Hrun as <- <-.
      * exists (emitted st), plan. split; [reflexivity|]. split; [exact Hout|].
        right. split; apply Hend.
      * exists (emitted st), clarification_plan. split; [reflexivity|]. split; [exact Hout|].
        apply Hend.
    + right. injection Hrun as <- <-. exact Hend.
  - left. injection Hrun as <- <-. exists e. repeat split.
Qed.

(** X8: where an emitted plan comes from.  A plan that [run] emits is either
    the sentinel that asks for clarification, emitted when the loop was left
    at its test (budget used up, or cancellation seen there), or it was built
    by [_build_plan] from the [plan] entry of the last response of the Model
    Gateway, and that response met the confidence threshold. *)
Theorem run_plan_provenance :
  forall (fuel n : nat) (signals : list signal) (plan : ExecutionPlan),
    run json_loads py_repr format_pct post_at cancelled base_url model user_input context
        max_loops confidence_threshold fuel
    = Some (n, signals) ->
    In (plan_ready plan) signals ->
    (plan = clarification_plan /\
     ((max_loops <= Z.of_nat n)%Z \/ cancelled (2 * n) = true)) \/
    (1 <= n /\
     exists prompt response parsed plan_data,
       generate (post_at (n - 1)) base_url (JStr prompt) model (JStr SYSTEM_PROMPT) false
       = Ret response /\
       meets_threshold json_loads confidence_threshold response = true /\
       _extract_json json_loads response = Ret parsed /\
       py_get parsed "plan" (JObj []) = Ret plan_data /\
       _build_plan plan_data = Ret plan).
Proof.
  intros fuel n signals plan Hrun Hin. unfold run in Hrun.
  assert (forall out, Forall is_update out -> ~ In (plan_ready plan) out) as Hnot.
  { intros out Hout Hmember. rewrite Forall_forall in Hout.
    destruct (Hout _ Hmember) as [message Hmessage]. discriminate Hmessage. }
  destruct (initial_context_str py_repr user_input context) as [context_str0|e].
  - destruct (loop fuel 0 (mkState 0 context_str0 None [])) as [e|] eqn:Hloop;
      [|discriminate Hrun].
    pose proof (while_loop_outcome fuel 0 (mkState 0 context_str0 None []) e eq_refl eq_refl (Forall_nil _) Hloop) as Hend.
    destruct e as [m st|m st|m x st]; [| |destruct Hend].
    + destruct Hend as [Hout Hend].
      destruct (final_plan st) as [accepted|]; injection Hrun as <- <-;
        apply in_app_or in Hin as [Hin|[Hin|[]]];
        try (exfalso; exact (Hnot _ Hout Hin)); injection Hin as <-.
      * right. split; apply Hend.
      * left. split; [reflexivity|apply Hend].
    + injection Hrun as <- <-. exfalso. exact (Hnot _ (proj1 Hend) Hin).
  - injection Hrun as <- <-. destruct Hin as [Hin|[]]. discriminate Hin.
Qed.

End PlannerOutcome.

Lemma run_signal_protocol_witness :
  let cancelled := fun n => (n =? 3)%nat in
  let context := [("current_dir", JStr "/home/a"); ("open_files", JArr [])] in
  exists n signals,
    run json_dec repr_simple pct_simple hesitant_gateway cancelled
        "http://localhost:11434" (JStr "llama3") (JStr "tidy up") context 3 0.95%float 4
    = Some (n, signals) /\
    ((exists e,
         initial_context_str repr_simple (JStr "tidy up") context = Raise e /\
         n = 0 /\ signals = [error_occurred (exn_text e)]) \/
     (exists updates plan,
         signals = (updates ++ [plan_ready plan])%list /\
         Forall is_update updates /\
         (n = 0 \/ 1 <= n /\ cancelled (2 * (n - 1) + 1) = false)) \/
     (Forall is_update signals /\ 1 <= n /\ cancelled (2 * (n - 1) + 1) = true)).
Proof.
  intros cancelled context.
  eexists. eexists. split; [vm_compute; reflexivity|].
  apply (run_signal_protocol json_dec repr_simple pct_simple hesitant_gateway cancelled
           "http://localhost:11434" (JStr "llama3") (JStr "tidy up") context 3%Z 0.95%float 4).
  vm_compute. reflexivity.
Defined.

Example run_cancelled_after_second_response :
  option_map (fun r => (fst r, plans_emitted (snd r), List.length (snd r)))
    (run json_dec repr_simple pct_simple hesitant_gateway (fun n => (n =? 3)%nat)
         "http://localhost:11434" (JStr "llama3") (JStr "tidy up")
         [("current_dir", JStr "/home/a"); ("open_files", JArr [])] 3 0.95%float 4)
  = Some (2, [], 4).
Proof. vm_compute. reflexivity. Qed.

Lemma run_plan_provenance_witness :
  let context := [("current_dir", JStr "/home/a"); ("open_files", JArr [])] in
  let plan :=
    mkPlan (JStr "Go to the notes")
           (JArr [JObj [("action", JStr "NAVIGATE");
                        ("params", JObj [("path", JStr "/home/a/notes")]);
                        ("description", JStr "Enter the folder")]])
           (JFloat 0.97%float) READ_ONLY false in
  (plan = clarification_plan /\ ((3 <= Z.of_nat 2)%Z \/ false = true)) \/
  (1 <= 2 /\
   exists prompt response parsed plan_data,
     generate (decisive_gateway (2 - 1)) "http://localhost:11434" (JStr prompt) (JStr "llama3")
              (JStr SYSTEM_PROMPT) false
     = Ret response /\
     meets_threshold json_dec 0.95%float response = true /\
     _extract_json json_dec response = Ret parsed /\
     py_get parsed "plan" (JObj []) = Ret plan_data /\
     _build_plan plan_data = Ret plan).
Proof.
  intros context plan.
  apply (run_plan_provenance json_dec repr_simple pct_simple decisive_gateway (fun _ => false)
           "http://localhost:11434" (JStr "llama3") (JStr "tidy up") context 3%Z 0.95%float
           4 2
           (match run json_dec repr_simple pct_simple decisive_gateway (fun _ => false)
                      "http://localhost:11434" (JStr "llama3") (JStr "tidy up") context
                      3%Z 0.95%float 4 with
            | Some (_, signals) => signals
            | None => []
            end) plan).
  - vm_compute. reflexivity.
  - vm_compute. do 6 right. left. reflexivity.
Defined.

(** ** Plan gate *)

Lemma chars_from_nonempty (s : string) :
  forall c, chars_from (Some c) s <> [].
Proof.
  induction s as [|a r IH]; intro c; simpl; [discriminate|].
  destruct (is_continuation a); [apply IH|discriminate].
Qed.

(** A value that is true and has a length has a positive length. *)
Lemma py_len_truthy (v : json) (n : nat) :
  py_truthy v = true -> py_len v = Ret n -> 0 < n.
Proof.
  destruct v as [ |b|z|f|s|l|kvs]; simpl; intros Htrue Hlen; try discriminate Hlen;
    injection Hlen as <-.
  - destruct s as [|a r]; [discriminate Htrue|]. unfold chars. simpl.
    assert (forall c, 0 < List.length (chars_from (Some c) r)) as Hpos.
    { intro c. pose proof (chars_from_nonempty r c).
      destruct (chars_from (Some c) r); [contradiction|simpl; lia]. }
    destruct (is_continuation a); apply Hpos.
  - destruct l; [discriminate Htrue|simpl; lia].
  - destruct kvs as [|[k x] rest]; [discriminate Htrue|simpl; lia].
Qed.

(** The confirmation flag of a built plan is computed from its operation
    type. *)
Lemma build_plan_confirmation_flag (plan_data : json) (plan : ExecutionPlan) :
  _build_plan plan_data = Ret plan ->
  requires_confirmation plan
  = existsb (OperationType_eqb (operation_type plan)) [DESTRUCTIVE; SYSTEM; MODIFY].
Proof.
  unfold _build_plan. intro H.
  destruct plan_data as [ | | | | | |kvs]; simpl in H; try discriminate H.
  destruct (table_get op_type_map (dict_get kvs "operation_type" (JStr "READ_ONLY")) READ_ONLY)
    as [op|e]; simpl in H; [|discriminate H].
  injection H as <-. reflexivity.
Qed.

Section PlanGateFacts.

Variable py_repr : json -> string.
Variable format_pct : json -> result string.
Variable World : Type.
Variable run_handler : Handler -> json -> World -> result string * World.
Variable confirm : ExecutionPlan -> result bool.

#[local] Abbreviation plan_ready_slot :=
  (on_plan_ready py_repr format_pct World run_handler confirm).
#[local] Abbreviation run_plan := (execute_plan py_repr World run_handler).

(** A plan whose steps are true is handed to [execute_agentic], or taking
    the length of its steps raises; the executor is not called. *)
Lemma execute_plan_with_steps (plan : ExecutionPlan) (chat_output : list string) (w : World) :
  py_truthy (steps plan) = true ->
  exists r,
    run_plan plan chat_output w
    = (append chat_output ("<b>Navigator:</b> Executing: " ++ to_str py_repr (summary plan)),
       w, r) /\
    (r = Ret (EnteredAgentic plan) \/ exists e, r = Raise e).
Proof.
  intro Htrue. unfold execute_plan.
  destruct (py_len (steps plan)) as [n|e] eqn:Hlen.
  - pose proof (py_len_truthy _ _ Htrue Hlen) as Hpos.
    rewrite (proj2 (Nat.ltb_lt 0 n) Hpos).
    eexists. split; [reflexivity|]. left. reflexivity.
  - eexists. split; [reflexivity|]. right. exists e. reflexivity.
Qed.

(** X9: what [on_plan_ready] lets through.  When it ends with the plan
    executed, the plan has steps, the plan was handed to [execute_agentic]
    (the branch of [execute_plan] that calls the executor directly is never
    taken from here), nothing was done to the world yet, and a plan that
    requires confirmation was accepted in the dialog. *)
Theorem on_plan_ready_runs_only_confirmed_plans :
  forall (plan : ExecutionPlan) (reasoning_output chat_output : list string) (w : World)
         (reasoning' chat' : list string) (w' : World) (r : plan_run),
    plan_ready_slot plan reasoning_output chat_output w
    = (reasoning', chat', w', Ret (Executed r)) ->
    r = EnteredAgentic plan /\
    w' = w /\
    py_truthy (steps plan) = true /\
    (requires_confirmation plan = true -> confirm plan = Ret true) /\
    chat' = append chat_output
                   ("<b>Navigator:</b> Executing: " ++ to_str py_repr (summary plan)).
Proof.
  intros plan reasoning_output chat_output w reasoning' chat' w' r Hslot.
  unfold on_plan_ready in Hslot.
  destruct (format_pct (overall_confidence plan)) as [pct|e]; [|discriminate Hslot].
  destruct (py_truthy (steps plan)) eqn:Htrue; simpl negb in Hslot; cbv iota in Hslot;
    [|discriminate Hslot].
  destruct (execute_plan_with_steps plan chat_output w Htrue) as (x & Hrun & Hx).
  assert (forall y, bind x (fun v => Ret (Executed v)) = Ret (Executed r) ->
                    y = x -> r = EnteredAgentic plan) as Hagentic.
  { intros y Hbind _. destruct Hx as [->|[e ->]]; simpl in Hbind.
    - injection Hbind as <-. reflexivity.
    - discriminate Hbind. }
  destruct (requires_confirmation plan) eqn:Hflag.
  - destruct (confirm plan) as [[|]|e] eqn:Hconfirm; try discriminate Hslot.
    rewrite Hrun in Hslot. injection Hslot as <- <- <- Hbind.
    split; [exact (Hagentic x Hbind eq_refl)|]. repeat split.
  - rewrite Hrun in Hslot. injection Hslot as <- <- <- Hbind.
    split; [exact (Hagentic x Hbind eq_refl)|]. repeat split. discriminate.
Qed.

(** X10: the gate looks at the declared operation type only.  A plan that
    [_build_plan] built with the operation type READ_ONLY (declared, or
    because the model declared none or an unknown one) and a non-empty list
    of steps is handed to [execute_agentic] without the dialog being
    consulted, whatever its steps are: a DELETE_FILE step among them changes
    nothing. *)
Theorem read_only_plan_skips_dialog :
  forall (plan_data : json) (plan : ExecutionPlan) (step : json) (rest : list json)
         (pct : string) (reasoning_output chat_output : list string) (w : World),
    _build_plan plan_data = Ret plan ->
    operation_type plan = READ_ONLY ->
    steps plan = JArr (step :: rest) ->
    format_pct (overall_confidence plan) = Ret pct ->
    plan_ready_slot plan reasoning_output chat_output w
    = (append (append reasoning_output
                      (nl ++ "✅ Plan ready: " ++ to_str py_repr (summary plan)))
              ("Confidence: " ++ pct),
       append chat_output ("<b>Navigator:</b> Executing: " ++ to_str py_repr (summary plan)),
       w,
       Ret (Executed (EnteredAgentic plan))).
Proof.
  intros plan_data plan step rest pct reasoning_output chat_output w
         Hbuilt Htype Hsteps Hpct.
  pose proof (build_plan_confirmation_flag _ _ Hbuilt) as Hflag.
  rewrite Htype in Hflag. simpl in Hflag.
  unfold on_plan_ready, execute_plan. rewrite Hpct, Hsteps, Hflag. reflexivity.
Qed.

End PlanGateFacts.

Lemma on_plan_ready_runs_only_confirmed_plans_witness :
  let plan := mkPlan (JStr "Remove the build directory")
                     (JArr [JObj [("action", JStr "DELETE_FILE");
                                  ("params", JObj [("path", JStr "/tmp/build")])]])
                     (JFloat 0.97%float) DESTRUCTIVE true in
  let confirm := fun _ : ExecutionPlan => Ret true in
  EnteredAgentic plan = EnteredAgentic plan /\
  ["/tmp/build"] = ["/tmp/build"] /\
  py_truthy (steps plan) = true /\
  (requires_confirmation plan = true -> confirm plan = Ret true) /\
  ["<b>You:</b> clean up"; "<b>Navigator:</b> Executing: Remove the build directory"]
  = append ["<b>You:</b> clean up"]
           ("<b>Navigator:</b> Executing: " ++ to_str repr_simple (summary plan)).
Proof.
  intros plan confirm.
  apply (on_plan_ready_runs_only_confirmed_plans repr_simple pct_simple demo_world demo_handler
           confirm plan [] ["<b>You:</b> clean up"] ["/tmp/build"]
           [nl ++ "✅ Plan ready: Remove the build directory"; "Confidence: 97%"]).
  vm_compute. reflexivity.
Defined.

Lemma read_only_plan_skips_dialog_witness :
  let plan_data := JObj [("summary", JStr "Tidy up");
                         ("steps", JArr [JObj [("action", JStr "DELETE_FILE");
                                               ("params", JObj [("path", JStr "/tmp/build")])]]);
                         ("overall_confidence", JFloat 0.97%float)] in
  let plan := mkPlan (JStr "Tidy up")
                     (JArr [JObj [("action", JStr "DELETE_FILE");
                                  ("params", JObj [("path", JStr "/tmp/build")])]])
                     (JFloat 0.97%float) READ_ONLY false in
  on_plan_ready repr_simple pct_simple demo_world demo_handler
                (fun _ => Ret false) plan [] [] ["/tmp/build"]
  = (append (append [] (nl ++ "✅ Plan ready: " ++ to_str repr_simple (summary plan)))
            ("Confidence: " ++ "97%"),
     append [] ("<b>Navigator:</b> Executing: " ++ to_str repr_simple (summary plan)),
     ["/tmp/build"],
     Ret (Executed (EnteredAgentic plan))).
Proof.
  intros plan_data plan.
  apply (read_only_plan_skips_dialog repr_simple pct_simple demo_world demo_handler
           (fun _ => Ret false) plan_data plan
           (JObj [("action", JStr "DELETE_FILE"); ("params", JObj [("path", JStr "/tmp/build")])])
           [] "97%" [] [] ["/tmp/build"]);
    reflexivity.
Defined.

(** ** Model Gateway: the model list *)

Lemma model_names_inv (entries : list json) :
  forall names,
    model_names entries = Ret names ->
    Forall2 (fun entry name => exists fields, entry = JObj fields /\ assoc fields "name" = Some name)
            entries names.
Proof.
  induction entries as [|entry rest IH]; intros names H; simpl in H.
  - injection H as <-. constructor.
  - destruct entry as [ | | | | | |fields]; simpl in H; try discriminate H.
    destruct (assoc fields "name") as [name|] eqn:Hname; simpl in H; [|discriminate H].
    destruct (model_names rest) as [tail|e]; simpl in H; [|discriminate H].
    injection H as <-. constructor; [|apply IH; reflexivity].
    exists fields. split; [reflexivity|exact Hname].
Qed.

(** X11: [list_models] gives all names or none.  When it returns a
    non-empty list, the server answered without an error status with a JSON
    object, every entry of its [models] is an object with a [name], the
    result holds the names of all entries in their order, and nothing was
    printed.  So one entry without a name, like any failure on the way,
    leaves the caller with the empty list. *)
Theorem list_models_all_or_nothing :
  forall (get : get_transport) (base_url : string) (name : json) (names : list json),
    fst (list_models get base_url) = name :: names ->
    exists response body entries,
      get (base_url ++ "/api/tags") 5%Z = PostReturns response /\
      raise_for_status response = None /\
      response_json response = Ret (JObj body) /\
      py_iter (dict_get body "models" (JArr [])) = Ret entries /\
      Forall2 (fun entry n => exists fields, entry = JObj fields /\ assoc fields "name" = Some n)
              entries (name :: names) /\
      snd (list_models get base_url) = None.
Proof.
  intros get base_url name names H. unfold list_models in *.
  destruct (list_models_request get base_url) as [found|e] eqn:Hrequest; [|discriminate H].
  simpl in H. subst found. unfold list_models_request in Hrequest.
  destruct (get (base_url ++ "/api/tags") 5%Z) as [e|response]; [discriminate Hrequest|].
  destruct (raise_for_status response) as [e|] eqn:Hstatus; [discriminate Hrequest|].
  destruct (response_json response) as [data|e] eqn:Hjson; simpl in Hrequest;
    [|discriminate Hrequest].
  destruct data as [ | | | | | |body]; simpl in Hrequest; try discriminate Hrequest.
  destruct (py_iter (dict_get body "models" (JArr []))) as [entries|e] eqn:Hiter;
    simpl in Hrequest; [|discriminate Hrequest].
  exists response, body, entries. repeat split; try assumption; try reflexivity.
  apply model_names_inv. exact Hrequest.
Qed.

Lemma list_models_all_or_nothing_witness :
  let get : get_transport :=
    fun _ _ =>
      PostReturns
        (mkResponse None
           (Ret (JObj [("models", JArr [JObj [("name", JStr "llama3:8b"); ("size", JInt 4661)];
                                        JObj [("name", JStr "mistral")]])]))) in
  exists response body entries,
    get ("http://localhost:11434" ++ "/api/tags") 5%Z = PostReturns response /\
    raise_for_status response = None /\
    response_json response = Ret (JObj body) /\
    py_iter (dict_get body "models" (JArr [])) = Ret entries /\
    Forall2 (fun entry n => exists fields, entry = JObj fields /\ assoc fields "name" = Some n)
            entries [JStr "llama3:8b"; JStr "mistral"] /\
    snd (list_models get "http://localhost:11434") = None.
Proof.
  intro get.
  apply (list_models_all_or_nothing get "http://localhost:11434" (JStr "llama3:8b")
                                    [JStr "mistral"]).
  reflexivity.
Defined.

Example list_models_entry_without_name :
  list_models
    (fun _ _ =>
       PostReturns
         (mkResponse None
            (Ret (JObj [("models", JArr [JObj [("name", JStr "llama3:8b")];
                                         JObj [("model", JStr "mistral")]])]))))
    "http://localhost:11434"
  = ([], Some "Error fetching models: 'name'").
Proof. reflexivity. Qed.

(** X12: the availability check ignores the HTTP status.  Against a server
    that answers every request with an error status, [is_available] is true
    while [list_models] finds no model and [generate] returns the error
    text. *)
Theorem available_server_may_serve_nothing :
  forall (get : get_transport) (post : transport) (base_url : string)
         (prompt model system : json) (stream : bool),
    (forall url timeout, exists r e,
         get url timeout = PostReturns r /\ raise_for_status r = Some e) ->
    (forall url payload timeout, exists r e,
         post url payload timeout = PostReturns r /\ raise_for_status r = Some e) ->
    is_available get base_url = true /\
    fst (list_models get base_url) = [] /\
    exists e, generate post base_url prompt model system stream
              = Ret (JStr ("Error: " ++ exn_text e)).
Proof.
  intros get post base_url prompt model system stream Hget Hpost.
  split; [|split].
  - unfold is_available.
    destruct (Hget (base_url ++ "/api/tags") 2%Z) as (r & e & -> & _). reflexivity.
  - unfold list_models, list_models_request.
    destruct (Hget (base_url ++ "/api/tags") 5%Z) as (r & e & -> & ->). reflexivity.
  - unfold generate, generate_request.
    destruct (Hpost (base_url ++ "/api/generate")
                    (generate_payload prompt model system stream) 300%Z) as (r & e & -> & ->).
    exists e. reflexivity.
Qed.

Lemma available_server_may_serve_nothing_witness :
  let failing := mkResponse (Some (mkExn OSError "500 Server Error: Internal Server Error"))
                            (Ret JNull) in
  let get : get_transport := fun _ _ => PostReturns failing in
  let post : transport := fun _ _ _ => PostReturns failing in
  is_available get "http://localhost:11434" = true /\
  fst (list_models get "http://localhost:11434") = [] /\
  exists e, generate post "http://localhost:11434" (JStr "hello") (JStr "llama3")
                     (JStr EmptyString) false
            = Ret (JStr ("Error: " ++ exn_text e)).
Proof.
  intros failing get post.
  apply (available_server_may_serve_nothing get post "http://localhost:11434"
           (JStr "hello") (JStr "llama3") (JStr EmptyString) false).
  - intros url timeout. eexists. eexists. split; reflexivity.
  - intros url payload timeout. eexists. eexists. split; reflexivity.
Defined.

(** ** Executor: what the handlers are given *)

Section ExecutorCalls.

Variable py_repr : json -> string.
Variable World : Type.
Variable run_handler : Handler -> json -> World -> result string * World.

Lemma normalize_params_is_dict (action params : json) (results : list string) :
  is_dict (fst (normalize_params py_repr action params results)) = true.
Proof.
  unfold normalize_params.
  destruct (is_dict params) eqn:Hdict; simpl negb; cbv iota; [exact Hdict|].
  repeat match goal with
         | |- context [if ?c then _ else _] => destruct c
         end; reflexivity.
Qed.

Lemma execute_steps_calls (plan_steps : list json) :
  forall results w log,
    exists calls,
      snd (snd (execute_steps py_repr (logged World) (log_calls run_handler)
                              plan_steps results (w, log)))
      = (log ++ calls)%list /\
      Forall (fun call => is_dict (snd call) = true) calls /\
      List.length calls <= List.length plan_steps.
Proof.
  induction plan_steps as [|step rest IH]; intros results w log.
  - exists []. rewrite app_nil_r. repeat split; [constructor|simpl; lia].
  - assert (forall results',
               exists calls,
                 snd (snd (execute_steps py_repr (logged World) (log_calls run_handler)
                                         rest results' (w, log)))
                 = (log ++ calls)%list /\
                 Forall (fun call => is_dict (snd call) = true) calls /\
                 List.length calls <= List.length (step :: rest)) as Hskip.
    { intro results'. destruct (IH results' w log) as (calls & Hlog & Hdict & Hlen).
      exists calls. repeat split; try assumption. simpl. lia. }
    destruct step as [ |b|z|f|s|l|kvs]; try apply Hskip.
    cbn [execute_steps].
    pose proof (normalize_params_is_dict (step_action kvs) (step_params kvs) results) as Hdict.
    destruct (normalize_params py_repr (step_action kvs) (step_params kvs) results)
      as [params' results']. simpl in Hdict.
    rewrite execute_action_logged.
    destruct (_execute_action py_repr World run_handler (step_action kvs) params' w)
      as [[text|e] w1].
    + match goal with
      | |- context [execute_steps _ _ _ rest ?r (w1, ?lg)] =>
        destruct (IH r w1 lg) as (calls & Hlog & Hcalls & Hlen)
      end.
      destruct (table_find action_map (step_action kvs)) as [[handler|]|x].
      * exists ((handler, params') :: calls). rewrite Hlog, <- app_assoc.
        repeat split; [constructor; assumption|simpl; lia].
      * exists calls. rewrite Hlog, app_nil_r.
        repeat split; [assumption|simpl; lia].
      * exists calls. rewrite Hlog, app_nil_r.
        repeat split; [assumption|simpl; lia].
    + destruct (table_find action_map (step_action kvs)) as [[handler|]|x].
      * exists [(handler, params')].
        repeat split; [repeat constructor; assumption|simpl; lia].
      * exists []. repeat split; [constructor|simpl; lia].
      * exists []. repeat split; [constructor|simpl; lia].
Qed.

(** X13: every handler that [execute] calls is given a dict.  Whatever the
    steps of the plan hold (parameters that are strings, numbers, lists or
    missing), the parameters of each handler call are a dict, so the [get]
    calls of the handlers cannot fail on them; and at most one handler is
    called per step. *)
Theorem execute_gives_handlers_dicts :
  forall (plan : ExecutionPlan) (w : World) (log : list (Handler * json)),
    exists calls,
      snd (snd (execute py_repr (logged World) (log_calls run_handler) plan (w, log)))
      = (log ++ calls)%list /\
      Forall (fun call => is_dict (snd call) = true) calls /\
      forall plan_steps, py_iter (steps plan) = Ret plan_steps ->
                         List.length calls <= List.length plan_steps.
Proof.
  intros plan w log. unfold execute.
  destruct (py_iter (steps plan)) as [plan_steps|e].
  - destruct (execute_steps_calls plan_steps [] w log) as (calls & Hlog & Hdict & Hlen).
    exists calls.
    destruct (execute_steps py_repr (logged World) (log_calls run_handler) plan_steps []
                            (w, log)) as [results [w' log']].
    simpl in *. repeat split; try assumption.
    intros l [= <-]. exact Hlen.
  - exists []. rewrite app_nil_r. repeat split; [constructor|]. intros l H. discriminate H.
Qed.

End ExecutorCalls.

Example execute_gives_handlers_dicts_mixed_steps :
  let plan := mkPlan (JStr "Mixed") 
                     (JArr [JObj [("action", JStr "NAVIGATE"); ("params", JStr "/tmp")];
                            JStr "then stop";
                            JObj [("action", JStr "CLOSE_FILE"); ("params", JInt 3)];
                            JObj [("action", JStr "DELETE_FILE")]])
                     (JFloat 1%float) READ_ONLY false in
  snd (snd (execute repr_simple (logged demo_world) (log_calls demo_handler) plan (["/tmp"], [])))
  = [(_navigate, JObj [("path", JStr "/tmp")]); (_close_file, JObj []); (_delete_file, JObj [])].
Proof. vm_compute. reflexivity. Qed.

(** ** Task Supervisor: error signatures *)

Lemma split_on_without_separator (sep : ascii) (s : string) :
  forall cur, contains_char sep s = false -> split_on sep cur s = [cur ++ s].
Proof.
  induction s as [|a r IH]; intros cur H; simpl.
  - replace (cur ++ "") with cur; [reflexivity|].
    induction cur as [|c cur IHc]; [reflexivity|]. simpl. rewrite <- IHc. reflexivity.
  - apply contains_char_cons in H as [Ha Hr]. rewrite Ha, (IH _ Hr).
    f_equal. clear. induction cur as [|c cur IHc]; [reflexivity|]. simpl. rewrite IHc. reflexivity.
Qed.

Lemma split_on_last (sep : ascii) (prefix tail : string) :
  forall cur,
    contains_char sep tail = false ->
    last (split_on sep cur (prefix ++ String sep tail)) EmptyString = tail.
Proof.
  induction prefix as [|a r IH]; intros cur H.
  - simpl String.append. cbn [split_on]. rewrite Ascii.eqb_refl.
    rewrite (split_on_without_separator sep tail EmptyString H). reflexivity.
  - simpl String.append. cbn [split_on].
    destruct (a =? sep)%char.
    + specialize (IH EmptyString H).
      destruct (split_on sep "" (r ++ String sep tail)) as [|x l] eqn:Hsplit; [|exact IH].
      exfalso. clear - Hsplit. revert Hsplit. generalize EmptyString.
      induction r as [|c r IHr]; intro cur; simpl.
      * rewrite Ascii.eqb_refl. discriminate.
      * destruct (c =? sep)%char; [discriminate|apply IHr].
    + apply IH. exact H.
Qed.

(** X14: the error signature is the text after the last colon.  For a
    message with a colon, [_track_error] compares only what follows the last
    colon, stripped; so two messages that differ before their last colon
    count as the same error, and the second extends the streak. *)
Theorem error_signature_is_text_after_last_colon :
  forall (ctx : TaskContext) (prefix1 prefix2 tail : string),
    contains_char ":" tail = false ->
    core_error_of (prefix1 ++ ":" ++ tail) = strip tail /\
    core_error_of (prefix1 ++ ":" ++ tail) = core_error_of (prefix2 ++ ":" ++ tail) /\
    consecutive_errors
      (_track_error (_track_error ctx (prefix1 ++ ":" ++ tail)) (prefix2 ++ ":" ++ tail))
    = consecutive_errors (_track_error ctx (prefix1 ++ ":" ++ tail)) + 1.
Proof.
  intros ctx prefix1 prefix2 tail Htail.
  assert (forall prefix, core_error_of (prefix ++ ":" ++ tail) = strip tail) as Hcore.
  { intro prefix. unfold core_error_of.
    assert (contains_char ":" (prefix ++ ":" ++ tail) = true) as ->.
    { rewrite contains_char_app. simpl. rewrite orb_true_r. reflexivity. }
    unfold split. simpl String.append.
    rewrite (split_on_last ":" prefix tail EmptyString Htail). reflexivity. }
  split; [apply Hcore|]. split; [rewrite !Hcore; reflexivity|].
  destruct (track_error_first ctx (prefix1 ++ ":" ++ tail)) as [Hlast _].
  rewrite (Hcore prefix1), <- (Hcore prefix2) in Hlast.
  destruct (track_error_again _ _ Hlast) as [_ Hstreak]. exact Hstreak.
Qed.

Lemma error_signature_is_text_after_last_colon_witness :
  let ctx := mkContext (JStr "Append a note") [] 1 (Some []) [] None 0 0 [] (Some []) None (Some 0) in
  let prefix1 := "❌ Append to a.txt: Error - [Errno 2] No such file or directory" in
  let prefix2 := "❌ Open the log: Error - [Errno 13] Permission denied" in
  let tail := " '/tmp/x'" in
  core_error_of (prefix1 ++ ":" ++ tail) = strip tail /\
  core_error_of (prefix1 ++ ":" ++ tail) = core_error_of (prefix2 ++ ":" ++ tail) /\
  consecutive_errors
    (_track_error (_track_error ctx (prefix1 ++ ":" ++ tail)) (prefix2 ++ ":" ++ tail))
  = consecutive_errors (_track_error ctx (prefix1 ++ ":" ++ tail)) + 1.
Proof.
  intros ctx prefix1 prefix2 tail.
  apply (error_signature_is_text_after_last_colon ctx prefix1 prefix2 tail).
  reflexivity.
Defined.

(** X15: two errors with different signatures never escalate.  Tracking an
    error whose signature differs from the previous one restarts the streak
    at one, whatever it was; so when failures alternate between two
    signatures the triage answers 'retry' after every round, however many
    rounds there are and however many alternatives were tried. *)
Theorem alternating_errors_always_retry :
  forall (ctx : TaskContext) (m1 m2 : string) (rounds : nat),
    core_error_of m1 <> core_error_of m2 ->
    let round := fun c => _track_error (_track_error c m1) m2 in
    consecutive_errors (Nat.iter (S rounds) round ctx) = 1 /\
    _handle_execution_error (Nat.iter (S rounds) round ctx) = "retry".
Proof.
  intros ctx m1 m2 rounds Hdiff round.
  assert (forall c, consecutive_errors (round c) = 1) as Hone.
  { intro c. unfold round.
    destruct (track_error_first c m1) as [Hlast _].
    unfold _track_error at 1. rewrite Hlast.
    destruct (core_error_of m1 =? core_error_of m2) eqn:Heq; [|reflexivity].
    apply String.eqb_eq in Heq. contradiction. }
  simpl Nat.iter. split; [apply Hone|].
  apply triage_table. rewrite Hone. lia.
Qed.

Lemma alternating_errors_always_retry_witness :
  let ctx := mkContext (JStr "Collect the logs") [] 1 (Some []) ["old"] (Some "Disk full") 7 5 []
                       (Some []) None (Some 0) in
  let m1 := "✅ Search: Found 2 lines with Error" in
  let m2 := "❌ Open the log: Error - Permission denied" in
  let round := fun c => _track_error (_track_error c m1) m2 in
  consecutive_errors (Nat.iter (S 40) round ctx) = 1 /\
  _handle_execution_error (Nat.iter (S 40) round ctx) = "retry".
Proof.
  intros ctx m1 m2.
  apply (alternating_errors_always_retry ctx m1 m2 40).
  vm_compute. discriminate.
Defined.

(** ** Task Supervisor: subtasks and the completion check *)

(** X16: [_extract_subtasks] tracks one subtask per step.  When it returns,
    every step is a dict, the subtasks are numbered 1, 2, ... in the order of
    the steps, each starts as 'not_started', and each is described by the
    description of its step, else by its action, else by 'Step i'.  A step
    that is not a dict (which [execute] would skip with a warning) makes it
    raise instead. *)
Theorem extract_subtasks_one_per_step :
  forall (goal plan_steps : json) (tracked : list subtask),
    _extract_subtasks goal plan_steps = Ret tracked ->
    exists l,
      py_iter plan_steps = Ret l /\
      map subtask_id tracked = seq 1 (List.length l) /\
      Forall (fun st => status st = JStr "not_started") tracked /\
      Forall2 (fun step st =>
                 exists kvs,
                   step = JObj kvs /\
                   description st
                   = dict_get kvs "description"
                              (dict_get kvs "action"
                                        (JStr ("Step " ++ str_of_nat (subtask_id st)))))
              l tracked.
Proof.
  intros goal plan_steps tracked H. unfold _extract_subtasks in H.
  destruct (py_iter plan_steps) as [l|e]; simpl in H; [|discriminate H].
  exists l. split; [reflexivity|].
  revert tracked H. generalize 1 as i.
  induction l as [|step rest IH]; intros i tracked H; simpl in H.
  - injection H as <-. repeat split; constructor.
  - destruct step as [ | | | | | |kvs]; simpl in H; try discriminate H.
    destruct (extract_subtasks_from (S i) rest) as [tail|e] eqn:Htail; simpl in H;
      [|discriminate H].
    injection H as <-.
    destruct (IH (S i) tail Htail) as (Hids & Hstatus & Hdesc).
    simpl. rewrite Hids. repeat split; constructor; try assumption; try reflexivity.
    exists kvs. split; reflexivity.
Qed.

Lemma extract_subtasks_one_per_step_witness :
  let plan_steps :=
    JArr [JObj [("action", JStr "NAVIGATE"); ("params", JObj [("path", JStr "/tmp")]);
                ("description", JStr "Go to /tmp")];
          JObj [("action", JStr "OPEN_FILE")];
          JObj [("params", JObj [])]] in
  let tracked := [mkSubtask 1 (JStr "Go to /tmp") (JStr "not_started");
                  mkSubtask 2 (JStr "OPEN_FILE") (JStr "not_started");
                  mkSubtask 3 (JStr "Step 3") (JStr "not_started")] in
  exists l,
    py_iter plan_steps = Ret l /\
    map subtask_id tracked = seq 1 (List.length l) /\
    Forall (fun st => status st = JStr "not_started") tracked /\
    Forall2 (fun step st =>
               exists kvs,
                 step = JObj kvs /\
                 description st
                 = dict_get kvs "description"
                            (dict_get kvs "action"
                                      (JStr ("Step " ++ str_of_nat (subtask_id st)))))
            l tracked.
Proof.
  intros plan_steps tracked.
  apply (extract_subtasks_one_per_step (JStr "Look around") plan_steps tracked).
  reflexivity.
Defined.

Example extract_subtasks_malformed_step :
  _extract_subtasks (JStr "Look around")
                    (JArr [JObj [("action", JStr "NAVIGATE")]; JStr "then stop"])
  = Raise (mkExn AttributeError "'str' object has no attribute 'get'").
Proof. reflexivity. Qed.

Lemma same_but_statuses_refl (ctx : TaskContext) : same_but_statuses ctx ctx.
Proof. unfold same_but_statuses. repeat split. Qed.

Lemma same_but_statuses_trans (a b c : TaskContext) :
  same_but_statuses a b -> same_but_statuses b c -> same_but_statuses a c.
Proof.
  unfold same_but_statuses. intros H1 H2.
  repeat match goal with H : _ /\ _ |- _ => destruct H end.
  repeat split; etransitivity; eassumption.
Qed.

Lemma update_nth_status (l : list subtask) (new_status : json) :
  forall i,
    let l' := update_nth i (fun st => mkSubtask (subtask_id st) (description st) new_status) l in
    map subtask_id l' = map subtask_id l /\ map description l' = map description l.
Proof.
  induction l as [|st rest IH]; intros [|i]; simpl; try (split; reflexivity).
  destruct (IH i) as [Hid Hdesc]. simpl in Hid, Hdesc. rewrite Hid, Hdesc. split; reflexivity.
Qed.

Section VerifyFrame.

Variable py_repr : json -> string.
Variable py_int : string -> result Z.

(** Updating the statuses touches nothing but the statuses, also when it
    raises half-way. *)
Lemma update_statuses_frame (items : list (string * json)) :
  forall ctx, same_but_statuses ctx (fst (update_statuses py_int items ctx)).
Proof.
  induction items as [|[idx new_status] rest IH]; intro ctx; simpl.
  - apply same_but_statuses_refl.
  - destruct (task_number py_int idx) as [task_num|e]; [|apply same_but_statuses_refl].
    destruct (task_num <? Z.of_nat (List.length (get_subtasks ctx)))%Z; [|apply IH].
    destruct (subtasks ctx) as [l|] eqn:Hsub; [|apply same_but_statuses_refl].
    destruct (set_status_at l task_num new_status) as [l'|e] eqn:Hset;
      [|apply same_but_statuses_refl].
    apply same_but_statuses_trans with (b := set_subtasks ctx l'); [|apply IH].
    unfold set_status_at in Hset.
    match type of Hset with (if ?c then _ else _) = _ => destruct c end; [|discriminate Hset].
    injection Hset as <-.
    match goal with
    | |- context [update_nth ?i _ l] =>
      destruct (update_nth_status l new_status i) as [Hid Hdesc]
    end.
    unfold same_but_statuses, set_subtasks. simpl. rewrite Hsub. simpl.
    cbv zeta in Hid, Hdesc. rewrite Hid, Hdesc. repeat split.
Qed.

(** X17: the completion check changes nothing but subtask statuses.  Unless
    it declares the goal achieved, in which case the task context is exactly
    the reset one, [verify] leaves the goal, the error counters, the
    alternatives, the searched directories and the number, ids and
    descriptions of the subtasks as they were, also when it ends in an
    error; and it adds one or two lines to the chat and removes none. *)
Theorem verify_changes_statuses_only :
  forall (ctx ctx' : TaskContext) (chat_output chat' : list string) (verification : json)
         (ending : verify_end),
    verify py_repr py_int ctx chat_output verification = (chat', ctx', ending) ->
    (ending = GoalAchieved -> ctx' = _reset_task_context) /\
    (ending <> GoalAchieved -> same_but_statuses ctx ctx') /\
    exists lines,
      chat' = (chat_output ++ lines)%list /\
      1 <= List.length lines <= 2.
Proof.
  intros ctx ctx' chat_output chat' verification ending H. unfold verify in H.
  assert (forall (x : list string) (a : string), exists lines,
             append chat_output a = (chat_output ++ lines)%list /\
             1 <= List.length lines <= 2) as Hone.
  { intros x a. exists [a]. split; [reflexivity|simpl; lia]. }
  assert (forall (a b : string), exists lines,
             append (append chat_output a) b = (chat_output ++ lines)%list /\
             1 <= List.length lines <= 2) as Htwo.
  { intros a b. exists [a; b]. unfold append. rewrite <- app_assoc.
    split; [reflexivity|simpl; lia]. }
  destruct (py_truthy verification); simpl negb in H; cbv iota in H.
  2: { injection H as <- <- <-. split; [discriminate|].
       split; [intros _; apply same_but_statuses_refl|apply (Hone [])]. }
  destruct (py_get verification "complete" (JBool false)) as [is_complete|e].
  2: { injection H as <- <- <-. split; [discriminate|].
       split; [intros _; apply same_but_statuses_refl|apply (Hone [])]. }
  destruct (py_get verification "reasoning" (JStr EmptyString)) as [reasoning|e].
  2: { injection H as <- <- <-. split; [discriminate|].
       split; [intros _; apply same_but_statuses_refl|apply (Hone [])]. }
  destruct (py_get verification "subtasks_status" (JObj [])) as [subtasks_status|e].
  2: { injection H as <- <- <-. split; [discriminate|].
       split; [intros _; apply same_but_statuses_refl|apply (Hone [])]. }
  destruct (py_items subtasks_status) as [items|e].
  2: { injection H as <- <- <-. split; [discriminate|].
       split; [intros _; apply same_but_statuses_refl|apply (Hone [])]. }
  pose proof (update_statuses_frame items ctx) as Hframe.
  destruct (update_statuses py_int items ctx) as [ctx1 [u|e]]; simpl in Hframe.
  2: { injection H as <- <- <-. split; [discriminate|].
       split; [intros _; exact Hframe|apply (Hone [])]. }
  destruct (py_truthy is_complete).
  - match type of H with (if ?c then _ else _) = _ => destruct c end;
      injection H as <- <- <-.
    + split; [reflexivity|]. split; [intro Hne; contradiction Hne; reflexivity|apply Htwo].
    + split; [discriminate|]. split; [intros _; exact Hframe|apply Htwo].
  - injection H as <- <- <-. split; [discriminate|].
    split; [intros _; exact Hframe|apply (Hone [])].
Qed.

End VerifyFrame.

Lemma verify_changes_statuses_only_witness :
  let ctx := mkContext (JStr "Collect the logs") [] 1
                       (Some [mkSubtask 1 (JStr "Open the log") (JStr "not_started");
                              mkSubtask 2 (JStr "Copy it") (JStr "not_started")])
                       ["old"] (Some "Disk full") 2 1 [] (Some [JStr "/var/log"]) None (Some 0) in
  let ctx' := mkContext (JStr "Collect the logs") [] 1
                        (Some [mkSubtask 1 (JStr "Open the log") (JStr "complete");
                               mkSubtask 2 (JStr "Copy it") (JStr "not_started")])
                        ["old"] (Some "Disk full") 2 1 [] (Some [JStr "/var/log"]) None (Some 0) in
  let ending := NextAction (JBool false) in
  (ending = GoalAchieved -> ctx' = _reset_task_context) /\
  (ending <> GoalAchieved -> same_but_statuses ctx ctx') /\
  exists lines,
    ["<i>💭 One is done</i>"] = ([] ++ lines)%list /\
    1 <= List.length lines <= 2.
Proof.
  intros ctx ctx' ending.
  apply (verify_changes_statuses_only repr_simple int_simple ctx ctx' [] 
           ["<i>💭 One is done</i>"]
           (JObj [("complete", JBool false);
                  ("subtasks_status", JObj [("subtask_1", JStr "complete")]);
                  ("reasoning", JStr "One is done")])
           ending).
  vm_compute. reflexivity.
Defined.

(** ** Task Supervisor: [execute_agentic] before the reflection loop *)

(** The triage never answers 'stop': its last [return] cannot be reached. *)
Lemma triage_answers (ctx : TaskContext) :
  _handle_execution_error ctx = "retry" \/
  _handle_execution_error ctx = "alternative" \/
  _handle_execution_error ctx = "impossible".
Proof.
  destruct (triage_table ctx) as (Hretry & Halt & Himp).
  destruct (Nat.lt_ge_cases (consecutive_errors ctx) 3) as [H|H]; [left; auto|].
  destruct (Nat.lt_ge_cases (alternative_attempts ctx) 5) as [H5|H5]; right; [left|right]; auto.
Qed.

Section InitialPhaseFacts.

Variable json_loads : string -> result json.
Variable py_repr : json -> string.
Variable py_eq : json -> json -> bool.
Variable World : Type.
Variable run_handler : Handler -> json -> World -> result string * World.
Variable post_at : nat -> transport.
Variable base_url : string.
Variable current_model : json.

#[local] Abbreviation first_phase :=
  (initial_phase json_loads py_repr py_eq World run_handler post_at base_url current_model).

Lemma track_navigation_errors (plan_steps : json) (i : nat) (ctx ctx' : TaskContext) :
  track_navigation plan_steps i ctx = Ret ctx' ->
  errors ctx' = errors ctx /\ last_error ctx' = last_error ctx /\
  consecutive_errors ctx' = consecutive_errors ctx /\
  alternative_attempts ctx' = alternative_attempts ctx.
Proof.
  unfold track_navigation. intro H.
  destruct (py_len plan_steps) as [n|e]; simpl in H; [|discriminate H].
  destruct (i <? n)%nat; [|injection H as <-; repeat split].
  destruct (py_index plan_steps i) as [step|e]; simpl in H; [|discriminate H].
  destruct (py_get step "action" (JStr EmptyString)) as [action|e]; simpl in H;
    [|discriminate H].
  destruct (str_eq action "NAVIGATE"); [|injection H as <-; repeat split].
  destruct (py_get step "params" (JObj [])) as [params|e]; simpl in H; [|discriminate H].
  match type of H with (if ?c then _ else _) = _ => destruct c end;
    [|injection H as <-; repeat split].
  destruct (searched_directories ctx); [|discriminate H].
  injection H as <-. repeat split.
Qed.

(** The scan of the result lines: every line goes to the chat, and the
    batch is flagged exactly when a line holds the cross mark or the word
    'Error'; without such a line the error record stays as it was. *)
Lemma scan_results_flags (plan_steps : json) (results : list string) :
  forall i ctx chat has_error ctx' chat' flag,
    scan_results plan_steps i results ctx chat has_error = (ctx', chat', Ret flag) ->
    chat' = (chat ++ map (fun r => ("  " ++ r)%string) results)%list /\
    flag = has_error || existsb (fun r => contains "❌" r || contains "Error" r) results /\
    (existsb (fun r => contains "❌" r || contains "Error" r) results = false ->
     errors ctx' = errors ctx /\ last_error ctx' = last_error ctx /\
     consecutive_errors ctx' = consecutive_errors ctx /\
     alternative_attempts ctx' = alternative_attempts ctx).
Proof.
  induction results as [|result rest IH]; intros i ctx chat has_error ctx' chat' flag H.
  - simpl in H. injection H as <- <- <-. rewrite app_nil_r, orb_false_r. repeat split.
  - cbn [scan_results] in H.
    destruct (track_navigation plan_steps i ctx) as [ctx1|e] eqn:Htrack; [|discriminate H].
    destruct (track_navigation_errors _ _ _ _ Htrack) as (E1 & E2 & E3 & E4).
    cbn [existsb map].
    destruct (contains "❌" result || contains "Error" result) eqn:Hflag.
    + destruct (IH _ _ _ _ _ _ _ H) as (Hchat & Hres & _).
      split; [rewrite Hchat; unfold append; rewrite <- app_assoc; reflexivity|].
      split; [rewrite Hres, orb_true_r; reflexivity|]. discriminate.
    + destruct (IH _ _ _ _ _ _ _ H) as (Hchat & Hres & Hsame).
      split; [rewrite Hchat; unfold append; rewrite <- app_assoc; reflexivity|].
      split; [exact Hres|]. simpl. intro Hnone.
      destruct (Hsame Hnone) as (F1 & F2 & F3 & F4).
      repeat split; congruence.
Qed.

(** X18: a flagged batch never goes on to the reflection loop.  When the
    part of [execute_agentic] before the loop hands over to the loop, the
    executor returned, no result line holds the cross mark of a failed step
    or the word 'Error', every line went to the chat, and nothing was added
    to the error record or sent to the model.  A batch with such a line is
    retried, replaced by an alternative or given up, because the triage
    never answers 'stop'. *)
Theorem flagged_batch_never_reflects :
  forall (st st' : agent World) (initial_plan : ExecutionPlan),
    first_phase st initial_plan = (st', Reflect) ->
    exists ctx0 results,
      begin_task py_eq (task_context World st) initial_plan = Ret ctx0 /\
      execute py_repr World run_handler initial_plan (world World st)
      = (Ret results, world World st') /\
      Forall (fun r => contains "❌" r = false /\ contains "Error" r = false) results /\
      chat_output World st'
      = (chat_output World st ++ map (fun r => ("  " ++ r)%string) results)%list /\
      errors (task_context World st') = errors ctx0 /\
      consecutive_errors (task_context World st') = consecutive_errors ctx0 /\
      prompts_sent World st' = prompts_sent World st.
Proof.
  intros st st' initial_plan H. unfold initial_phase in H.
  destruct (begin_task py_eq (task_context World st) initial_plan) as [ctx0|e];
    [|discriminate H].
  destruct (execute py_repr World run_handler initial_plan (world World st))
    as [[results|e] w]; [|discriminate H].
  destruct (scan_results (steps initial_plan) 0 results ctx0 (chat_output World st) false)
    as [[ctx1 chat] [has_error|e]] eqn:Hscan; [|discriminate H].
  destruct (scan_results_flags _ _ _ _ _ _ _ _ _ Hscan) as (Hchat & Hflag & Hsame).
  simpl in Hflag.
  destruct has_error.
  - exfalso.
    destruct (triage_answers ctx1) as [Hd|[Hd|Hd]]; rewrite Hd in H; simpl in H.
    + discriminate H.
    + destruct (_generate_alternative_plan json_loads py_repr World post_at base_url
                  current_model _ _ _) as [st2 [[alt|]|e]]; discriminate H.
    + discriminate H.
  - injection H as <-. exists ctx0, results. simpl.
    destruct (Hsame (eq_sym Hflag)) as (E1 & _ & E3 & _).
    repeat split; try assumption.
    apply Forall_forall. intros r Hin.
    symmetry in Hflag.
    assert (contains "❌" r || contains "Error" r = false) as Hr.
    { rewrite <- not_true_iff_false. intro Htrue.
      rewrite <- not_true_iff_false in Hflag. apply Hflag.
      apply existsb_exists. exists r. split; assumption. }
    apply orb_false_iff in Hr. exact Hr.
Qed.

End InitialPhaseFacts.

(** ** Task Supervisor: the turns of [execute_agentic] *)

Lemma record_failed_approach_frame (ctx : TaskContext) (failed_plan : ExecutionPlan) :
  let ctx' := fst (record_failed_approach ctx failed_plan) in
  progress ctx' = progress ctx /\ original_goal ctx' = original_goal ctx /\
  last_action ctx' = last_action ctx /\ action_repeat_count ctx' = action_repeat_count ctx.
Proof.
  unfold record_failed_approach.
  match goal with |- context [match ?r with Ret _ => _ | Raise _ => _ end] => destruct r end;
    repeat split.
Qed.

Section AgenticFacts.

Variable json_loads : string -> result json.
Variable py_repr : json -> string.
Variable py_int : string -> result Z.
Variable py_eq : json -> json -> bool.
Variable World : Type.
Variable run_handler : Handler -> json -> World -> result string * World.
Variable current_directory : World -> string.
Variable open_files : World -> list string.
Variable post_at : nat -> transport.
Variable base_url : string.
Variable current_model : json.
Variable question : string -> string -> bool.

#[local] Abbreviation alternative :=
  (_generate_alternative_plan json_loads py_repr World post_at base_url current_model).
#[local] Abbreviation guard :=
  (guarded json_loads py_repr py_eq World run_handler post_at base_url current_model).
#[local] Abbreviation action := (act py_repr py_eq World run_handler).
#[local] Abbreviation one_turn :=
  (turn json_loads py_repr py_int py_eq World run_handler current_directory open_files
        post_at base_url current_model).
#[local] Abbreviation turns :=
  (reflection_loop json_loads py_repr py_int py_eq World run_handler current_directory
                   open_files post_at base_url current_model).
#[local] Abbreviation ctx_of := (task_context World).
#[local] Abbreviation sent := (prompts_sent World).

(** Generating an alternative touches no file: it counts the attempt, talks
    to the model at most once and writes to the chat. *)
Lemma generate_alternative_frame (st : agent World) (goal : json) (failed_plan : ExecutionPlan) :
  let st' := fst (alternative st goal failed_plan) in
  world World st' = world World st /\
  alternative_attempts (ctx_of st') = alternative_attempts (ctx_of st) + 1 /\
  progress (ctx_of st') = progress (ctx_of st) /\
  (sent st' = sent st \/
   exists listing, sent st' = append (sent st) (alternative_prompt py_repr goal listing)).
Proof.
  unfold _generate_alternative_plan.
  destruct (record_failed_approach_counts (ctx_of st) failed_plan) as [Hcount _].
  destruct (record_failed_approach_frame (ctx_of st) failed_plan) as (Hprogress & _).
  destruct (record_failed_approach (ctx_of st) failed_plan) as [ctx [u|e]];
    simpl in Hcount, Hprogress.
  - destruct (failed_approach_lines py_repr 0 (failed_approaches ctx)) as [approach_lines|e].
    + unfold ask_model.
      match goal with
      | |- context [match ?r with Ret _ => _ | Raise _ => _ end] => destruct r as [[line found]|e]
      end; simpl; repeat split; try assumption; right; eexists; reflexivity.
    + simpl. repeat split; try assumption. left. reflexivity.
  - simpl. repeat split; try assumption. left. reflexivity.
Qed.

(** X19: the third identical action in a row is not executed.  Two
    consecutive turns that propose the same action with the same parameters
    are let through and counted; when the action has been proposed twice
    already, the turn calls no handler: it counts one more alternative
    attempt and either restarts with an alternative plan or stops. *)
Theorem third_identical_action_not_executed :
  forall (st : agent World) (original_goal : json) (initial_plan : ExecutionPlan)
         (next params desc : json) (n : nat),
    last_action (ctx_of st) = Some (to_str py_repr next ++ ":" ++ to_str py_repr params) ->
    action_repeat_count (ctx_of st) = Some n ->
    2 <= n ->
    let st' := fst (guard st original_goal initial_plan next params desc) in
    world World st' = world World st /\
    snd (guard st original_goal initial_plan next params desc) <> TurnDone /\
    alternative_attempts (ctx_of st') = alternative_attempts (ctx_of st) + 1 /\
    forall ctx signature,
      last_action ctx <> Some signature ->
      exists once twice,
        note_action ctx signature = Ret (once, Proceed) /\
        note_action once signature = Ret (twice, Proceed) /\
        last_action twice = Some signature /\
        action_repeat_count twice = Some 2.
Proof.
  intros st original_goal initial_plan next params desc n Hlast Hcount Hn. cbv zeta.
  assert (forall ctx signature,
             last_action ctx <> Some signature ->
             exists once twice,
               note_action ctx signature = Ret (once, Proceed) /\
               note_action once signature = Ret (twice, Proceed) /\
               last_action twice = Some signature /\
               action_repeat_count twice = Some 2) as Htwice.
  { intros ctx signature Hother.
    assert (match last_action ctx with
            | Some previous => previous =? signature
            | None => false
            end = false) as Hne.
    { destruct (last_action ctx) as [previous|]; [|reflexivity].
      apply String.eqb_neq. intros ->. apply Hother. reflexivity. }
    eexists. eexists. split; [unfold note_action; rewrite Hne; reflexivity|].
    split; [unfold note_action; simpl; rewrite String.eqb_refl; reflexivity|].
    split; reflexivity. }
  unfold guarded, note_action. rewrite Hlast, String.eqb_refl, Hcount.
  rewrite (proj2 (Nat.leb_le 3 (n + 1))) by lia.
  match goal with
  | |- context [alternative ?s original_goal initial_plan] =>
    pose proof (generate_alternative_frame s original_goal initial_plan) as Hframe;
      destruct (alternative s original_goal initial_plan) as [st2 [[alt|]|e]]
  end; simpl in Hframe; destruct Hframe as (Hworld & Halt & _);
    (split; [exact Hworld|]); (split; [discriminate|]); (split; [exact Halt|exact Htwice]).
Qed.

Lemma str_eq_true (v : json) (s : string) : str_eq v s = true -> v = JStr s.
Proof.
  destruct v as [ | | | |t| | ]; try discriminate. simpl. intro H.
  apply String.eqb_eq in H. subst t. reflexivity.
Qed.

(** Tracking the navigation of a turn leaves the world as it is. *)
Lemma track_next_navigation_world (W : Type) (st st1 : agent W) (next params : json) :
  track_next_navigation py_repr py_eq W st next params = Ret st1 ->
  world W st1 = world W st.
Proof.
  unfold track_next_navigation. destruct (str_eq next "NAVIGATE"); [|intros [= <-]; reflexivity].
  destruct (py_get params "path" (JStr EmptyString)) as [nav_path|e]; [|discriminate].
  cbv beta iota delta [bind].
  destruct (py_truthy nav_path); [|intros [= <-]; reflexivity].
  destruct (searched_directories (task_context W st)) as [dirs|]; [|discriminate].
  match goal with |- context [if ?c then _ else _] => destruct c end;
    intros [= <-]; reflexivity.
Qed.

(** X20: the parameters a turn dispatches.  In a turn, unlike in
    [execute], a NAVIGATE action whose parameters are not a dict never
    reaches its handler: reading the path raises, the turn reports a
    verification error and the loop stops.  Otherwise, when the action names
    a handler, that handler is called once, with the normalised parameters,
    and what it returns or raises is what the turn reports.  The normalised
    parameters are: a dict as it is; for a string, the dict with that path
    for NAVIGATE, OPEN_FILE and DELETE_FILE, and for MOVE_FILE the dict of
    source and destination when the string has two words or more, and the
    string itself, passed on as it is, when it has fewer; the empty dict in
    every other case. *)
Theorem turn_dispatch_parameters :
  forall (next params : json),
    (str_eq next "NAVIGATE" = true -> is_dict params = false ->
     forall (st : agent World) (desc : json),
       action st next params desc
       = caught World st
                (mkExn AttributeError
                       ("'" ++ type_name params ++ "' object has no attribute 'get'"))) /\
    (forall (st st1 : agent (logged World)) (desc : json) (handler : Handler),
        track_next_navigation py_repr py_eq (logged World) st next params = Ret st1 ->
        table_find action_map next = Ret (Some handler) ->
        let passed := normalize_next_params next params in
        let called := (snd (world (logged World) st) ++ [(handler, passed)])%list in
        let after := fun (w : World) =>
          mkAgent (logged World) (task_context (logged World) st1)
                  (chat_output (logged World) st1) (w, called)
                  (prompts_sent (logged World) st1) in
        act py_repr py_eq (logged World) (log_calls run_handler) st next params desc
        = match run_handler handler passed (fst (world (logged World) st)) with
          | (Ret result, w) =>
            (say (logged World) (after w) ("  ✅ " ++ to_str py_repr desc ++ ": " ++ result),
             TurnDone)
          | (Raise e, w) =>
            (say (logged World) (after w) ("  ❌ " ++ to_str py_repr desc ++ ": " ++ exn_text e),
             Stopped)
          end) /\
    (forall (W : Type) (st : agent W),
        str_eq next "NAVIGATE" = false ->
        track_next_navigation py_repr py_eq W st next params = Ret st) /\
    (is_dict params = true -> normalize_next_params next params = params) /\
    (forall s, params = JStr s ->
               str_eq next "NAVIGATE" || str_eq next "OPEN_FILE" || str_eq next "DELETE_FILE"
               = true ->
               normalize_next_params next params = JObj [("path", JStr s)]) /\
    (forall s, params = JStr s -> str_eq next "MOVE_FILE" = true ->
               normalize_next_params next params
               = if (2 <=? List.length (split_ws s))%nat
                 then JObj [("source", JStr (hd EmptyString (split_ws s)));
                            ("destination", JStr (join " " (tl (split_ws s))))]
                 else JStr s) /\
    (is_dict params = false ->
     is_str params && (str_eq next "NAVIGATE" || str_eq next "OPEN_FILE" ||
                       str_eq next "DELETE_FILE" || str_eq next "MOVE_FILE") = false ->
     normalize_next_params next params = JObj []).
Proof.
  intros next params. split; [|split; [|split; [|split; [|split; [|split]]]]].
  - intros Hnav Hdict st desc. unfold act, track_next_navigation. rewrite Hnav.
    destruct params; try discriminate Hdict; reflexivity.
  - intros st st1 desc handler Htrack Hfind. cbv zeta.
    pose proof (track_next_navigation_world _ _ _ _ _ Htrack) as Hworld.
    unfold act. rewrite Htrack. unfold _execute_action. rewrite Hfind.
    unfold log_calls. rewrite Hworld.
    destruct (world (logged World) st) as [w log]. simpl fst. simpl snd.
    destruct (run_handler handler (normalize_next_params next params) w) as [[result|e] w'];
      reflexivity.
  - intros W st Hother. unfold track_next_navigation. rewrite Hother. reflexivity.
  - intro Hdict. unfold normalize_next_params. rewrite Hdict. reflexivity.
  - intros s -> Hpath. unfold normalize_next_params. simpl is_dict. simpl negb. cbv iota.
    rewrite Hpath. reflexivity.
  - intros s -> Hmove. apply str_eq_true in Hmove. subst next. reflexivity.
  - intros Hdict Hother. unfold normalize_next_params. rewrite Hdict. simpl negb. cbv iota.
    destruct (is_str params) eqn:Hstr.
    + simpl andb in Hother. apply orb_false_iff in Hother as [Hpath Hmove].
      rewrite Hpath, Hmove, !andb_false_l. reflexivity.
    + rewrite !andb_false_r. reflexivity.
Qed.

Lemma act_frame (st : agent World) (next params desc : json) :
  sent (fst (action st next params desc)) = sent st /\
  progress (ctx_of (fst (action st next params desc))) = progress (ctx_of st).
Proof.
  unfold act, track_next_navigation.
  destruct (str_eq next "NAVIGATE").
  - destruct (py_get params "path" (JStr EmptyString)) as [nav_path|e]; simpl;
      [|split; reflexivity].
    destruct (py_truthy nav_path).
    + destruct (searched_directories (ctx_of st)) as [dirs|]; [|split; reflexivity].
      match goal with |- context [if ?c then _ else _] => destruct c end;
        match goal with
        | |- context [_execute_action ?r ?W ?h ?a ?p ?w] =>
          destruct (_execute_action r W h a p w) as [[text|e] w']
        end; split; reflexivity.
    + match goal with
      | |- context [_execute_action ?r ?W ?h ?a ?p ?w] =>
        destruct (_execute_action r W h a p w) as [[text|e] w']
      end; split; reflexivity.
  - match goal with
    | |- context [_execute_action ?r ?W ?h ?a ?p ?w] =>
      destruct (_execute_action r W h a p w) as [[text|e] w']
    end; split; reflexivity.
Qed.

Lemma note_action_progress (ctx ctx' : TaskContext) (signature : string) (decision : guard_end) :
  note_action ctx signature = Ret (ctx', decision) -> progress ctx' = progress ctx.
Proof.
  unfold note_action.
  destruct (match last_action ctx with
            | Some previous => previous =? signature
            | None => false
            end).
  - destruct (action_repeat_count ctx); [|discriminate]. intros [= <- _]. reflexivity.
  - intros [= <- _]. reflexivity.
Qed.

(** The part of a turn after the next action was read keeps the progress
    log and talks to the model at most once, and only when it does not go on
    to the next turn. *)
Lemma guard_frame (st : agent World) (original_goal : json) (initial_plan : ExecutionPlan)
  (next params desc : json) :
  let r := guard st original_goal initial_plan next params desc in
  progress (ctx_of (fst r)) = progress (ctx_of st) /\
  (sent (fst r) = sent st \/
   snd r <> TurnDone /\
   exists listing, sent (fst r) = append (sent st) (alternative_prompt py_repr original_goal listing)).
Proof.
  cbv zeta. unfold guarded.
  destruct (note_action (ctx_of st) (to_str py_repr next ++ ":" ++ to_str py_repr params))
    as [[ctx decision]|e] eqn:Hnote; [|split; [reflexivity|left; reflexivity]].
  pose proof (note_action_progress _ _ _ _ Hnote) as Hprogress.
  destruct decision.
  - destruct (act_frame (with_context World st ctx) next params desc) as [Hsent Hp].
    split; [rewrite Hp; exact Hprogress|]. left. exact Hsent.
  - match goal with
    | |- context [alternative ?s original_goal initial_plan] =>
      pose proof (generate_alternative_frame s original_goal initial_plan) as Hframe;
        destruct (alternative s original_goal initial_plan) as [st2 [[alt|]|e]]
    end; simpl in Hframe; destruct Hframe as (_ & _ & Hp & Hsent);
      (split; [simpl; rewrite Hp; exact Hprogress|]);
      (destruct Hsent as [Hsent|[listing Hsent]];
       [left; exact Hsent|right; split; [discriminate|exists listing; exact Hsent]]).
Qed.

Lemma same_but_statuses_progress (a b : TaskContext) :
  same_but_statuses a b -> progress b = progress a.
Proof. intros (_ & H & _). symmetry. exact H. Qed.

(** The completion check leaves the progress log as it was, or empty. *)
Lemma verify_progress (ctx ctx' : TaskContext) (chat chat' : list string)
  (verification : json) (ending : verify_end) :
  verify py_repr py_int ctx chat verification = (chat', ctx', ending) ->
  progress ctx' = progress ctx \/ progress ctx' = [].
Proof.
  unfold verify. intro H.
  destruct (py_truthy verification); simpl negb in H; cbv iota in H;
    [|injection H as _ <- _; left; reflexivity].
  destruct (py_get verification "complete" (JBool false)) as [is_complete|e];
    [|injection H as _ <- _; left; reflexivity].
  destruct (py_get verification "reasoning" (JStr EmptyString)) as [reasoning|e];
    [|injection H as _ <- _; left; reflexivity].
  destruct (py_get verification "subtasks_status" (JObj [])) as [subtasks_status|e];
    [|injection H as _ <- _; left; reflexivity].
  destruct (py_items subtasks_status) as [items|e];
    [|injection H as _ <- _; left; reflexivity].
  pose proof (same_but_statuses_progress _ _ (update_statuses_frame py_int items ctx)) as Hframe.
  destruct (update_statuses py_int items ctx) as [ctx1 [u|e]]; simpl in Hframe;
    [|injection H as _ <- _; left; exact Hframe].
  destruct (py_truthy is_complete).
  - match type of H with (if ?c then _ else _) = _ => destruct c end;
      injection H as _ <- _; [right; reflexivity|left; exact Hframe].
  - injection H as _ <- _. left. exact Hframe.
Qed.

Lemma Ret_inj {A : Type} (a b : A) : Ret a = Ret b -> a = b.
Proof. intros [= ->]. reflexivity. Qed.

Lemma is_prefix_app_l (sub : string) :
  forall s t, is_prefix sub s = true -> is_prefix sub (s ++ t) = true.
Proof.
  induction sub as [|c sub IH]; intros s t H; [reflexivity|].
  destruct s as [|b s]; [discriminate H|]. simpl in *.
  apply andb_true_iff in H as [Hc H]. rewrite Hc. simpl. apply IH. exact H.
Qed.

Lemma contains_app_l (sub s t : string) :
  contains sub s = true -> contains sub (s ++ t) = true.
Proof.
  induction s as [|a s IH]; intro H.
  - simpl in H. rewrite orb_false_r in H. destruct sub; [|discriminate H].
    destruct t; reflexivity.
  - cbn [contains] in H. apply orb_true_iff in H as [H|H].
    + pose proof (is_prefix_app_l sub (String a s) t H) as Hp.
      simpl String.append in *. cbn [contains]. rewrite Hp. reflexivity.
    + simpl String.append. cbn [contains]. rewrite (IH H). apply orb_true_r.
Qed.

(** With an empty progress log the verification prompt shows the
    placeholder. *)
Lemma verification_prompt_without_progress (ctx : TaskContext) (goal : json)
  (directory : string) (files : list string) (turn_count max_turns : Z) (prompt : string) :
  progress ctx = [] ->
  verification_prompt py_repr ctx goal directory files turn_count max_turns = Ret prompt ->
  contains "  (No actions yet)" prompt = true.
Proof.
  intros Hprogress H. unfold verification_prompt in H. rewrite Hprogress in H.
  destruct (loop_warning (get_searched_directories ctx)) as [warning|e];
    cbv beta iota zeta delta [bind] in H; [|discriminate H].
  apply Ret_inj in H. subst prompt. apply contains_app_l. unfold prompt_head.
  cbn [map join]. rewrite String.eqb_refl.
  do 5 apply contains_app_r. apply contains_here.
Qed.

(** What a turn does to the progress log and to the record of prompts. *)
Lemma turn_frame (st : agent World) (original_goal : json) (initial_plan : ExecutionPlan)
  (turn_count max_turns : Z) :
  let r := one_turn st original_goal initial_plan turn_count max_turns in
  (progress (ctx_of (fst r)) = progress (ctx_of st) \/ progress (ctx_of (fst r)) = []) /\
  exists new,
    sent (fst r) = (sent st ++ new)%list /\
    List.length new <= 2 /\
    (snd r = TurnDone -> List.length new <= 1) /\
    (progress (ctx_of st) = [] -> Forall (prompt_without_progress py_repr) new).
Proof.
  cbv zeta. unfold turn.
  destruct (verification_prompt py_repr (ctx_of (say World st _)) original_goal _ _
                                turn_count max_turns) as [prompt|e] eqn:Hprompt.
  2: { split; [left; reflexivity|]. exists []. rewrite app_nil_r.
       repeat split; simpl; try lia. intros _. constructor. }
  assert (progress (ctx_of st) = [] -> prompt_without_progress py_repr prompt) as Hshown.
  { intro Hp. right.
    exact (verification_prompt_without_progress (ctx_of st) _ _ _ _ _ _ Hp Hprompt). }
  unfold ask_model.
  match goal with
  | |- context [match ?r with Ret _ => _ | Raise _ => _ end] =>
    destruct r as [verification|e]
  end.
  2: { split; [left; reflexivity|]. exists [prompt].
       repeat split; simpl; try lia. intro Hp. constructor; [exact (Hshown Hp)|constructor]. }
  match goal with
  | |- context [verify ?r ?i ?c ?ch ?v] =>
    pose proof (verify_progress c) as Hverify;
      destruct (verify r i c ch v) as [[chat ctx] ending] eqn:Hv
  end.
  specialize (Hverify _ _ _ _ _ Hv). simpl in Hverify.
  assert (forall e0 : turn_end,
             e0 <> TurnDone ->
             exists new,
               (sent st ++ [prompt])%list = (sent st ++ new)%list /\
               List.length new <= 2 /\
               (e0 = TurnDone -> List.length new <= 1) /\
               (progress (ctx_of st) = [] -> Forall (prompt_without_progress py_repr) new))
    as Hstop.
  { intros e0 He0. exists [prompt]. repeat split; simpl; try lia.
    intro Hp. constructor; [exact (Hshown Hp)|constructor]. }
  destruct ending as [ | |is_complete|e];
    try (split; [exact Hverify|apply Hstop; discriminate]).
  destruct (read_next_action chat verification) as [chat' [ |e|next params desc]];
    try (split; [exact Hverify|apply Hstop; discriminate]).
  match goal with
  | |- context [guard ?s original_goal initial_plan next params desc] =>
    destruct (guard_frame s original_goal initial_plan next params desc) as [Hp Hsent];
      destruct (guard s original_goal initial_plan next params desc) as [st' e0]
  end.
  simpl in Hp, Hsent |- *.
  split; [rewrite Hp; exact Hverify|].
  destruct Hsent as [Hsent|[He0 [listing Hsent]]].
  - exists [prompt]. rewrite Hsent. repeat split; simpl; try lia.
    intro Hq. constructor; [exact (Hshown Hq)|constructor].
  - exists [prompt; alternative_prompt py_repr original_goal listing].
    rewrite Hsent. unfold append. rewrite <- app_assoc.
    repeat split; simpl; try lia; [intro Hdone; contradiction|].
    intro Hq. constructor; [exact (Hshown Hq)|]. constructor; [|constructor].
    left. exists original_goal, listing. reflexivity.
Qed.

(** From its test of [turn_count], with at most [m] turns left in the
    budget, the reflection loop is left after at most [m] turns. *)
Lemma reflection_loop_ends (original_goal : json) (initial_plan : ExecutionPlan)
  (max_turns : Z) (m : nat) :
  forall (st : agent World) (turn_count : Z),
    Z.to_nat (max_turns - turn_count) <= m ->
    exists st' exit,
      (forall fuel, m < fuel ->
                    turns fuel st original_goal initial_plan turn_count max_turns
                    = Some (st', exit)) /\
      (exists new, sent st' = (sent st ++ new)%list /\ List.length new <= m + 1 /\
                   (progress (ctx_of st) = [] -> Forall (prompt_without_progress py_repr) new)) /\
      (progress (ctx_of st) = [] -> progress (ctx_of st') = []) /\
      match exit with
      | LoopLeft n => (turn_count <= n)%Z /\ (n <= Z.max turn_count max_turns)%Z
      | _ => True
      end.
Proof.
  induction m as [|m IH]; intros st turn_count Hm.
  - exists st, (LoopLeft turn_count). split; [|split; [|split]].
    + intros [|fuel] Hfuel; [lia|]. simpl.
      assert ((turn_count <? max_turns)%Z = false) as -> by (apply Z.ltb_ge; lia).
      reflexivity.
    + exists []. rewrite app_nil_r. repeat split; simpl; try lia. intros _. constructor.
    + intro H. exact H.
    + lia.
  - destruct (turn_count <? max_turns)%Z eqn:Htest.
    + apply Z.ltb_lt in Htest.
      destruct (turn_frame st original_goal initial_plan turn_count max_turns)
        as (Hp & new & Hsent & Hlen & Hdone & Hshown).
      cbv zeta in Hp, Hsent, Hdone.
      assert (progress (ctx_of st) = [] ->
              progress (ctx_of (fst (one_turn st original_goal initial_plan
                                              turn_count max_turns))) = []) as Hkeep.
      { intro H. destruct Hp as [Hp|Hp]; [rewrite Hp; exact H|exact Hp]. }
      destruct (one_turn st original_goal initial_plan turn_count max_turns)
        as [st1 e] eqn:Hturn. simpl in Hp, Hsent, Hdone, Hkeep.
      assert (forall exit,
                 (forall fuel, S m < fuel ->
                               turns fuel st original_goal initial_plan turn_count max_turns
                               = Some (st1, exit)) ->
                 match exit with
                 | LoopLeft n => (turn_count <= n)%Z /\ (n <= Z.max turn_count max_turns)%Z
                 | _ => True
                 end ->
                 exists st' exit,
                   (forall fuel, S m < fuel ->
                                 turns fuel st original_goal initial_plan turn_count max_turns
                                 = Some (st', exit)) /\
                   (exists new, sent st' = (sent st ++ new)%list /\
                                List.length new <= S m + 1 /\
                                (progress (ctx_of st) = [] ->
                                 Forall (prompt_without_progress py_repr) new)) /\
                   (progress (ctx_of st) = [] -> progress (ctx_of st') = []) /\
                   match exit with
                   | LoopLeft n => (turn_count <= n)%Z /\ (n <= Z.max turn_count max_turns)%Z
                   | _ => True
                   end) as Hleave.
      { intros exit Hrun Hexit. exists st1, exit. split; [exact Hrun|].
        split; [|split; [exact Hkeep|exact Hexit]].
        exists new. repeat split; try assumption. lia. }
      destruct e as [ | |alt|e].
      * destruct (IH st1 (turn_count + 1)%Z) as (st' & exit & Hrun & Hnew & Hkeep' & Hexit);
          [lia|].
        destruct Hnew as (new' & Hsent' & Hlen' & Hshown').
        exists st', exit. split; [|split; [|split]].
        -- intros [|fuel] Hfuel; [lia|]. simpl.
           rewrite (proj2 (Z.ltb_lt _ _) Htest), Hturn. apply Hrun. lia.
        -- exists (new ++ new')%list. rewrite Hsent', Hsent, app_assoc.
           split; [reflexivity|]. rewrite length_app.
           specialize (Hdone eq_refl). split; [lia|].
           intro H. apply Forall_app. split; [exact (Hshown H)|exact (Hshown' (Hkeep H))].
        -- intro H. exact (Hkeep' (Hkeep H)).
        -- destruct exit; try exact I. lia.
      * apply (Hleave (LoopLeft turn_count)); [|lia].
        intros [|fuel] Hfuel; [lia|]. simpl.
        rewrite (proj2 (Z.ltb_lt _ _) Htest), Hturn. reflexivity.
      * apply (Hleave (LoopRestart alt)); [|exact I].
        intros [|fuel] Hfuel; [lia|]. simpl.
        rewrite (proj2 (Z.ltb_lt _ _) Htest), Hturn. reflexivity.
      * apply (Hleave (LoopCrashed e)); [|exact I].
        intros [|fuel] Hfuel; [lia|]. simpl.
        rewrite (proj2 (Z.ltb_lt _ _) Htest), Hturn. reflexivity.
    + exists st, (LoopLeft turn_count). split; [|split; [|split]].
      * intros [|fuel] Hfuel; [lia|]. simpl. rewrite Htest. reflexivity.
      * exists []. rewrite app_nil_r. repeat split; simpl; try lia. intros _. constructor.
      * intro H. exact H.
      * apply Z.ltb_ge in Htest. lia.
Qed.

(** X21: the reflection loop ends within its budget of turns.  From any
    state, for every behaviour of the model and of the handlers, the loop
    started at [turn_count] is left after at most [max_turns - turn_count]
    turns: a number of steps just above that is enough, and more steps
    change nothing.  It sends the model at most one prompt per turn and one
    more, and when it is left by its test or a [break], the turn counter
    never exceeds [max_turns]. *)
Theorem reflection_loop_ends_within_max_turns :
  forall (st : agent World) (original_goal : json) (initial_plan : ExecutionPlan)
         (turn_count max_turns : Z),
    exists st' exit,
      (forall fuel, Z.to_nat (max_turns - turn_count) < fuel ->
                    turns fuel st original_goal initial_plan turn_count max_turns
                    = Some (st', exit)) /\
      (exists new, sent st' = (sent st ++ new)%list /\
                   List.length new <= Z.to_nat (max_turns - turn_count) + 1) /\
      match exit with
      | LoopLeft n => (turn_count <= n)%Z /\ (n <= Z.max turn_count max_turns)%Z
      | _ => True
      end.
Proof.
  intros st original_goal initial_plan turn_count max_turns.
  destruct (reflection_loop_ends original_goal initial_plan max_turns
                                 (Z.to_nat (max_turns - turn_count)) st turn_count (le_n _))
    as (st' & exit & Hrun & (new & Hsent & Hlen & _) & _ & Hexit).
  exists st', exit. split; [exact Hrun|]. split; [|exact Hexit].
  exists new. split; assumption.
Qed.

#[local] Abbreviation first_part :=
  (initial_phase json_loads py_repr py_eq World run_handler post_at base_url current_model).
#[local] Abbreviation settled st :=
  (progress (ctx_of st) = [] /\ Forall (prompt_without_progress py_repr) (sent st)).

Lemma begin_task_cases (ctx ctx0 : TaskContext) (initial_plan : ExecutionPlan) :
  begin_task py_eq ctx initial_plan = Ret ctx0 ->
  py_eq (original_goal ctx) (summary initial_plan) = true /\ ctx0 = count_attempt ctx \/
  py_eq (original_goal ctx) (summary initial_plan) = false /\
  alternative_attempts ctx0 = 0 /\ progress ctx0 = [].
Proof.
  unfold begin_task. intro H.
  destruct (py_eq (original_goal ctx) (summary initial_plan)); simpl in H.
  - left. injection H as <-. split; reflexivity.
  - right. destruct (_extract_subtasks (summary initial_plan) (steps initial_plan));
      simpl in H; [|discriminate H].
    injection H as <-. repeat split.
Qed.

Lemma track_navigation_frame (plan_steps : json) (i : nat) (ctx ctx' : TaskContext) :
  track_navigation plan_steps i ctx = Ret ctx' ->
  progress ctx' = progress ctx /\ alternative_attempts ctx' = alternative_attempts ctx.
Proof.
  unfold track_navigation. intro H.
  destruct (py_len plan_steps) as [n|e]; simpl in H; [|discriminate H].
  destruct (i <? n)%nat; [|injection H as <-; split; reflexivity].
  destruct (py_index plan_steps i) as [step|e]; simpl in H; [|discriminate H].
  destruct (py_get step "action" (JStr EmptyString)) as [a|e]; simpl in H;
    [|discriminate H].
  destruct (str_eq a "NAVIGATE"); [|injection H as <-; split; reflexivity].
  destruct (py_get step "params" (JObj [])) as [params|e]; simpl in H; [|discriminate H].
  match type of H with (if ?c then _ else _) = _ => destruct c end;
    [|injection H as <-; split; reflexivity].
  destruct (searched_directories ctx); [|discriminate H].
  injection H as <-. split; reflexivity.
Qed.

Lemma track_error_progress (ctx : TaskContext) (msg : string) :
  progress (_track_error ctx msg) = progress ctx.
Proof.
  unfold _track_error. destruct (last_error ctx) as [previous|]; [|reflexivity].
  destruct (previous =? core_error_of msg); reflexivity.
Qed.

Lemma scan_results_frame (plan_steps : json) (results : list string) :
  forall i ctx chat has_error,
    let r := scan_results plan_steps i results ctx chat has_error in
    progress (fst (fst r)) = progress ctx /\
    alternative_attempts (fst (fst r)) = alternative_attempts ctx.
Proof.
  induction results as [|result rest IH]; intros i ctx chat has_error; cbv zeta.
  - split; reflexivity.
  - cbn [scan_results].
    destruct (track_navigation plan_steps i ctx) as [ctx1|e] eqn:Htrack; [|split; reflexivity].
    destruct (track_navigation_frame _ _ _ _ Htrack) as [Hp Ha].
    destruct (contains "❌" result || contains "Error" result).
    + destruct (IH (S i) (_track_error ctx1 result) (append chat ("  " ++ result)) true)
        as [Hp' Ha'].
      rewrite Hp', Ha', track_error_progress, track_error_alternative_attempts.
      split; assumption.
    + destruct (IH (S i) ctx1 (append chat ("  " ++ result)) has_error) as [Hp' Ha'].
      rewrite Hp', Ha'. split; assumption.
Qed.

(** X22: giving up needs five alternatives counted for one goal.  The part
    of [execute_agentic] before the loop answers that the task 'appears
    impossible after multiple failed attempts' (and resets the task context)
    only when, on entry, the plan's goal equals the tracked goal and five
    alternative attempts are already counted for it.  A plan with another
    goal, such as an alternative plan with a summary of its own, starts with
    the count at zero. *)
Theorem giving_up_needs_five_alternatives_for_one_goal :
  forall (st st' : agent World) (initial_plan : ExecutionPlan),
    first_part st initial_plan = (st', Ended GaveUp) ->
    ctx_of st' = _reset_task_context ->
    py_eq (original_goal (ctx_of st)) (summary initial_plan) = true /\
    5 <= alternative_attempts (ctx_of st).
Proof.
  intros st st' initial_plan H Hreset. unfold initial_phase in H.
  destruct (begin_task py_eq (ctx_of st) initial_plan) as [ctx0|e] eqn:Hbegin;
    [|discriminate H].
  destruct (execute py_repr World run_handler initial_plan (world World st))
    as [[results|e] w]; [|discriminate H].
  pose proof (scan_results_frame (steps initial_plan) results 0 ctx0
                                 (chat_output World st) false) as Hframe.
  destruct (scan_results (steps initial_plan) 0 results ctx0 (chat_output World st) false)
    as [[ctx1 chat] [has_error|e]]; [|discriminate H].
  cbv zeta in Hframe. simpl in Hframe. destruct Hframe as [_ Hcount].
  destruct has_error; [|discriminate H].
  destruct (triage_table ctx1) as (Hretry & Halt & Himp).
  destruct (Nat.lt_ge_cases (consecutive_errors ctx1) 3) as [Hlow|Hstreak].
  { rewrite (Hretry Hlow) in H. discriminate H. }
  destruct (Nat.lt_ge_cases (alternative_attempts ctx1) 5) as [Hfew|Hmany].
  - rewrite (Halt Hstreak Hfew) in H. simpl in H.
    match type of H with
    | context [alternative ?s ?g ?p] =>
      pose proof (generate_alternative_frame s g p) as Hgen;
        destruct (alternative s g p) as [st2 [[alt|]|e]]
    end; try discriminate H.
    injection H as <-. simpl in Hgen, Hreset.
    destruct Hgen as (_ & Hplus & _). rewrite Hreset in Hplus. simpl in Hplus. lia.
  - destruct (begin_task_cases _ _ _ Hbegin) as [[Hsame Hctx0]|(_ & Hzero & _)].
    + subst ctx0. split; [exact Hsame|]. simpl in Hcount. lia.
    + lia.
Qed.

(** The part before the loop keeps an empty progress log empty and sends
    only prompts without progress. *)
Lemma initial_phase_settled (st : agent World) (initial_plan : ExecutionPlan) :
  settled st -> settled (fst (first_part st initial_plan)).
Proof.
  intros [Hp Hsent]. unfold initial_phase.
  destruct (begin_task py_eq (ctx_of st) initial_plan) as [ctx0|e] eqn:Hbegin;
    [|split; assumption].
  assert (progress ctx0 = []) as Hp0.
  { destruct (begin_task_cases _ _ _ Hbegin) as [[_ Hctx0]|(_ & _ & H0)];
      [subst ctx0; exact Hp|exact H0]. }
  destruct (execute py_repr World run_handler initial_plan (world World st))
    as [[results|e] w]; [|split; assumption].
  pose proof (scan_results_frame (steps initial_plan) results 0 ctx0
                                 (chat_output World st) false) as Hframe.
  destruct (scan_results (steps initial_plan) 0 results ctx0 (chat_output World st) false)
    as [[ctx1 chat] [has_error|e]]; cbv zeta in Hframe; simpl in Hframe;
    destruct Hframe as [Hp1 _]; rewrite Hp0 in Hp1; [|split; assumption].
  destruct has_error; [|split; assumption].
  destruct (_handle_execution_error ctx1 =? "retry"); [split; assumption|].
  destruct (_handle_execution_error ctx1 =? "alternative").
  - match goal with
    | |- context [alternative ?s ?g ?p] =>
      pose proof (generate_alternative_frame s g p) as Hgen;
        destruct (alternative s g p) as [st2 [[alt|]|e]]
    end; simpl in Hgen; destruct Hgen as (_ & _ & Hp2 & Hsent2); simpl;
      (split; [rewrite Hp2; exact Hp1|]);
      (destruct Hsent2 as [E|[listing E]]; rewrite E;
       [exact Hsent|apply Forall_app; split; [exact Hsent|]];
       constructor; [|constructor]; left; eexists; eexists; reflexivity).
  - destruct (_handle_execution_error ctx1 =? "impossible"); split; assumption || reflexivity.
Qed.

Lemma reflection_loop_settled (fuel : nat) :
  forall (st st' : agent World) (original_goal : json) (initial_plan : ExecutionPlan)
         (turn_count max_turns : Z) (exit : loop_exit),
    turns fuel st original_goal initial_plan turn_count max_turns = Some (st', exit) ->
    settled st -> settled st'.
Proof.
  induction fuel as [|fuel IH];
    intros st st' original_goal initial_plan turn_count max_turns exit H [Hp Hsent];
    [discriminate H|].
  simpl in H. destruct (turn_count <? max_turns)%Z; [|injection H as <- _; split; assumption].
  destruct (turn_frame st original_goal initial_plan turn_count max_turns)
    as (Hp1 & new & Hsent1 & _ & _ & Hshown).
  cbv zeta in Hp1, Hsent1.
  destruct (one_turn st original_goal initial_plan turn_count max_turns) as [st1 e].
  simpl in Hp1, Hsent1.
  assert (settled st1) as Hst1.
  { split; [destruct Hp1 as [E|E]; rewrite E; [exact Hp|reflexivity]|].
    rewrite Hsent1. apply Forall_app. split; [exact Hsent|exact (Hshown Hp)]. }
  destruct e; [exact (IH _ _ _ _ _ _ _ H Hst1)| | |]; injection H as <- _; exact Hst1.
Qed.

Lemma Resubmitted_inj (a b : string) : Resubmitted a = Resubmitted b -> a = b.
Proof. intros [= ->]. reflexivity. Qed.

Lemma after_loop_settled (st : agent World) (original_goal : json) (turn_count max_turns : Z) :
  settled st ->
  let r := after_loop py_repr World question st original_goal turn_count max_turns in
  settled (fst r) /\
  forall prompt, snd r = Resubmitted prompt -> contains "(No progress yet)" prompt = true.
Proof.
  intros [Hp Hsent]. cbv zeta. unfold after_loop.
  destruct (max_turns <=? turn_count)%Z; [|split; [split; assumption|discriminate]].
  match goal with |- context [filter ?f ?l] => destruct (filter f l) as [|t rest] end;
    [split; [split; assumption|discriminate]|].
  unfold offer_task_continuation.
  match goal with |- context [if question ?a ?b then _ else _] => destruct (question a b) end.
  - split; [split; assumption|]. intros prompt H.
    cbv beta iota zeta delta [snd say task_context] in H, Hp.
    apply Resubmitted_inj in H. subst prompt. rewrite Hp.
    change (join nl (last_n 10 [])) with EmptyString. rewrite String.eqb_refl.
    do 5 apply contains_app_r. apply contains_here.
  - split; [split; [reflexivity|exact Hsent]|discriminate].
Qed.

(** X23: progress is never recorded.  No part of [execute_agentic] writes
    to the progress log of the task context.  Started with an empty log (as
    [__init__] and every reset leave it) and with only prompts that show no
    progress sent so far, each part leaves the log empty and sends only such
    prompts: the part before the reflection loop; the reflection loop, which
    is left within the turn budget, every verification prompt of it showing
    the placeholder '(No actions yet)' in place of the progress; the handler
    of a turn, which is where an exception of an invocation nested in the
    turn ends up; and the part after the loop, where the prompt resubmitted
    when the user chooses to continue says '(No progress yet)'. *)
Theorem progress_is_never_recorded :
  forall (st : agent World),
    progress (ctx_of st) = [] ->
    Forall (prompt_without_progress py_repr) (sent st) ->
    let kept := fun (st' : agent World) =>
      progress (ctx_of st') = [] /\ Forall (prompt_without_progress py_repr) (sent st') in
    (forall initial_plan, kept (fst (first_part st initial_plan))) /\
    (forall original_goal initial_plan turn_count max_turns,
        exists st' exit,
          (forall fuel, Z.to_nat (max_turns - turn_count) < fuel ->
                        turns fuel st original_goal initial_plan turn_count max_turns
                        = Some (st', exit)) /\
          kept st') /\
    (forall e, kept (fst (caught World st e))) /\
    (forall original_goal turn_count max_turns,
        let r := after_loop py_repr World question st original_goal turn_count max_turns in
        kept (fst r) /\
        forall prompt, snd r = Resubmitted prompt -> contains "(No progress yet)" prompt = true).
Proof.
  intros st Hp Hsent. cbv zeta. split; [|split; [|split]].
  - intro initial_plan. exact (initial_phase_settled st initial_plan (conj Hp Hsent)).
  - intros original_goal initial_plan turn_count max_turns.
    destruct (reflection_loop_ends original_goal initial_plan max_turns
                                   (Z.to_nat (max_turns - turn_count)) st turn_count
                                   (Nat.le_refl _))
      as (st' & exit & Hrun & _ & _ & _).
    exists st', exit. split; [exact Hrun|].
    exact (reflection_loop_settled _ _ _ _ _ _ _ _ (Hrun _ (Nat.lt_succ_diag_r _))
                                   (conj Hp Hsent)).
  - intro e. split; assumption.
  - intros original_goal turn_count max_turns.
    exact (after_loop_settled st original_goal turn_count max_turns (conj Hp Hsent)).
Qed.

End AgenticFacts.

Lemma flagged_batch_never_reflects_witness :
  let st := mkAgent demo_world _reset_task_context ["<b>You:</b> look around"] ["/tmp"] [] in
  let initial_plan :=
    mkPlan (JStr "Look around")
           (JArr [JObj [("action", JStr "NAVIGATE"); ("params", JObj [("path", JStr "/tmp")]);
                        ("description", JStr "Enter /tmp")]])
           (JFloat 1%float) READ_ONLY false in
  let st' := fst (initial_phase json_dec repr_simple py_eqb demo_world demo_handler
                                hesitant_gateway "http://localhost:11434" (JStr "llama3")
                                st initial_plan) in
  exists ctx0 results,
    begin_task py_eqb (task_context demo_world st) initial_plan = Ret ctx0 /\
    execute repr_simple demo_world demo_handler initial_plan (world demo_world st)
    = (Ret results, world demo_world st') /\
    Forall (fun r => contains "❌" r = false /\ contains "Error" r = false) results /\
    chat_output demo_world st'
    = (chat_output demo_world st ++ map (fun r => ("  " ++ r)%string) results)%list /\
    errors (task_context demo_world st') = errors ctx0 /\
    consecutive_errors (task_context demo_world st') = consecutive_errors ctx0 /\
    prompts_sent demo_world st' = prompts_sent demo_world st.
Proof.
  intros st initial_plan st'.
  apply (flagged_batch_never_reflects json_dec repr_simple py_eqb demo_world demo_handler
           hesitant_gateway "http://localhost:11434" (JStr "llama3") st st' initial_plan).
  vm_compute. reflexivity.
Defined.

Lemma third_identical_action_not_executed_witness :
  let next := JStr "NAVIGATE" in
  let params := JObj [("path", JStr "/tmp")] in
  let ctx := mkContext (JStr "Look around") [] 1 (Some []) [] None 0 0 [] (Some [JStr "/tmp"])
                       (Some (to_str repr_simple next ++ ":" ++ to_str repr_simple params))
                       (Some 2) in
  let st := mkAgent demo_world ctx [] ["/tmp"] [] in
  let initial_plan := mkPlan (JStr "Look around") (JArr []) (JFloat 1%float) READ_ONLY false in
  let r := guarded json_dec repr_simple py_eqb demo_world demo_handler hesitant_gateway
                   "http://localhost:11434" (JStr "llama3") st (JStr "Look around")
                   initial_plan next params (JStr "Enter /tmp") in
  world demo_world (fst r) = world demo_world st /\
  snd r <> TurnDone /\
  alternative_attempts (task_context demo_world (fst r))
  = alternative_attempts (task_context demo_world st) + 1 /\
  forall c signature,
    last_action c <> Some signature ->
    exists once twice,
      note_action c signature = Ret (once, Proceed) /\
      note_action once signature = Ret (twice, Proceed) /\
      last_action twice = Some signature /\
      action_repeat_count twice = Some 2.
Proof.
  intros next params ctx st initial_plan r.
  apply (third_identical_action_not_executed json_dec repr_simple py_eqb demo_world
           demo_handler hesitant_gateway "http://localhost:11434" (JStr "llama3")
           st (JStr "Look around") initial_plan next params (JStr "Enter /tmp") 2).
  - reflexivity.
  - reflexivity.
  - lia.
Defined.

Lemma giving_up_needs_five_alternatives_for_one_goal_witness :
  let ctx := mkContext (JStr "Append a note") [] 8 (Some []) ["first"; "second"]
                       (Some "'/tmp/x'") 2 5 [] (Some []) None (Some 0) in
  let st := mkAgent demo_world ctx [] ["/tmp"] [] in
  let initial_plan :=
    mkPlan (JStr "Append a note")
           (JArr [JObj [("action", JStr "APPEND_TEXT");
                        ("params", JObj [("path", JStr "/tmp/x"); ("text", JStr "note")]);
                        ("description", JStr "Append the note")]])
           (JFloat 1%float) MODIFY true in
  py_eqb (original_goal (task_context demo_world st)) (summary initial_plan) = true /\
  5 <= alternative_attempts (task_context demo_world st).
Proof.
  intros ctx st initial_plan.
  apply (giving_up_needs_five_alternatives_for_one_goal json_dec repr_simple py_eqb demo_world
           demo_handler hesitant_gateway "http://localhost:11434" (JStr "llama3") st
           (fst (initial_phase json_dec repr_simple py_eqb demo_world demo_handler
                               hesitant_gateway "http://localhost:11434" (JStr "llama3")
                               st initial_plan))
           initial_plan).
  - vm_compute. reflexivity.
  - vm_compute. reflexivity.
Defined.

(** A MOVE_FILE action of a turn with a one-word string: the handler gets
    the string. *)
Example move_file_one_word_passed_on :
  let st := mkAgent (logged demo_world) _reset_task_context [] (["/tmp"], []) [] in
  snd (world (logged demo_world)
             (fst (act repr_simple py_eqb (logged demo_world) (log_calls demo_handler) st
                       (JStr "MOVE_FILE") (JStr "notes.txt") (JStr "Move the notes"))))
  = [(_move_file, JStr "notes.txt")].
Proof. reflexivity. Qed.

Lemma progress_is_never_recorded_witness :
  let st := mkAgent demo_world _reset_task_context [] ["/tmp"] [] in
  let initial_plan :=
    mkPlan (JStr "Look around")
           (JArr [JObj [("action", JStr "NAVIGATE"); ("params", JObj [("path", JStr "/tmp")]);
                        ("description", JStr "Enter /tmp")]])
           (JFloat 1%float) READ_ONLY false in
  let st1 := fst (initial_phase json_dec repr_simple py_eqb demo_world demo_handler
                                hesitant_gateway "http://localhost:11434" (JStr "llama3")
                                st initial_plan) in
  (progress (task_context demo_world st1) = [] /\
   Forall (prompt_without_progress repr_simple) (prompts_sent demo_world st1)) /\
  exists st2 exit,
    reflection_loop json_dec repr_simple int_simple py_eqb demo_world demo_handler
                    (fun _ => "/home/a") (fun _ => []) hesitant_gateway
                    "http://localhost:11434" (JStr "llama3")
                    3 st (JStr "Look around") initial_plan 1 3
    = Some (st2, exit) /\
    progress (task_context demo_world st2) = [] /\
    Forall (prompt_without_progress repr_simple) (prompts_sent demo_world st2).
Proof.
  intros st initial_plan st1.
  destruct (progress_is_never_recorded json_dec repr_simple int_simple py_eqb demo_world
              demo_handler (fun _ => "/home/a") (fun _ => []) hesitant_gateway
              "http://localhost:11434" (JStr "llama3") (fun _ _ => false)
              st eq_refl (Forall_nil _)) as (Hfirst & Hloop & _).
  split; [exact (Hfirst initial_plan)|].
  destruct (Hloop (JStr "Look around") initial_plan 1%Z 3%Z) as (st2 & exit & Hrun & Hkept).
  exists st2, exit. split; [|exact Hkept].
  apply Hrun. vm_compute. reflexivity.
Defined.

(** A run without a restart, part by part: the gateway is unreachable, the
    first turn cannot verify, and the loop is left. *)
Example agentic_parts_unreachable_gateway :
  let st := mkAgent demo_world _reset_task_context [] ["/tmp"] [] in
  let initial_plan :=
    mkPlan (JStr "Look around")
           (JArr [JObj [("action", JStr "NAVIGATE"); ("params", JObj [("path", JStr "/tmp")]);
                        ("description", JStr "Enter /tmp")]])
           (JFloat 1%float) READ_ONLY false in
  let first := initial_phase json_dec repr_simple py_eqb demo_world demo_handler
                             unreachable_gateway "http://localhost:11434" (JStr "llama3")
                             st initial_plan in
  let looped := reflection_loop json_dec repr_simple int_simple py_eqb demo_world demo_handler
                                (fun _ => "/home/a") (fun _ => []) unreachable_gateway
                                "http://localhost:11434" (JStr "llama3")
                                3 (fst first) (summary initial_plan) initial_plan 1 50 in
  snd first = Reflect /\
  exists st2,
    looped = Some (st2, LoopLeft 1) /\
    let last := after_loop repr_simple demo_world (fun _ _ => false) st2
                           (summary initial_plan) 1 50 in
    (chat_output demo_world (fst last), List.length (prompts_sent demo_world (fst last)),
     snd last)
    = (["  ✅ Enter /tmp: Navigated to /tmp";
        "<i>🔍 Turn 1/50: Checking if goal achieved...</i>";
        "<i>⚠️ Could not verify status, stopping.</i>";
        "<b>Navigator:</b> Done!"], 1, Finished).
Proof.
  split; [vm_compute; reflexivity|]. eexists. split; vm_compute; reflexivity.
Qed.

(** ** Executor: a move that fails *)

Section MoveFileFacts.

Variable py_repr : json -> string.
Variable World : Type.
Variable expand : string -> World -> result string.
Variable path_join : string -> string -> string.
Variable basename : string -> string.
Variable isdir : string -> World -> bool.
Variable path_exists : string -> World -> bool.
Variable shutil_move : string -> string -> World -> result unit * World.
Variable others : Handler -> json -> World -> result string * World.

#[local] Abbreviation move :=
  (move_file World expand path_join basename isdir path_exists shutil_move).
#[local] Abbreviation handlers :=
  (with_move_file World expand path_join basename isdir path_exists shutil_move others).

(** A MOVE_FILE step with a mapping for its parameters is reported by what
    [_move_file] does: a returned text with the check mark, and the batch
    goes on; an exception with the cross mark, and the batch stops. *)
Lemma move_file_step (kvs fields : list (string * json)) (rest : list json)
  (results : list string) (w : World) :
  step_action kvs = JStr "MOVE_FILE" ->
  step_params kvs = JObj fields ->
  execute_steps py_repr World handlers (JObj kvs :: rest) results w
  = match move (JObj fields) w with
    | (Ret text, w') =>
      execute_steps py_repr World handlers rest
                    (append results ("✅ " ++ to_str py_repr (step_desc kvs) ++ ": " ++ text)) w'
    | (Raise e, w') =>
      (append results ("❌ " ++ to_str py_repr (step_desc kvs) ++ ": Error - " ++ exn_text e), w')
    end.
Proof.
  intros Haction Hparams. cbn [execute_steps]. rewrite Hparams.
  rewrite (normalize_params_dict py_repr _ (JObj fields) results eq_refl).
  unfold _execute_action. rewrite Haction. simpl table_find. cbv iota.
  unfold with_move_file at 1. reflexivity.
Qed.

Lemma str_truthy (s : string) : s <> EmptyString -> py_truthy (JStr s) = true.
Proof. intro H. simpl. apply negb_true_iff, String.eqb_neq. exact H. Qed.

(** X24: a move that fails does not stop the batch.  For a MOVE_FILE step
    whose source and destination are strings: when one of them is empty, or
    the source does not exist, or [shutil.move] returns or raises, the
    handler returns a text, so [execute] reports the step with the check mark
    and goes on with the steps that follow; when the move itself raises, the
    text of that line is 'Move failed: ...' with the error.  Only when
    expanding one of the two paths raises does the step get the cross mark,
    and the batch stops there. *)
Theorem move_file_step_outcomes :
  forall (kvs fields : list (string * json)) (rest : list json) (results : list string)
         (w : World) (source destination : string),
    step_action kvs = JStr "MOVE_FILE" ->
    step_params kvs = JObj fields ->
    dict_get fields "source" (JStr EmptyString) = JStr source ->
    dict_get fields "destination" (JStr EmptyString) = JStr destination ->
    let goes_on := fun (text : string) (w' : World) =>
      move (JObj fields) w = (Ret text, w') /\
      execute_steps py_repr World handlers (JObj kvs :: rest) results w
      = execute_steps py_repr World handlers rest
                      (append results ("✅ " ++ to_str py_repr (step_desc kvs) ++ ": " ++ text))
                      w' in
    let stops := fun (e : exn) =>
      move (JObj fields) w = (Raise e, w) /\
      execute_steps py_repr World handlers (JObj kvs :: rest) results w
      = (append results ("❌ " ++ to_str py_repr (step_desc kvs) ++ ": Error - " ++ exn_text e),
         w) in
    (source = EmptyString \/ destination = EmptyString ->
     goes_on "Both source and destination required" w) /\
    (source <> EmptyString -> destination <> EmptyString ->
     (forall e, expand source w = Raise e -> stops e) /\
     (forall source' e,
         expand source w = Ret source' -> expand destination w = Raise e -> stops e) /\
     (forall source' destination',
         expand source w = Ret source' -> expand destination w = Ret destination' ->
         let target := if isdir destination' w then path_join destination' (basename source')
                       else destination' in
         (path_exists source' w = false -> goes_on ("Source not found: " ++ source') w) /\
         (forall u w1,
             path_exists source' w = true ->
             shutil_move source' target w = (Ret u, w1) ->
             goes_on ("Moved " ++ source' ++ " → " ++ target) w1) /\
         (forall e w1,
             path_exists source' w = true ->
             shutil_move source' target w = (Raise e, w1) ->
             goes_on ("Move failed: " ++ exn_text e) w1))).
Proof.
  intros kvs fields rest results w source destination Haction Hparams Hs Hd.
  pose proof (move_file_step kvs fields rest results w Haction Hparams) as Hstep.
  assert (Hreturn : forall text w', move (JObj fields) w = (Ret text, w') ->
            move (JObj fields) w = (Ret text, w') /\
            execute_steps py_repr World handlers (JObj kvs :: rest) results w
            = execute_steps py_repr World handlers rest
                (append results ("✅ " ++ to_str py_repr (step_desc kvs) ++ ": " ++ text)) w').
  { intros text w' Hmove. split; [exact Hmove|]. rewrite Hstep, Hmove. reflexivity. }
  assert (Hraise : forall e, move (JObj fields) w = (Raise e, w) ->
            move (JObj fields) w = (Raise e, w) /\
            execute_steps py_repr World handlers (JObj kvs :: rest) results w
            = (append results ("❌ " ++ to_str py_repr (step_desc kvs) ++ ": Error - " ++
                               exn_text e), w)).
  { intros e Hmove. split; [exact Hmove|]. rewrite Hstep, Hmove. reflexivity. }
  cbv zeta. split.
  - intros Hempty. apply Hreturn. unfold move_file. simpl py_get. rewrite Hs, Hd.
    cbv beta iota delta [bind].
    destruct Hempty as [E|E]; rewrite E; [reflexivity|].
    rewrite orb_true_r. reflexivity.
  - intros Hsne Hdne.
    assert (Hmove : move (JObj fields) w
                    = match (source' <- expand source w ;;
                             destination' <- expand destination w ;;
                             Ret (source', destination')) with
                      | Raise e => (Raise e, w)
                      | Ret (source', destination') =>
                        let target :=
                          if isdir destination' w then path_join destination' (basename source')
                          else destination' in
                        if negb (path_exists source' w)
                        then (Ret ("Source not found: " ++ source'), w)
                        else
                          match shutil_move source' target w with
                          | (Ret _, w') => (Ret ("Moved " ++ source' ++ " → " ++ target), w')
                          | (Raise e, w') => (Ret ("Move failed: " ++ exn_text e), w')
                          end
                      end).
    { unfold move_file. simpl py_get. rewrite Hs, Hd. cbv beta iota delta [bind].
      rewrite (str_truthy _ Hsne), (str_truthy _ Hdne). reflexivity. }
    split; [|split].
    + intros e He. apply Hraise. rewrite Hmove, He. reflexivity.
    + intros source' e Hsrc He. apply Hraise. rewrite Hmove, Hsrc. cbv beta iota delta [bind].
      rewrite He. reflexivity.
    + intros source' destination' Hsrc Hdst. split; [|split].
      * intro Hmissing. apply Hreturn. rewrite Hmove, Hsrc. cbv beta iota delta [bind].
        rewrite Hdst. cbv beta iota zeta. rewrite Hmissing. reflexivity.
      * intros u w1 Hexists Hmoved. apply Hreturn. rewrite Hmove, Hsrc.
        cbv beta iota delta [bind]. rewrite Hdst. cbv beta iota zeta.
        rewrite Hexists, Hmoved. reflexivity.
      * intros e w1 Hexists Hfailed. apply Hreturn. rewrite Hmove, Hsrc.
        cbv beta iota delta [bind]. rewrite Hdst. cbv beta iota zeta.
        rewrite Hexists, Hfailed. reflexivity.
Qed.

End MoveFileFacts.

Lemma move_file_step_outcomes_witness :
  let shutil_move := fun (s d : string) (w : demo_world) =>
                       (@Raise unit (mkExn OSError "[Errno 13] Permission denied: '/etc/b'"), w) in
  let expand := fun (p : string) (w : demo_world) => Ret p in
  let handlers := with_move_file demo_world expand (fun a b => a ++ "/" ++ b) (fun p => p)
                                 (fun _ _ => false) (fun _ _ => true) shutil_move demo_handler in
  let fields := [("source", JStr "/tmp/a"); ("destination", JStr "/etc/b")] in
  let kvs := [("action", JStr "MOVE_FILE"); ("params", JObj fields);
              ("description", JStr "Move a")] in
  let rest := [JObj [("action", JStr "DELETE_FILE"); ("params", JObj [("path", JStr "/tmp/a")]);
                     ("description", JStr "Remove the original")]] in
  execute_steps repr_simple demo_world handlers (JObj kvs :: rest) [] ["/tmp/a"]
  = execute_steps repr_simple demo_world handlers rest
      ["✅ Move a: Move failed: [Errno 13] Permission denied: '/etc/b'"] ["/tmp/a"].
Proof.
  intros shutil_move expand handlers fields kvs rest.
  destruct (move_file_step_outcomes repr_simple demo_world expand
              (fun a b => a ++ "/" ++ b) (fun p => p) (fun _ _ => false) (fun _ _ => true)
              shutil_move demo_handler kvs fields rest [] ["/tmp/a"] "/tmp/a" "/etc/b"
              eq_refl eq_refl eq_refl eq_refl) as [_ Hpaths].
  destruct Hpaths as (_ & _ & Hmove); [discriminate|discriminate|].
  destruct (Hmove "/tmp/a" "/etc/b" eq_refl eq_refl) as (_ & _ & Hfailed).
  destruct (Hfailed (mkExn OSError "[Errno 13] Permission denied: '/etc/b'") ["/tmp/a"]
                    eq_refl eq_refl) as [_ Hgoes].
  exact Hgoes.
Defined.

Example failed_move_then_delete :
  let shutil_move := fun (s d : string) (w : demo_world) =>
                       (@Raise unit (mkExn OSError "[Errno 13] Permission denied: '/etc/b'"), w) in
  let handlers := with_move_file demo_world (fun p _ => Ret p) (fun a b => a ++ "/" ++ b)
                                 (fun p => p) (fun _ _ => false) (fun _ _ => true)
                                 shutil_move demo_handler in
  execute_steps repr_simple demo_world handlers
    [JObj [("action", JStr "MOVE_FILE");
           ("params", JObj [("source", JStr "/tmp/a"); ("destination", JStr "/etc/b")]);
           ("description", JStr "Move a")];
     JObj [("action", JStr "DELETE_FILE"); ("params", JObj [("path", JStr "/tmp/a")]);
           ("description", JStr "Remove the original")]]
    [] ["/tmp/a"]
  = (["✅ Move a: Move failed: [Errno 13] Permission denied: '/etc/b'";
      "✅ Remove the original: Deleted file /tmp/a"], []).
Proof. vm_compute. reflexivity. Qed.

(** A path whose expansion raises: the step gets the cross mark and the
    step after it is not attempted. *)
Example unexpandable_move_stops_batch :
  let shutil_move := fun (s d : string) (w : demo_world) => (Ret tt, w) in
  let expand := fun (p : string) (w : demo_world) =>
                  if is_prefix "~" p then Raise (mkExn ValueError "embedded null byte")
                  else Ret p in
  let handlers := with_move_file demo_world expand (fun a b => a ++ "/" ++ b)
                                 (fun p => p) (fun _ _ => false) (fun _ _ => true)
                                 shutil_move demo_handler in
  execute_steps repr_simple demo_world handlers
    [JObj [("action", JStr "MOVE_FILE");
           ("params", JObj [("source", JStr "~a"); ("destination", JStr "/etc/b")]);
           ("description", JStr "Move a")];
     JObj [("action", JStr "DELETE_FILE"); ("params", JObj [("path", JStr "/tmp/a")]);
           ("description", JStr "Remove the original")]]
    [] ["/tmp/a"]
  = (["❌ Move a: Error - embedded null byte"], ["/tmp/a"]).
Proof. vm_compute. reflexivity. Qed.
